(** * DKB-Scraper: a shallow embedding of [dkbscraper.py]

    The module [dkbscraper] drives a banking portal through a
    [requests.Session], parses the pages with [lxml.html] and [bs4], and
    stores documents and CSV exports on the local file system.

    The embedding keeps the layout of the Python class [DKBSession]:
    - Python strings are [string]; [str.split], [in] and [%]-formatting are
      written out;
    - a parsed page is a tree of [bs4] nodes, queried in document order;
    - the methods run in a state-and-exception monad over a [world] made of
      the session attributes, the file system and the trace of external
      effects (requests, prints, sleeps, file operations);
    - the server, the credential prompt and the operating system are an
      [env] of oracles. *)

From Stdlib Require Import Ascii String ZArith DecimalString.
From stdpp Require Import gmap strings list fin_maps.

Open Scope string_scope.
Open Scope list_scope.
Set Warnings "-register-all".

(** ** Python strings *)

Module PyStr.

(** [c in s] for a one-character [c]. *)
Fixpoint has_char (c : ascii) (s : string) : bool :=
  match s with
  | EmptyString => false
  | String d s' => Ascii.eqb d c || has_char c s'
  end.

(** [s.split(sep)] for a one-character separator: the pieces between the
    occurrences of [sep]; the list is never empty. *)
Fixpoint split (sep : ascii) (s : string) : list string :=
  match s with
  | EmptyString => [EmptyString]
  | String c s' =>
      if Ascii.eqb c sep then EmptyString :: split sep s'
      else match split sep s' with
           | [] => [String c EmptyString]
           | piece :: pieces => String c piece :: pieces
           end
  end.

(** [l[-1]] and [l[0]] on a list of strings; [IndexError] on the empty
    list is the [None] case. *)
Definition item_last (l : list string) : option string := last l.
Definition item_first (l : list string) : option string := head l.

(** [needle in hay] on strings: [needle] occurs as a substring. *)
Fixpoint contains (needle hay : string) : bool :=
  String.prefix needle hay ||
  match hay with
  | EmptyString => false
  | String _ hay' => contains needle hay'
  end.

(** [s.endswith(suffix)]. *)
Fixpoint endswith (s suffix : string) : bool :=
  String.eqb s suffix ||
  match s with
  | EmptyString => false
  | String _ s' => endswith s' suffix
  end.

(** The text after the first occurrence of [c] (empty when there is none). *)
Fixpoint after_first (c : ascii) (s : string) : string :=
  match s with
  | EmptyString => EmptyString
  | String d s' => if Ascii.eqb d c then s' else after_first c s'
  end.

End PyStr.

(** ** File names of postbox documents *)

(** Line 144: [url.split('/')[-1].split('?')[0] + '.pdf'].  Both indexings
    are on the result of [split], which is never empty. *)
Definition filename_of_url (url : string) : string :=
  let segment := default "" (PyStr.item_last (PyStr.split "/" url)) in
  default "" (PyStr.item_first (PyStr.split "?" segment)) +:+ ".pdf".

(** The derivation in the words of the specification: the last path
    segment of the url, with any query string stripped, and the
    extension.  The path of a url ends where its query string or its
    fragment begins, at the first ['?'] or ['#']; its segments are the
    pieces between the ['/']. *)
Fixpoint url_path (url : string) : string :=
  match url with
  | EmptyString => EmptyString
  | String c rest =>
      if Ascii.eqb c "?" || Ascii.eqb c "#" then EmptyString
      else String c (url_path rest)
  end.

Definition last_path_segment (url : string) : string :=
  default "" (PyStr.item_last (PyStr.split "/" (url_path url))).

Definition strip_query (s : string) : string :=
  default "" (PyStr.item_first (PyStr.split "?" s)).

Definition spec_filename_of_url (url : string) : string :=
  strip_query (last_path_segment url) +:+ ".pdf".

(** The query string of a url: what follows its first ['?']. *)
Definition query_of_url (url : string) : string := PyStr.after_first "?" url.

(** ** Dates and [strftime] *)

(** A [datetime.date]: year, month and day. *)
Record date := Date { year : nat; month : nat; day : nat }.


(** A decimal numeral, zero-padded on the left to [width] digits. *)
Definition zero_padded (width n : nat) : string :=
  let digits := NilEmpty.string_of_uint (Nat.to_uint n) in
  String.concat "" (replicate (width - String.length digits) "0") +:+ digits.

(** [d.strftime("%d.%m.%Y")]: day and month on two digits, the year on
    four, as the documentation of [strftime] gives them. *)
Definition strftime_dmY (d : date) : string :=
  zero_padded 2 (day d) +:+ "." +:+ zero_padded 2 (month d) +:+ "."
  +:+ zero_padded 4 (year d).

(** What a caller can pass for a date argument: Python does not type the
    parameters.  A [datetime.datetime] has a date part and formats like a
    date, but its [type] is not [datetime.date]. *)
Inductive pyvalue :=
| PyDate (d : date)
| PyDatetime (d : date)
| PyOther.

(** ** Exceptions and results *)

Inductive exn :=
| RuntimeError (msg : string)
| AssertionError (msg : string)
| AttributeError
| TypeError
| KeyError
| ValueError
| ParserError
| OSError.

Inductive result (A : Type) :=
| Ok (a : A)
| Raise (e : exn).
Arguments Ok {A} a.
Arguments Raise {A} e.

(** The names the specification gives to the errors of [login]. *)
Definition LoginFormNotFound : exn := RuntimeError "Login Form not found.".
Definition AuthenticationFailed : exn :=
  RuntimeError "Login to DKB Online Banking failed.".

(** ** Parsed pages: the [bs4] tree *)

Module Bs4.

Inductive node :=
| NavigableString (s : string)
| Tag (name : string) (attrs : list (string * string)) (contents : list node).

(** The descendants of a node in document order, each with its parent. *)
Fixpoint descendants_with_parent (n : node) : list (node * node) :=
  match n with
  | NavigableString _ => []
  | Tag _ _ contents =>
      flat_map (fun c => (n, c) :: descendants_with_parent c) contents
  end.

Definition descendants (n : node) : list node :=
  map snd (descendants_with_parent n).

(** [tag.get(key)]. *)
Definition get (key : string) (n : node) : option string :=
  match n with
  | NavigableString _ => None
  | Tag _ attrs _ => snd <$> List.find (fun kv => String.eqb (fst kv) key) attrs
  end.

(** The filters of [find]: a tag name, an attribute value. *)
Definition named (nm : string) (n : node) : bool :=
  match n with
  | NavigableString _ => false
  | Tag name _ _ => String.eqb name nm
  end.

Definition with_attr (key value : string) (n : node) : bool :=
  match get key n with
  | Some v => String.eqb v value
  | None => false
  end.

(** [n.find(...)] (also [findChild]): the first matching descendant. *)
Definition find (p : node -> bool) (n : node) : option node :=
  List.find p (descendants n).

(** [n.find_all(...)] (also [findChildren]): all matching descendants. *)
Definition find_all (p : node -> bool) (n : node) : list node :=
  List.filter p (descendants n).

(** [n.find(...).find_parent()]: the parent of the first matching
    descendant. *)
Definition find_then_parent (p : node -> bool) (n : node) : option node :=
  fst <$> List.find (fun pc => p (snd pc)) (descendants_with_parent n).

(** [n.find(text=s)]: the first string of the tree equal to [s]. *)
Definition find_text (s : string) (n : node) : option string :=
  List.find (String.eqb s)
    (flat_map (fun d => match d with NavigableString t => [t] | Tag _ _ _ => [] end)
       (descendants n)).

(** [n.text]: the strings of the tree, concatenated. *)
Definition text (n : node) : string :=
  String.concat ""
    (flat_map (fun d => match d with NavigableString t => [t] | Tag _ _ _ => [] end)
       (descendants n)).

(** Truth value of an optional string: [None] and [''] are false. *)
Definition truthy_string (o : option string) : bool :=
  match o with
  | Some s => negb (String.eqb s "")
  | None => false
  end.

(** [o.name] for an attribute access such as [.a] or [.table] on the
    result of a [find]: [AttributeError] on [None]. *)
Definition child (nm : string) (o : option node) : result (option node) :=
  match o with
  | Some n => Ok (find (named nm) n)
  | None => Raise AttributeError
  end.

(** [o[key]] on the result of a [find]: [TypeError] on [None], [KeyError]
    when the tag has no such attribute. *)
Definition getitem (key : string) (o : option node) : result string :=
  match o with
  | None => Raise TypeError
  | Some n => match get key n with
              | Some v => Ok v
              | None => Raise KeyError
              end
  end.

End Bs4.

(** ** Forms, as [lxml.html] exposes them *)

(** A form: its action, its fields as [dict(form.fields)] shows them
    (the name of each input with its value), and, for the inputs that are
    a [select] or a group of radio buttons, the values they offer. *)
Record form := Form {
  action : option string;
  fields : gmap string string;
  choices : gmap string (list string)
}.

(** What [form.fields[key] = value] checks before it assigns: [KeyError]
    when the form has no input of that name, [ValueError] when the input
    is a [select] or a radio group that does not offer the value. *)
Definition check_field (key value : string) (f : form) : result unit :=
  match fields f !! key with
  | None => Raise KeyError
  | Some _ =>
      match choices f !! key with
      | Some offered =>
          if existsb (String.eqb value) offered then Ok tt else Raise ValueError
      | None => Ok tt
      end
  end.

(** The form once the assignment is done. *)
Definition with_field (key value : string) (f : form) : form :=
  Form (action f) (<[key := value]> (fields f)) (choices f).

(** [form.fields[key] = value]. *)
Definition set_field (key value : string) (f : form) : result form :=
  match check_field key value f with
  | Ok _ => Ok (with_field key value f)
  | Raise err => Raise err
  end.

(** The [for ... else] scan of lines 70-75 and 222-227: the first form
    whose fields have the key. *)
Definition find_form (key : string) (forms : list form) : option form :=
  List.find (fun f => bool_decide (is_Some (fields f !! key))) forms.

(** ** Responses, effects and the world *)

(** An HTTP response: status, decoded body, raw byte stream, and the body
    as the two parsers show it: the forms of [lxml.html.fromstring(r.text)],
    which are [None] when that call raises [ParserError] (as it does on
    an empty body), and [bs4.BeautifulSoup(r.text)]. *)
Record response := Response {
  status_code : Z;
  text : string;
  raw : string;
  lxml_forms : option (list form);
  soup : Bs4.node
}.

(** [lxml.html.fromstring(r.text).forms]. *)
Definition fromstring_forms (r : response) : result (list form) :=
  match lxml_forms r with
  | Some page_forms => Ok page_forms
  | None => Raise ParserError
  end.

(** The forms of a page; a body that does not parse has none. *)
Definition forms (r : response) : list form := default [] (lxml_forms r).

(** The external effects, in the order a run performs them. *)
Inductive event :=
| EGet (url : string)
| EPost (url : string) (data : gmap string string)
| EGetpass
| EPrint (line : string)
| ESleep (seconds : Z)
| EClose
| ETempfile (path : string)
| ECopyfile (src dst : string)
| EUnlink (path : string)
| EWrite (path content : string).

(** The ordered dictionary [self.accounts]: keys in insertion order. *)
Definition dict := list (string * string).

Definition dict_keys (d : dict) : list string := map fst d.

Definition dict_getitem (key : string) (d : dict) : result string :=
  match List.find (fun kv => String.eqb (fst kv) key) d with
  | Some kv => Ok (snd kv)
  | None => Raise KeyError
  end.

(** [d[key] = value]: replaces in place, or appends a new key. *)
Fixpoint dict_setitem (key value : string) (d : dict) : dict :=
  match d with
  | [] => [(key, value)]
  | (k, v) :: d' =>
      if String.eqb k key then (k, value) :: d'
      else (k, v) :: dict_setitem key value d'
  end.

(** The attributes of a [DKBSession]; an attribute that was never
    assigned is [None]. *)
Record session := Session {
  verbose : bool;
  closed : bool;
  logout_url : option string;
  postbox_url : option string;
  umsatz_url : option string;
  accounts : option dict
}.

Record world := World {
  sess : session;
  fs : gmap string string;
  trace : list event
}.

(** The collaborators: the server answers from the history of the run,
    the prompt supplies the password, the operating system proposes a
    temporary file name and refuses to create files at some paths. *)
Record env := Env {
  server_get : list event -> string -> response;
  server_post : list event -> string -> gmap string string -> response;
  getpass : list event -> string;
  mktemp : gmap string string -> string;
  writable : string -> bool
}.

(** The named tuple of lines 20-28. *)
Record PostboxDocument := mkPostboxDocument {
  title : string;
  is_read : bool;
  url : string;
  filename : string
}.

Definition base_url : string := "https://www.dkb.de".
Definition login_url : string := "/-?$javascript=disabled".

(** ** The monad of the methods: state over [world], with exceptions *)

Definition M (A : Type) : Type := world -> result A * world.

Definition ret {A} (a : A) : M A := fun w => (Ok a, w).

Definition raise {A} (e : exn) : M A := fun w => (Raise e, w).

Definition bind {A B} (m : M A) (k : A -> M B) : M B :=
  fun w =>
    match m w with
    | (Ok a, w') => k a w'
    | (Raise e, w') => (Raise e, w')
    end.

Notation "x <- m ;; k" := (bind m (fun x => k))
  (at level 100, m at next level, right associativity).
Notation "m ;;; k" := (bind m (fun _ => k))
  (at level 100, right associativity).

(** A pure computation that may raise. *)
Definition lift {A} (r : result A) : M A := fun w => (r, w).

Definition emit (e : event) : M unit :=
  fun w => (Ok tt, World (sess w) (fs w) (trace w ++ [e])).

Definition print (line : string) : M unit := emit (EPrint line).

(** [if self.verbose: print(line)]. *)
Definition print_if_verbose (line : string) : M unit :=
  fun w => if verbose (sess w) then print line w else (Ok tt, w).

(** [time.sleep(seconds)]. *)
Definition sleep (seconds : Z) : M unit := emit (ESleep seconds).

(** Reading an attribute of [self]: [AttributeError] when it was never
    assigned. *)
Definition self_attr {A} (proj : session -> option A) : M A :=
  fun w =>
    match proj (sess w) with
    | Some a => (Ok a, w)
    | None => (Raise AttributeError, w)
    end.

Definition update_session (f : session -> session) : M unit :=
  fun w => (Ok tt, World (f (sess w)) (fs w) (trace w)).

Definition set_logout_url (u : string) (s : session) : session :=
  Session (verbose s) (closed s) (Some u) (postbox_url s) (umsatz_url s) (accounts s).
Definition set_postbox_url (u : string) (s : session) : session :=
  Session (verbose s) (closed s) (logout_url s) (Some u) (umsatz_url s) (accounts s).
Definition set_umsatz_url (u : string) (s : session) : session :=
  Session (verbose s) (closed s) (logout_url s) (postbox_url s) (Some u) (accounts s).
Definition set_accounts (d : dict) (s : session) : session :=
  Session (verbose s) (closed s) (logout_url s) (postbox_url s) (umsatz_url s) (Some d).
Definition set_closed (s : session) : session :=
  Session (verbose s) true (logout_url s) (postbox_url s) (umsatz_url s) (accounts s).

(** [base + o] where [o] may be [None]: [TypeError] then. *)
Definition concat_url (base : string) (o : option string) : result string :=
  match o with
  | Some s => Ok (base +:+ s)
  | None => Raise TypeError
  end.

(** ** File system operations *)

(** [os.path.exists(path)]. *)
Definition path_exists (path : string) : M bool :=
  fun w => (Ok (bool_decide (is_Some (fs w !! path))), w).

Section Session.

Context (E : env).

(** [self.s.get(url)] and [self.s.post(url, data=data)]. *)
Definition http_get (url : string) : M response :=
  fun w => (Ok (server_get E (trace w) url),
            World (sess w) (fs w) (trace w ++ [EGet url])).

Definition http_post (url : string) (data : gmap string string) : M response :=
  fun w => (Ok (server_post E (trace w) url data),
            World (sess w) (fs w) (trace w ++ [EPost url data])).

(** [self.s.close()]. *)
Definition close_client : M unit :=
  fun w => (Ok tt, World (set_closed (sess w)) (fs w) (trace w ++ [EClose])).

(** [getpass.getpass()]. *)
Definition read_password : M string :=
  fun w => (Ok (getpass E (trace w)),
            World (sess w) (fs w) (trace w ++ [EGetpass])).

(** Lines 172-174: [NamedTemporaryFile(delete=False)] creates a file that
    did not exist, [copyfileobj] fills it, and the block returns its name.
    The operating system proposes the name; creation is exclusive. *)
Definition named_temporary_file (content : string) : M string :=
  fun w =>
    let name := mktemp E (fs w) in
    match fs w !! name with
    | Some _ => (Raise OSError, w)
    | None => (Ok name, World (sess w) (<[name := content]> (fs w))
                          (trace w ++ [ETempfile name]))
    end.

(** [shutil.copyfile(src, dst)]: fails when [src] is missing or [dst]
    cannot be created; nothing is written then. *)
Definition copyfile (src dst : string) : M unit :=
  fun w =>
    match fs w !! src with
    | None => (Raise OSError, w)
    | Some content =>
        if writable E dst
        then (Ok tt, World (sess w) (<[dst := content]> (fs w))
                       (trace w ++ [ECopyfile src dst]))
        else (Raise OSError, w)
    end.

(** [os.unlink(path)]. *)
Definition unlink (path : string) : M unit :=
  fun w =>
    match fs w !! path with
    | None => (Raise OSError, w)
    | Some _ => (Ok tt, World (sess w) (delete path (fs w))
                          (trace w ++ [EUnlink path]))
    end.

(** Lines 245-254: [open(path, 'w')], [write(content)], [close()]. *)
Definition write_file (path content : string) : M unit :=
  fun w =>
    if writable E path
    then (Ok tt, World (sess w) (<[path := content]> (fs w))
                   (trace w ++ [EWrite path content]))
    else (Raise OSError, w).

(** ** [DKBSession.login] (lines 56-101) *)

Definition login (username : string) : M bool :=
  print_if_verbose "Login to DKB Online Banking" ;;;
  r <- http_get (base_url +:+ login_url) ;;
  login_page_forms <- lift (fromstring_forms r) ;;
  login_form <- lift (match find_form "j_username" login_page_forms with
                      | Some f => Ok f
                      | None => Raise (RuntimeError "Login Form not found.")
                      end) ;;
  login_form <- lift (set_field "j_username" username login_form) ;;
  password <- read_password ;;
  login_form <- lift (set_field "j_password" password login_form) ;;
  post_url <- lift (concat_url base_url (action login_form)) ;;
  r <- http_post post_url (fields login_form) ;;
  let soup := soup r in
  (if Bs4.truthy_string (Bs4.find_text "Finanzstatus" soup)
   then ret tt
   else raise (RuntimeError "Login to DKB Online Banking failed.")) ;;;
  u <- lift (Bs4.getitem "href"
               (Bs4.find (fun n => Bs4.named "a" n && Bs4.with_attr "id" "logout" n) soup)) ;;
  update_session (set_logout_url u) ;;;
  a <- lift (Bs4.child "a" (Bs4.find (Bs4.with_attr "tid" "Postfach") soup)) ;;
  u <- lift (Bs4.getitem "href" a) ;;
  update_session (set_postbox_url u) ;;;
  a <- lift (Bs4.child "a" (Bs4.find (Bs4.with_attr "tid" "Umsaetze") soup)) ;;
  u <- lift (Bs4.getitem "href" a) ;;
  update_session (set_umsatz_url u) ;;;
  print_if_verbose "Logged in to DKB Online Banking" ;;;
  ret true.

(** ** [DKBSession.logout] (lines 103-115) *)

Definition logout : M bool :=
  print_if_verbose "Log out from DKB Online Banking" ;;;
  u <- self_attr logout_url ;;
  r <- http_get (base_url +:+ u) ;;
  let ret_ := Z.eqb (status_code r) 200 in
  close_client ;;;
  ret ret_.

(** ** [DKBSession.postbox_items] (lines 117-151) *)

(** The body of the loop for one row (lines 134-151). *)
Definition postbox_row (row : Bs4.node) : result PostboxDocument :=
  let cell := Bs4.find (Bs4.with_attr "id" "title") row in
  match Bs4.child "strong" cell with
  | Raise e => Raise e
  | Ok strong =>
      let is_read := negb (bool_decide (is_Some strong)) in
      match Bs4.child "a" cell with
      | Raise e => Raise e
      | Ok None => Raise AttributeError
      | Ok (Some a) =>
          let title := Bs4.text a in
          match Bs4.find_then_parent (Bs4.with_attr "title" "Speichern") row with
          | None => Raise AttributeError
          | Some parent =>
              match Bs4.get "href" parent with
              | None => Raise AttributeError
              | Some url =>
                  Ok (mkPostboxDocument title is_read url (filename_of_url url))
              end
          end
      end
  end.

(** The generator over the rows: the documents it yields, and the
    exception that ends it when a row cannot be read. *)
Fixpoint postbox_rows (rows : list Bs4.node) : list PostboxDocument * option exn :=
  match rows with
  | [] => ([], None)
  | row :: rest =>
      match postbox_row row with
      | Raise e => ([], Some e)
      | Ok doc => let (docs, e) := postbox_rows rest in (doc :: docs, e)
      end
  end.

(** The rows the loop of line 132 visits:
    [table.table.tbody.findChildren(name='tr')]. *)
Definition postbox_table_rows (soup : Bs4.node) : result (list Bs4.node) :=
  let table := Bs4.find (Bs4.with_attr "id" "documentsTableOverview_outer") soup in
  match Bs4.child "table" table with
  | Raise e => Raise e
  | Ok inner =>
      match Bs4.child "tbody" inner with
      | Raise e => Raise e
      | Ok None => Raise AttributeError
      | Ok (Some tbody) => Ok (Bs4.find_all (Bs4.named "tr") tbody)
      end
  end.

(** [list(self.postbox_items())], as in the usage of the docstring. *)
Definition postbox_items : M (list PostboxDocument) :=
  u <- self_attr postbox_url ;;
  r <- http_get (base_url +:+ u) ;;
  rows <- lift (postbox_table_rows (soup r)) ;;
  match postbox_rows rows with
  | (docs, None) => ret docs
  | (_, Some e) => raise e
  end.

(** ** [DKBSession.download_document] (lines 153-190) *)

Definition dquote : string := String "034"%char EmptyString.

(** The loop of lines 177-185. *)
Fixpoint copy_to_destinations (tmp_filename : string) (destinations : list string)
  : M unit :=
  match destinations with
  | [] => ret tt
  | dest :: rest =>
      print_if_verbose ("Copy to " +:+ dest) ;;;
      dest_exists <- path_exists dest ;;
      (if dest_exists
       then print (dquote +:+ dest +:+ dquote +:+ " already exists")
       else copyfile tmp_filename dest) ;;;
      copy_to_destinations tmp_filename rest
  end.

Definition download_document (document : PostboxDocument)
    (destinations : list string) : M bool :=
  let url := base_url +:+ url document in
  print_if_verbose ("Download document '" +:+ title document +:+ "'") ;;;
  r <- http_get url ;;
  (if negb (Z.eqb (status_code r) 200)
   then raise (RuntimeError "Download failed.")
   else ret tt) ;;;
  tmp_filename <- named_temporary_file (raw r) ;;
  copy_to_destinations tmp_filename destinations ;;;
  unlink tmp_filename ;;;
  ret true.

(** ** [DKBSession.get_banking_accounts] (lines 192-204) *)

(** The loop of lines 203-204, on the dictionary built so far. *)
Fixpoint collect_accounts (options : list Bs4.node) (d : dict) : dict * option exn :=
  match options with
  | [] => (d, None)
  | account :: rest =>
      match Bs4.getitem "value" (Some account) with
      | Raise e => (d, Some e)
      | Ok value => collect_accounts rest (dict_setitem value (Bs4.text account) d)
      end
  end.

Definition get_banking_accounts : M unit :=
  u <- self_attr umsatz_url ;;
  r <- http_get (base_url +:+ u) ;;
  let slAllAccounts := Bs4.find (Bs4.with_attr "tid" "slAllAccounts") (soup r) in
  update_session (set_accounts []) ;;;
  match slAllAccounts with
  | None => raise AttributeError
  | Some sel =>
      let (d, e) := collect_accounts (Bs4.find_all (Bs4.named "option") sel) [] in
      update_session (set_accounts d) ;;;
      match e with
      | None => ret tt
      | Some e => raise e
      end
  end.

(** ** [DKBSession.get_all_banking_account_transactions] (lines 206-255) *)

(** [type(v) == datetime.date]. *)
Definition is_date (v : pyvalue) : bool :=
  match v with PyDate _ => true | _ => false end.

(** [v.strftime("%d.%m.%Y")]. *)
Definition strftime (v : pyvalue) : result string :=
  match v with
  | PyDate d | PyDatetime d => Ok (strftime_dmY d)
  | PyOther => Raise AttributeError
  end.

(** The file name of line 246:
    [destination + "ac%s_%s_to_%s.csv" % (o, start, end)]. *)
Definition csv_path (destination start_date_str end_date_str o : string) : string :=
  destination +:+ "ac" +:+ o +:+ "_" +:+ start_date_str +:+ "_to_"
  +:+ end_date_str +:+ ".csv".

(** Line 230: the test that keeps an account out of the export. *)
Definition excluded (display_name : string) : bool :=
  PyStr.contains "PayPal" display_name.

(** Lines 231-234: the four assignments to the fields of the form. *)
Definition fill_selection_form (start_date_str end_date_str : string)
    (select_form : form) (o : string) : result form :=
  match set_field "slAllAccounts" o select_form with
  | Raise err => Raise err
  | Ok select_form =>
      match set_field "searchPeriodRadio" "1" select_form with
      | Raise err => Raise err
      | Ok select_form =>
          match set_field "transactionDate" start_date_str select_form with
          | Raise err => Raise err
          | Ok select_form => set_field "toTransactionDate" end_date_str select_form
          end
      end
  end.

(** Lines 231-254: the export of the account with key [o].  The form
    object is the one found before the loop; the assignments to its
    fields stay for the following accounts. *)
Definition export_account (destination start_date_str end_date_str : string)
    (select_form : form) (o : string) : M form :=
  select_form <- lift (fill_selection_form start_date_str end_date_str select_form o) ;;
  post_url <- lift (concat_url base_url (action select_form)) ;;
  r <- http_post post_url (fields select_form) ;;
  csv_url <- lift (Bs4.getitem "href"
                     (Bs4.find (fun n => Bs4.named "a" n && Bs4.with_attr "tid" "csvExport" n)
                        (soup r))) ;;
  r <- http_get (base_url +:+ csv_url) ;;
  write_file (csv_path destination start_date_str end_date_str o) (text r) ;;;
  ret select_form.

(** The loop of lines 229-255 over [list(self.accounts.keys())]. *)
Fixpoint export_loop (destination start_date_str end_date_str : string)
    (accounts : dict) (select_form : form) (keys : list string) : M form :=
  match keys with
  | [] => ret select_form
  | o :: rest =>
      display_name <- lift (dict_getitem o accounts) ;;
      select_form <-
        (if negb (excluded display_name)
         then export_account destination start_date_str end_date_str select_form o
         else ret select_form) ;;
      sleep 5 ;;;
      export_loop destination start_date_str end_date_str accounts select_form rest
  end.

Definition get_all_banking_account_transactions
    (start_date end_date : pyvalue) (destination : string) : M unit :=
  (if is_date start_date then ret tt
   else raise (AssertionError "Dates have to be in datetime.date format")) ;;;
  start_date_str <- lift (strftime start_date) ;;
  end_date_str <- lift (strftime end_date) ;;
  u <- self_attr umsatz_url ;;
  r <- http_get (base_url +:+ u) ;;
  selection_page_forms <- lift (fromstring_forms r) ;;
  select_form <- lift (match find_form "slAllAccounts" selection_page_forms with
                       | Some f => Ok f
                       | None => Raise (RuntimeError "Could not find selection forms.")
                       end) ;;
  accounts <- self_attr accounts ;;
  export_loop destination start_date_str end_date_str accounts select_form
    (dict_keys accounts) ;;;
  ret tt.

End Session.

(** ** Observations on a trace *)

(** The urls requested, the files written by the export, and the number
    of rate-limit pauses. *)
Definition requested (tr : list event) : list string :=
  flat_map (fun e => match e with
                     | EGet u => [u]
                     | EPost u _ => [u]
                     | _ => []
                     end) tr.

Definition written (tr : list event) : list string :=
  flat_map (fun e => match e with EWrite p _ => [p] | _ => [] end) tr.

Definition pauses (tr : list event) : nat :=
  length (List.filter (fun e => match e with ESleep _ => true | _ => false end) tr).

(** ** The pages a run of [login] sees *)

(** The trace when [login] sends its first request, the login page it
    gets, and the response to the credentials it posts to the action [a]
    of the form [f]. *)
Definition trace_at_login (w : world) : list event :=
  trace w ++ (if verbose (sess w) then [EPrint "Login to DKB Online Banking"] else []).

Definition login_page_of (E : env) (w : world) : response :=
  server_get E (trace_at_login w) (base_url +:+ login_url).

Definition login_response_of (E : env) (username : string) (w : world)
    (f : form) (a : string) : response :=
  let tr := trace_at_login w ++ [EGet (base_url +:+ login_url)] in
  server_post E (tr ++ [EGetpass]) (base_url +:+ a)
    (<["j_password" := getpass E tr]> (<["j_username" := username]> (fields f))).

(** The page has the marker of a successful login: line 91 finds the
    string ['Finanzstatus'] in it. *)
Definition has_login_marker (r : response) : bool :=
  Bs4.truthy_string (Bs4.find_text "Finanzstatus" (soup r)).

(** The trace when [logout] sends its request. *)
Definition trace_at_logout (w : world) : list event :=
  trace w ++ (if verbose (sess w) then [EPrint "Log out from DKB Online Banking"] else []).

(** C8 in the words of the specification: once [logout] has returned, the
    three stored urls are cleared and the client is closed. *)
Definition logout_destroys_session (E : env) (w : world) : Prop :=
  forall b w', logout E w = (Ok b, w') ->
    closed (sess w') = true /\
    logout_url (sess w') = None /\
    postbox_url (sess w') = None /\
    umsatz_url (sess w') = None.

(** ** Rows of the postbox table *)

(** What lines 135-141 look up in a row: the title cell, the link in it,
    the unread marker ([strong]) in it, and the [href] of the parent of
    the ['Speichern'] element. *)
Definition row_title_cell (row : Bs4.node) : option Bs4.node :=
  Bs4.find (Bs4.with_attr "id" "title") row.

Definition row_title_link (row : Bs4.node) : option Bs4.node :=
  row_title_cell row ≫= Bs4.find (Bs4.named "a").

Definition row_unread (row : Bs4.node) : bool :=
  match row_title_cell row ≫= Bs4.find (Bs4.named "strong") with
  | Some _ => true
  | None => false
  end.

Definition row_save_href (row : Bs4.node) : option string :=
  Bs4.find_then_parent (Bs4.with_attr "title" "Speichern") row ≫= Bs4.get "href".

(** A well-formed row has its title link and its save link. *)
Definition well_formed_row (row : Bs4.node) : bool :=
  match row_title_link row, row_save_href row with
  | Some _, Some _ => true
  | _, _ => false
  end.

(** The document a row stands for. *)
Definition row_matches (row : Bs4.node) (doc : PostboxDocument) : Prop :=
  Some (title doc) = Bs4.text <$> row_title_link row /\
  is_read doc = negb (row_unread row) /\
  Some (url doc) = row_save_href row /\
  filename doc = filename_of_url (url doc) /\
  PyStr.endswith (filename doc) ".pdf" = true.

(** The rows of the listing that [postbox_items] fetches from [w]. *)
Definition listing_rows (E : env) (w : world) (u : string) : result (list Bs4.node) :=
  postbox_table_rows (soup (server_get E (trace w) (base_url +:+ u))).

(** C5 in the words of the specification, for the titles: on a listing of
    well-formed rows, every document has a non-empty title. *)
Definition listing_titles_nonempty (E : env) (w : world) : Prop :=
  forall u rows docs w',
    postbox_url (sess w) = Some u ->
    listing_rows E w u = Ok rows ->
    Forall (fun row => well_formed_row row = true) rows ->
    postbox_items E w = (Ok docs, w') ->
    Forall (fun doc => title doc <> "") docs.

(** ** The response a run of [download_document] streams *)

Definition trace_at_download (document : PostboxDocument) (w : world) : list event :=
  trace w ++ (if verbose (sess w)
              then [EPrint ("Download document '" +:+ title document +:+ "'")]
              else []).

Definition download_response (E : env) (document : PostboxDocument) (w : world)
  : response :=
  server_get E (trace_at_download document w) (base_url +:+ url document).

(** C3 in the words of the specification: whatever copy fails, the
    download completes, and every destination that can be written has
    its file. *)
Definition copies_are_independent (E : env) (document : PostboxDocument)
    (destinations : list string) (w : world) : Prop :=
  exists w',
    download_document E document destinations w = (Ok true, w') /\
    forall dest, dest ∈ destinations -> writable E dest = true ->
                 is_Some (fs w' !! dest).

(** C4 in the words of the specification: whatever the outcome, the
    temporary file is gone when [download_document] is left. *)
Definition tempfile_always_deleted (E : env) (document : PostboxDocument)
    (destinations : list string) (w : world) : Prop :=
  forall r w',
    download_document E document destinations w = (r, w') ->
    forall path, ETempfile path ∈ trace w' -> fs w' !! path = None.

(** ** The export of the transactions *)

(** Line 230 lets the account with key [o] through. *)
Definition exported (accounts : dict) (o : string) : bool :=
  match dict_getitem o accounts with
  | Ok display_name => negb (excluded display_name)
  | Raise _ => false
  end.

(** The transactions page that a run of the export gets from [w]. *)
Definition selection_page (E : env) (w : world) (u : string) : response :=
  server_get E (trace w) (base_url +:+ u).

(** The world once the transactions page has been fetched. *)
Definition after_selection_page (w : world) (u : string) : world :=
  World (sess w) (fs w) (trace w ++ [EGet (base_url +:+ u)]).

(** C1 in the words of the specification, for the pause: a run pauses
    once for each account it exports, and not for a skipped one. *)
Definition pause_only_after_exports (E : env) (start_date end_date : date)
    (destination : string) (w : world) : Prop :=
  forall accs w',
    accounts (sess w) = Some accs ->
    get_all_banking_account_transactions E (PyDate start_date) (PyDate end_date)
      destination w = (Ok tt, w') ->
    pauses (trace w') =
    pauses (trace w) + length (List.filter (exported accs) (dict_keys accs)).


(** ** The constructor and the links of the start page *)

(** [DKBSession(verbose)] (lines 49-54): a client that is open, and no
    other attribute assigned yet. *)
Definition DKBSession_init (verbose : bool) : session :=
  Session verbose false None None None None.

(** Lines 94-96: the three links that [login] reads off the page it gets
    after posting the credentials. *)
Definition logout_link (soup : Bs4.node) : result string :=
  Bs4.getitem "href"
    (Bs4.find (fun n => Bs4.named "a" n && Bs4.with_attr "id" "logout" n) soup).

Definition tid_link (tid : string) (soup : Bs4.node) : result string :=
  match Bs4.child "a" (Bs4.find (Bs4.with_attr "tid" tid) soup) with
  | Ok a => Bs4.getitem "href" a
  | Raise e => Raise e
  end.

(** The fields that [login] posts for the form [f]. *)
Definition login_data (E : env) (username : string) (w : world) (f : form)
  : gmap string string :=
  <["j_password" := getpass E (trace_at_login w ++ [EGet (base_url +:+ login_url)])]>
    (<["j_username" := username]> (fields f)).

(** The trace of [login] once the credentials are posted to the action
    [a] of the form [f]. *)
Definition trace_after_login_post (E : env) (username : string) (w : world)
    (f : form) (a : string) : list event :=
  trace_at_login w ++
  [EGet (base_url +:+ login_url); EGetpass;
   EPost (base_url +:+ a) (login_data E username w f)].

(** ** The options of the account selector *)

(** [account['value']] for each option, when every option has one. *)
Definition option_values (options : list Bs4.node) : option (list string) :=
  mapM (Bs4.get "value") options.

(** The selector of the transactions page that [get_banking_accounts]
    gets from [w], and its options. *)
Definition account_selector (E : env) (w : world) (u : string) : option Bs4.node :=
  Bs4.find (Bs4.with_attr "tid" "slAllAccounts") (soup (selection_page E w u)).

(** The fields that the export posts for the account [o]: those of the
    form, with the four assignments of lines 231-234 done. *)
Definition export_data (s e : string) (f : form) (o : string) : gmap string string :=
  <["toTransactionDate" := e]>
    (<["transactionDate" := s]>
       (<["searchPeriodRadio" := "1"]>
          (<["slAllAccounts" := o]> (fields f)))).

(** ** Test fixtures: a small portal *)

Module Fixtures.
Import Bs4.

Definition txt (s : string) : node := NavigableString s.
Definition el (name : string) (attrs : list (string * string)) (contents : list node)
  : node := Tag name attrs contents.
Definition document (contents : list node) : node := Tag "[document]" [] contents.

(** The answer to an unknown url: status 404, an empty body. *)
Definition no_page : response := Response 404 "" "" None (document []).

(** The login page: a search form, then the login form. *)
Definition login_page : response :=
  Response 200 "<html>login</html>" "<html>login</html>"
    (Some
       [ Form (Some "/search") (list_to_map [("q", "")]) ∅;
         Form (Some "/banking/login")
           (list_to_map [("j_username", ""); ("j_password", ""); ("token", "t0")]) ∅ ])
    (document []).

(** A page without a login form. *)
Definition maintenance_page : response :=
  Response 200 "<html>maintenance</html>" "<html>maintenance</html>"
    (Some [ Form (Some "/search") (list_to_map [("q", "")]) ∅ ])
    (document [el "p" [] [txt "Wartung"]]).

(** The page after a successful login. *)
Definition start_page : response :=
  Response 200 "<html>start</html>" "<html>start</html>" (Some [])
    (document
       [ el "h1" [] [txt "Finanzstatus"];
         el "li" [("tid", "Postfach")] [el "a" [("href", "/postfach")] [txt "Postfach"]];
         el "li" [("tid", "Umsaetze")] [el "a" [("href", "/umsaetze")] [txt "Umsatz"]];
         el "a" [("id", "logout"); ("href", "/logout")] [txt "Abmelden"] ]).

(** The page after a rejected login. *)
Definition rejected_page : response :=
  Response 200 "<html>rejected</html>" "<html>rejected</html>" (Some [])
    (document [el "p" [] [txt "Anmeldung fehlgeschlagen"]]).

(** One row of the postbox table. *)
Definition postbox_row_of (unread : bool) (title href : string) : node :=
  el "tr" []
    [ el "td" [("id", "title")]
        [ if unread
          then el "strong" [] [el "a" [("href", "#")] [txt title]]
          else el "a" [("href", "#")] [txt title] ];
      el "td" []
        [ el "a" [("href", href)] [el "img" [("title", "Speichern")] []] ] ].

Definition postbox_soup (rows : list node) : node :=
  document
    [ el "div" [("id", "documentsTableOverview_outer")]
        [ el "table" [] [ el "tbody" [] rows ] ] ].

Definition postbox_rows_fixture : list node :=
  [ postbox_row_of true "Kontoauszug 3" "/docs/k3?x=1";
    postbox_row_of false "Kontoauszug 2" "/docs/k2?x=1";
    postbox_row_of false "Mitteilung" "/docs/m1" ].

Definition postbox_page : response :=
  Response 200 "<html>postbox</html>" "<html>postbox</html>" (Some [])
    (postbox_soup postbox_rows_fixture).

(** The transactions page: the selection form and the account selector.
    The selector offers four accounts, the search mode two values. *)
Definition selection_form : form :=
  Form (Some "/banking/umsaetze")
    (list_to_map [("slAllAccounts", "0"); ("searchPeriodRadio", "0");
                  ("transactionDate", ""); ("toTransactionDate", "")])
    (list_to_map [("slAllAccounts", ["0"; "1"; "2"; "3"]);
                  ("searchPeriodRadio", ["0"; "1"])]).

Definition umsatz_page : response :=
  Response 200 "<html>umsaetze</html>" "<html>umsaetze</html>"
    (Some [ Form (Some "/search") (list_to_map [("q", "")]) ∅; selection_form ])
    (document
       [ el "select" [("tid", "slAllAccounts")]
           [ el "option" [("value", "0")] [txt "DE01 Girokonto"];
             el "option" [("value", "1")] [txt "PayPal Konto"];
             el "option" [("value", "2")] [txt "DE02 Tagesgeld"] ] ]).

(** The result page of a query for the account [key]: it links the
    export as [/csv/key]; no link for the account ["2"] when [broken]. *)
Definition result_page (broken : bool) (key : string) : response :=
  Response 200 "<html>result</html>" "<html>result</html>" (Some [ selection_form ])
    (document
       (if broken && String.eqb key "2" then [ el "p" [] [txt "Keine Daten"] ]
        else [ el "a" [("tid", "csvExport"); ("href", "/csv/" +:+ key)] [txt "CSV"] ])).

Definition csv_of (key : string) : response :=
  Response 200 ("csv of account " +:+ key) ("csv of account " +:+ key) (Some [])
    (document []).

Definition pdf_bytes : string := "%PDF-1.4 statement".

(** The server.  [logout_status] is the status of the logout page. *)
Definition get_page (logout_status : Z) (url : string) : response :=
  if String.eqb url (base_url +:+ login_url) then login_page
  else if String.eqb url (base_url +:+ "/postfach") then postbox_page
  else if String.eqb url (base_url +:+ "/umsaetze") then umsatz_page
  else if String.eqb url (base_url +:+ "/logout")
       then Response logout_status "" "" None (document [])
  else if String.prefix (base_url +:+ "/csv/") url
       then csv_of (String.substring 23 1 url)
  else if String.prefix (base_url +:+ "/docs/") url
       then Response 200 "" pdf_bytes None (document [])
  else no_page.

Definition post_page (broken : bool) (url : string) (data : gmap string string)
  : response :=
  if String.eqb url (base_url +:+ "/banking/login")
  then (if bool_decide (data !! "j_password" = Some "secret")
        then start_page else rejected_page)
  else if String.eqb url (base_url +:+ "/banking/umsaetze")
  then result_page broken (default "" (data !! "slAllAccounts"))
  else no_page.

(** The portal, with the password typed at the prompt, the status of the
    logout page and whether the export of account ["2"] is broken.  Files
    can be created anywhere but under [/missing/]. *)
Definition portal (typed : string) (logout_status : Z) (broken : bool) : env :=
  Env (fun _ => get_page logout_status)
      (fun _ => post_page broken)
      (fun _ => typed)
      (fun _ => "/tmp/tmpa1b2c3")
      (fun path => negb (String.prefix "/missing/" path)).

(** A server that answers every request with the same page. *)
Definition serving (page : response) : env :=
  Env (fun _ _ => page)
      (fun _ _ _ => page)
      (fun _ => "secret")
      (fun _ => "/tmp/tmpa1b2c3")
      (fun _ => true).

(** The portal while it is down: every page is the maintenance page. *)
Definition portal_down : env := serving maintenance_page.

(** A listing with one row that has its title link and its save link,
    where the title link has no text. *)
Definition untitled_row : node :=
  el "tr" []
    [ el "td" [("id", "title")] [ el "a" [("href", "#")] [] ];
      el "td" [] [ el "a" [("href", "/docs/u1")] [el "img" [("title", "Speichern")] []] ] ].

Definition untitled_page : response :=
  Response 200 "<html>postbox</html>" "<html>postbox</html>" (Some [])
    (postbox_soup [untitled_row]).

Definition fresh_session : session := Session true false None None None None.

Definition logged_in : session :=
  Session true false (Some "/logout") (Some "/postfach") (Some "/umsaetze") None.

Definition three_accounts : dict :=
  [("0", "DE01 Girokonto"); ("1", "PayPal Konto"); ("2", "DE02 Tagesgeld")].

Definition with_accounts : session :=
  Session true false (Some "/logout") (Some "/postfach") (Some "/umsaetze")
    (Some three_accounts).

Definition start_world : world := World fresh_session ∅ [].

(** The export of January 2020 for the three accounts. *)
Definition export_of_january : result unit * world :=
  get_all_banking_account_transactions (portal "secret" 200 false)
    (PyDate (Date 2020 1 1)) (PyDate (Date 2020 1 31)) "./"
    (World with_accounts ∅ []).


(** A directory of four accounts, for the portal whose export of the
    account ["2"] is broken. *)
Definition four_accounts : dict :=
  [("0", "DE01 Girokonto"); ("1", "PayPal Konto"); ("2", "DE02 Tagesgeld");
   ("3", "Visa Card")].

Definition with_four_accounts : session :=
  Session true false (Some "/logout") (Some "/postfach") (Some "/umsaetze")
    (Some four_accounts).

(** The selection form once the account ["0"] has been exported for
    January 2020. *)
Definition form_after_first_export : form :=
  with_field "toTransactionDate" "31.01.2020"
    (with_field "transactionDate" "01.01.2020"
       (with_field "searchPeriodRadio" "1"
          (with_field "slAllAccounts" "0" selection_form))).

(** The broken run up to the account ["2"]: the loop over the accounts
    ["0"] and ["1"]. *)
Definition broken_prefix : result form * world :=
  export_loop (portal "secret" 200 true) "./" "01.01.2020" "31.01.2020"
    four_accounts selection_form ["0"; "1"]
    (after_selection_page (World with_four_accounts ∅ []) "/umsaetze").

Definition broken_step : result form * world :=
  export_account (portal "secret" 200 true) "./" "01.01.2020" "31.01.2020"
    form_after_first_export "2" broken_prefix.2.

(** A document of the listing, and a disk that already has [a.pdf]. *)
Definition statement : PostboxDocument :=
  mkPostboxDocument "Kontoauszug 3" false "/docs/k3?x=1" "k3.pdf".

Definition disk_with_a : world :=
  World logged_in (list_to_map [("a.pdf", "old bytes")]) [].

(** A first download to [a.pdf] and [c.pdf]; then [c.pdf] is removed and
    the download is run again. *)
Definition first_run : result bool * world :=
  download_document (portal "secret" 200 false) statement ["a.pdf"; "c.pdf"] disk_with_a.

Definition between_runs : world :=
  World (sess first_run.2) (delete "c.pdf" (fs first_run.2)) (trace first_run.2).

Definition second_run : result bool * world :=
  download_document (portal "secret" 200 false) statement ["a.pdf"; "c.pdf"] between_runs.

End Fixtures.

(** ** More fixtures *)

Module Cases.
Import Bs4 Fixtures.

(** The login form of the portal. *)
Definition login_form : form :=
  Form (Some "/banking/login")
    (list_to_map [("j_username", ""); ("j_password", ""); ("token", "t0")]) ∅.

(** A page that is its own answer: it has the login form, the marker and
    the logout link, but no link to the postbox. *)
Definition half_start_page : response :=
  Response 200 "<html>half</html>" "<html>half</html>" (Some [login_form])
    (document
       [ el "h1" [] [txt "Finanzstatus"];
         el "a" [("id", "logout"); ("href", "/logout")] [txt "Abmelden"] ]).

(** A listing whose second row has no save link. *)
Definition broken_listing_rows : list node :=
  [ postbox_row_of true "Kontoauszug 3" "/docs/k3?x=1";
    el "tr" [] [ el "td" [("id", "title")] [ el "a" [("href", "#")] [txt "Defekt"] ] ];
    postbox_row_of false "Mitteilung" "/docs/m1" ].

Definition broken_listing_page : response :=
  Response 200 "<html>postbox</html>" "<html>postbox</html>" (Some [])
    (postbox_soup broken_listing_rows).

(** A transactions page whose second option has no value. *)
Definition options_page : response :=
  Response 200 "<html>umsaetze</html>" "<html>umsaetze</html>" (Some [selection_form])
    (document
       [ el "select" [("tid", "slAllAccounts")]
           [ el "option" [("value", "0")] [txt "DE01 Girokonto"];
             el "option" [] [txt "ohne Wert"];
             el "option" [("value", "2")] [txt "DE02 Tagesgeld"] ] ]).

(** A selector that lists the account ["0"] twice. *)
Definition repeated_selector : node :=
  el "select" [("tid", "slAllAccounts")]
    [ el "option" [("value", "0")] [txt "DE01 Girokonto"];
      el "option" [("value", "2")] [txt "DE02 Tagesgeld"];
      el "option" [("value", "0")] [txt "DE01 Giro neu"] ].

Definition repeated_options_page : response :=
  Response 200 "<html>umsaetze</html>" "<html>umsaetze</html>" (Some [selection_form])
    (document [repeated_selector]).

(** A session that holds an earlier directory. *)
Definition with_old_accounts : session :=
  Session false false (Some "/logout") (Some "/postfach") (Some "/umsaetze")
    (Some [("9", "Altes Konto")]).

(** A directory of excluded accounts only. *)
Definition paypal_only : dict := [("1", "PayPal Konto"); ("5", "Mein PayPal")].

Definition with_paypal_only : session :=
  Session false false (Some "/logout") (Some "/postfach") (Some "/umsaetze")
    (Some paypal_only).

(** A login page whose form has a user name and no password input. *)
Definition form_without_password : form :=
  Form (Some "/banking/login") (list_to_map [("j_username", ""); ("token", "t0")]) ∅.

Definition page_without_password : response :=
  Response 200 "<html>login</html>" "<html>login</html>"
    (Some [form_without_password]) (document []).

(** A transactions page whose form has the selector and no date inputs. *)
Definition form_without_dates : form :=
  Form (Some "/banking/umsaetze")
    (list_to_map [("slAllAccounts", "0"); ("searchPeriodRadio", "0")])
    (list_to_map [("slAllAccounts", ["0"; "2"]); ("searchPeriodRadio", ["0"; "1"])]).

(** A quiet session, logged in. *)
Definition quiet : session :=
  Session false false (Some "/logout") (Some "/postfach") (Some "/umsaetze") None.

End Cases.

(** * Properties *)

(** ** Facts on [split] *)

Module PyStrFacts.
Import PyStr.

Lemma split_not_nil c s : split c s <> [].
Proof.
  destruct s as [|d s]; simpl; [discriminate|].
  destruct (Ascii.eqb d c); [discriminate|].
  destruct (split c s); discriminate.
Qed.

Lemma split_without_sep c s : has_char c s = false -> split c s = [s].
Proof.
  induction s as [|d s IH]; simpl; [reflexivity|].
  intros H. apply orb_false_iff in H as [Hd Hs].
  rewrite Hd, (IH Hs). reflexivity.
Qed.

Lemma split_with_sep c s :
  has_char c s = true -> exists p q l, split c s = p :: q :: l.
Proof.
  induction s as [|d s IH]; simpl; [discriminate|].
  destruct (Ascii.eqb d c) eqn:Hd; simpl.
  - intros _. destruct (split c s) as [|q l] eqn:Hs.
    + exfalso. eapply split_not_nil, Hs.
    + eauto.
  - intros H. destruct (IH H) as (p & q & l & ->). eauto.
Qed.

Lemma first_split_cons c d s :
  item_first (split c (String d s)) =
  Some (if Ascii.eqb d c then EmptyString
        else String d (default EmptyString (item_first (split c s)))).
Proof.
  unfold item_first. simpl. destruct (Ascii.eqb d c); [reflexivity|].
  destruct (split c s) eqn:Hs; [|reflexivity].
  exfalso. eapply split_not_nil, Hs.
Qed.

Lemma last_split_cons c d s :
  item_last (split c (String d s)) =
  if has_char c s then item_last (split c s)
  else Some (if Ascii.eqb d c then s else String d s).
Proof.
  unfold item_last. destruct (has_char c s) eqn:Hs.
  - destruct (split_with_sep c s Hs) as (p & q & l & Hsp).
    simpl. rewrite Hsp. destruct (Ascii.eqb d c); reflexivity.
  - simpl. rewrite (split_without_sep c s Hs).
    destruct (Ascii.eqb d c); reflexivity.
Qed.

(** Cutting a string at its first [c] loses the occurrences of another
    character only if they come after that [c]. *)
Lemma has_char_first_split c x s :
  Ascii.eqb c x = false ->
  has_char x s =
  has_char x (default EmptyString (item_first (split c s)))
  || has_char x (after_first c s).
Proof.
  intros Hcx. induction s as [|d s IH]; [reflexivity|].
  rewrite first_split_cons. simpl.
  destruct (Ascii.eqb d c) eqn:Hd; simpl.
  - apply Ascii.eqb_eq in Hd as ->. rewrite Hcx. reflexivity.
  - rewrite IH, orb_assoc. reflexivity.
Qed.

(** Taking the last [c1]-piece and cutting at the first [c2] commute when
    no [c1] follows the first [c2]. *)
Lemma last_then_first_commute c1 c2 s :
  Ascii.eqb c2 c1 = false ->
  has_char c1 (after_first c2 s) = false ->
  default EmptyString (item_first (split c2 (default EmptyString (item_last (split c1 s))))) =
  default EmptyString (item_last (split c1 (default EmptyString (item_first (split c2 s))))).
Proof.
  intros Hne. induction s as [|d s IH]; [reflexivity|].
  intros Hq. rewrite last_split_cons, first_split_cons.
  simpl in Hq. destruct (Ascii.eqb d c2) eqn:Hd2.
  - apply Ascii.eqb_eq in Hd2 as ->. rewrite Hq, Hne. cbn [default from_option id].
    rewrite first_split_cons, Ascii.eqb_refl. reflexivity.
  - cbn [default from_option id]. rewrite last_split_cons.
    assert (Hc : has_char c1 (default EmptyString (item_first (split c2 s)))
                 = has_char c1 s).
    { rewrite (has_char_first_split c2 c1 s Hne), Hq, orb_false_r. reflexivity. }
    rewrite Hc.
    destruct (has_char c1 s) eqn:Hs.
    + apply IH, Hq.
    + cbn [default from_option id]. destruct (Ascii.eqb d c1); [reflexivity|].
      rewrite first_split_cons, Hd2. reflexivity.
Qed.

End PyStrFacts.

(** ** Postbox file names *)

(** Without a fragment, the path of a url is what comes before its
    first ['?']. *)
Lemma url_path_without_fragment url :
  PyStr.has_char "#" url = false ->
  url_path url = default "" (PyStr.item_first (PyStr.split "?" url)).
Proof.
  induction url as [|c url IH]; [reflexivity|].
  intros H. cbn [PyStr.has_char] in H. apply orb_false_iff in H as [Hc Hrest].
  rewrite PyStrFacts.first_split_cons. cbn [url_path default from_option id].
  rewrite Hc, orb_false_r. destruct (Ascii.eqb c "?"); [reflexivity|].
  by rewrite IH.
Qed.

(** The path of a url holds no ['?']; neither does any of its segments. *)
Lemma url_path_without_query url : PyStr.has_char "?" (url_path url) = false.
Proof.
  induction url as [|c url IH]; [reflexivity|]. cbn [url_path].
  destruct (Ascii.eqb c "?") eqn:Hc; [reflexivity|]. cbn [orb].
  destruct (Ascii.eqb c "#"); [reflexivity|]. cbn [PyStr.has_char].
  by rewrite Hc, IH.
Qed.

Lemma last_split_keeps_absent c x s :
  PyStr.has_char x s = false ->
  PyStr.has_char x (default "" (PyStr.item_last (PyStr.split c s))) = false.
Proof.
  induction s as [|d s IH]; [reflexivity|].
  intros H. cbn [PyStr.has_char] in H. apply orb_false_iff in H as [Hd Hs].
  rewrite PyStrFacts.last_split_cons.
  destruct (PyStr.has_char c s); [by apply IH|].
  cbn [default from_option id]. destruct (Ascii.eqb d c); [exact Hs|].
  cbn [PyStr.has_char]. by rewrite Hd, Hs.
Qed.

(** Where the code and the specification agree: on a url without a
    fragment and without a ['/'] in its query string, the file name is
    the last path segment with the query string stripped, followed by
    ['.pdf']. *)
Lemma filename_of_url_agrees (url : string) :
  PyStr.has_char "#" url = false ->
  PyStr.has_char "/" (query_of_url url) = false ->
  filename_of_url url = spec_filename_of_url url.
Proof.
  intros Hfrag Hq.
  unfold filename_of_url, spec_filename_of_url, strip_query, last_path_segment.
  cbv zeta. f_equal.
  rewrite (PyStrFacts.split_without_sep "?"
             (default "" (PyStr.item_last (PyStr.split "/" (url_path url)))))
    by apply last_split_keeps_absent, url_path_without_query.
  cbn [PyStr.item_first head default from_option id].
  rewrite (url_path_without_fragment url Hfrag).
  apply PyStrFacts.last_then_first_commute; [reflexivity | exact Hq].
Qed.

(** C9 fails on the code for a url whose query string holds a ['/']:
    line 144 splits at the ['/'] before it strips the query string, so it
    takes the text after the last ['/'] of the query string for the last
    path segment.  The example of the specification, whose query string
    has no ['/'], comes out as specified. *)
Theorem filename_of_url_slash_in_query :
  filename_of_url "/docs/abc?x=a/b" = "b.pdf" /\
  spec_filename_of_url "/docs/abc?x=a/b" = "abc.pdf" /\
  filename_of_url "/docs/abc?x=1" = "abc.pdf" /\
  spec_filename_of_url "/docs/abc?x=1" = "abc.pdf" /\
  ~ (forall url, filename_of_url url = spec_filename_of_url url).
Proof.
  repeat (split; [reflexivity|]).
  intros H. specialize (H "/docs/abc?x=a/b"). vm_compute in H. discriminate H.
Qed.

(** ** Login *)

Lemma find_form_none key fs0 :
  Forall (fun f => fields f !! key = None) fs0 -> find_form key fs0 = None.
Proof.
  unfold find_form. induction 1 as [|f l Hf _ IH]; [reflexivity|].
  simpl. rewrite Hf. rewrite bool_decide_eq_false_2; [exact IH|].
  intros [x Hx]. discriminate Hx.
Qed.

Lemma find_form_some key fs0 f :
  find_form key fs0 = Some f -> f ∈ fs0 /\ is_Some (fields f !! key).
Proof.
  unfold find_form. intros H. apply find_some in H as [Hin Hb].
  split; [by apply list_elem_of_In|]. by apply bool_decide_eq_true_1 in Hb.
Qed.

(** ** Facts on the primitives *)

Lemma print_if_verbose_run line w :
  print_if_verbose line w =
  (Ok tt, World (sess w) (fs w)
            (trace w ++ (if verbose (sess w) then [EPrint line] else []))).
Proof.
  unfold print_if_verbose, print, emit. destruct (verbose (sess w)); [reflexivity|].
  rewrite app_nil_r. by destruct w.
Qed.

(** A page on which a form is found is a page that parsed. *)
Lemma found_form_parsed key (r : response) f :
  find_form key (forms r) = Some f -> fromstring_forms r = Ok (forms r).
Proof.
  unfold forms, fromstring_forms. destruct (lxml_forms r); [reflexivity | discriminate].
Qed.

Lemma parsed_forms (r : response) page_forms :
  lxml_forms r = Some page_forms ->
  fromstring_forms r = Ok page_forms /\ forms r = page_forms.
Proof. unfold forms, fromstring_forms. by intros ->. Qed.

Lemma set_field_checked key value f :
  set_field key value f =
  match check_field key value f with
  | Ok _ => Ok (with_field key value f)
  | Raise err => Raise err
  end.
Proof. reflexivity. Qed.

(** An assignment to one field does not change what the form checks for
    another. *)
Lemma check_field_with_field key value key' value' f :
  key <> key' ->
  check_field key' value' (with_field key value f) = check_field key' value' f.
Proof.
  intros Hne. unfold check_field, with_field. cbn [fields choices].
  by rewrite lookup_insert_ne.
Qed.

(** The checks of the assignments raise [KeyError] or [ValueError]. *)
Lemma check_field_raises key value f err :
  check_field key value f = Raise err -> err = KeyError \/ err = ValueError.
Proof.
  unfold check_field. destruct (fields f !! key); [|intros [= <-]; auto].
  destruct (choices f !! key); [|discriminate].
  destruct (existsb _ _); [discriminate | intros [= <-]; auto].
Qed.

(** ** Login, step by step *)

Section LoginRun.

Context (E : env).

(** The whole run of [login]. *)
Lemma login_run (username : string) (w : world) :
  login E username w =
  let tr0 := trace_at_login w ++ [EGet (base_url +:+ login_url)] in
  match fromstring_forms (login_page_of E w) with
  | Raise err => (Raise err, World (sess w) (fs w) tr0)
  | Ok _ =>
  match find_form "j_username" (forms (login_page_of E w)) with
  | None => (Raise LoginFormNotFound, World (sess w) (fs w) tr0)
  | Some f =>
  match check_field "j_username" username f with
  | Raise err => (Raise err, World (sess w) (fs w) tr0)
  | Ok _ =>
  match check_field "j_password" (getpass E tr0) f with
  | Raise err => (Raise err, World (sess w) (fs w) (tr0 ++ [EGetpass]))
  | Ok _ =>
      match action f with
      | None => (Raise TypeError, World (sess w) (fs w) (tr0 ++ [EGetpass]))
      | Some a =>
          let page := soup (login_response_of E username w f a) in
          let tr := trace_after_login_post E username w f a in
          if has_login_marker (login_response_of E username w f a)
          then
            match logout_link page with
            | Raise err => (Raise err, World (sess w) (fs w) tr)
            | Ok lo =>
                match tid_link "Postfach" page with
                | Raise err => (Raise err, World (set_logout_url lo (sess w)) (fs w) tr)
                | Ok po =>
                    match tid_link "Umsaetze" page with
                    | Raise err =>
                        (Raise err,
                         World (set_postbox_url po (set_logout_url lo (sess w))) (fs w) tr)
                    | Ok um =>
                        (Ok true,
                         World (set_umsatz_url um
                                  (set_postbox_url po (set_logout_url lo (sess w))))
                           (fs w)
                           (tr ++ (if verbose (sess w)
                                   then [EPrint "Logged in to DKB Online Banking"]
                                   else [])))
                    end
                end
            end
          else (Raise AuthenticationFailed, World (sess w) (fs w) tr)
      end
  end end end end.
Proof.
  unfold login. unfold bind at 1. rewrite print_if_verbose_run.
  unfold login_response_of, login_page_of, trace_after_login_post, login_data,
    has_login_marker, logout_link, tid_link.
  fold (trace_at_login w).
  unfold bind, http_get, lift, read_password, http_post, update_session, ret, raise.
  cbn [fs sess trace]. cbv zeta.
  unfold forms, fromstring_forms.
  destruct (lxml_forms _) as [page_forms|]; [|reflexivity].
  cbn [default from_option id].
  destruct (find_form _ _) as [f|]; [|reflexivity].
  rewrite set_field_checked.
  destruct (check_field "j_username" username f) as [[]|]; [|reflexivity].
  cbn [fs sess trace].
  rewrite set_field_checked, check_field_with_field by discriminate.
  destruct (check_field "j_password" _ f) as [[]|]; [|reflexivity].
  cbn [with_field action fields]. destruct (action f) as [a|]; cbn [concat_url].
  2:{ reflexivity. }
  cbn [fs sess trace fst snd]. rewrite <- !app_assoc. cbn [app].
  destruct (Bs4.truthy_string _); [|reflexivity].
  destruct (Bs4.getitem "href" (Bs4.find _ _)) as [lo|]; [|reflexivity].
  cbn [fs sess trace].
  destruct (Bs4.child "a" (Bs4.find (Bs4.with_attr "tid" "Postfach") _)) as [a1|];
    [|reflexivity].
  destruct (Bs4.getitem "href" a1) as [po|]; [|reflexivity].
  cbn [fs sess trace].
  destruct (Bs4.child "a" (Bs4.find (Bs4.with_attr "tid" "Umsaetze") _)) as [a2|];
    [|reflexivity].
  destruct (Bs4.getitem "href" a2) as [um|]; [|reflexivity].
  cbn [fs sess trace]. rewrite print_if_verbose_run.
  cbn [fs sess trace verbose set_umsatz_url set_postbox_url set_logout_url].
  destruct (verbose (sess w)); rewrite <- ?app_assoc, ?app_nil_r; reflexivity.
Qed.

(** The links of the start page raise no [RuntimeError]. *)
Lemma getitem_not_runtime key o err msg :
  Bs4.getitem key o = Raise err -> err <> RuntimeError msg.
Proof.
  intros H. unfold Bs4.getitem in H.
  destruct o as [n|]; [destruct (Bs4.get key n)|]; try discriminate H;
    injection H as <-; discriminate.
Qed.

Lemma tid_link_not_runtime tid page err msg :
  tid_link tid page = Raise err -> err <> RuntimeError msg.
Proof.
  intros H. unfold tid_link, Bs4.child in H.
  destruct (Bs4.find _ _); [by eapply getitem_not_runtime|].
  injection H as <-. discriminate.
Qed.

End LoginRun.


(** ** Logout *)

(** C8, as the code has it: [logout] sends the request to the stored
    logout url, closes the client whatever the status of the response,
    returns whether the status was 200, and leaves the three stored urls
    as they were. *)
Theorem logout_closes_client (E : env) (w : world) (u : string) :
  logout_url (sess w) = Some u ->
  exists w',
    logout E w = (Ok (Z.eqb (status_code (server_get E (trace_at_logout w) (base_url +:+ u))) 200), w') /\
    closed (sess w') = true /\
    trace w' = trace_at_logout w ++ [EGet (base_url +:+ u); EClose] /\
    logout_url (sess w') = logout_url (sess w) /\
    postbox_url (sess w') = postbox_url (sess w) /\
    umsatz_url (sess w') = umsatz_url (sess w) /\
    fs w' = fs w.
Proof.
  intros Hu. unfold logout, trace_at_logout, bind, print_if_verbose, print, emit,
    self_attr, http_get, close_client, ret.
  destruct (verbose (sess w)); cbn -[base_url]; rewrite Hu; cbn -[base_url];
    rewrite ?app_nil_r; eexists; (split; [reflexivity|]); cbn -[base_url];
    rewrite <- ?app_assoc; auto 10.
Qed.


(** A logout that the server answers with status 500: the client is
    closed all the same, and the urls stay. *)
Lemma logout_closes_client_witness :
  logout_url (sess (World Fixtures.logged_in ∅ [])) = Some "/logout" /\
  exists w',
    logout (Fixtures.portal "secret" 500 false) (World Fixtures.logged_in ∅ [])
      = (Ok false, w') /\
    closed (sess w') = true /\
    postbox_url (sess w') = Some "/postfach".
Proof.
  split; [reflexivity|].
  destruct (logout_closes_client (Fixtures.portal "secret" 500 false)
              (World Fixtures.logged_in ∅ []) "/logout" eq_refl)
    as (w' & Hrun & Hclosed & _ & _ & Hpostbox & _).
  exists w'. split; [exact Hrun|]. split; [exact Hclosed | exact Hpostbox].
Defined.

(** C8 as stated fails: after a logout the stored urls are still there. *)
Lemma logout_keeps_urls :
  ~ logout_destroys_session (Fixtures.portal "secret" 200 false)
      (World Fixtures.logged_in ∅ []).
Proof.
  intros H.
  destruct (H true (World (set_closed Fixtures.logged_in) ∅
                      [EPrint "Log out from DKB Online Banking";
                       EGet "https://www.dkb.de/logout"; EClose]))
    as (_ & Hu & _).
  - vm_compute. reflexivity.
  - discriminate Hu.
Qed.

(** ** The postbox listing *)

Lemma endswith_app s suffix : PyStr.endswith (s +:+ suffix) suffix = true.
Proof.
  induction s as [|c s IH].
  - change (EmptyString +:+ suffix) with suffix.
    destruct suffix; cbn [PyStr.endswith]; rewrite String.eqb_refl; reflexivity.
  - change (String c s +:+ suffix) with (String c (s +:+ suffix)).
    cbn [PyStr.endswith]. rewrite IH. apply orb_true_r.
Qed.

Lemma postbox_row_well_formed row :
  well_formed_row row = true ->
  exists doc, postbox_row row = Ok doc /\ row_matches row doc.
Proof.
  unfold row_matches, well_formed_row, row_title_link, row_save_href, row_unread,
    row_title_cell, postbox_row.
  destruct (Bs4.find (Bs4.with_attr "id" "title") row) as [cell|]; simpl; [|discriminate].
  destruct (Bs4.find (Bs4.named "a") cell) as [a|]; simpl; [|discriminate].
  destruct (Bs4.find_then_parent _ row) as [parent|]; simpl; [|discriminate].
  destruct (Bs4.get "href" parent) as [href|]; simpl; [|discriminate].
  intros _. eexists. split; [reflexivity|]. simpl.
  repeat split.
  - destruct (Bs4.find (Bs4.named "strong") cell); reflexivity.
  - apply endswith_app.
Qed.

Lemma postbox_rows_well_formed rows :
  Forall (fun row => well_formed_row row = true) rows ->
  exists docs, postbox_rows rows = (docs, None) /\ Forall2 row_matches rows docs.
Proof.
  induction 1 as [|row rows Hrow _ (docs & Hdocs & Hall)].
  - exists []. split; [reflexivity | constructor].
  - destruct (postbox_row_well_formed row Hrow) as (doc & Hdoc & Hm).
    exists (doc :: docs). simpl. rewrite Hdoc, Hdocs.
    split; [reflexivity | by constructor].
Qed.

(** C5, as the code has it.  On a listing whose table has N rows, all
    well formed, [postbox_items] yields N documents in the order of the
    rows; the title of each is the text of the link in the title cell
    (whatever that text is), [is_read] tells that the title cell has no
    [strong] element, and the file name ends in ['.pdf']. *)
Theorem postbox_items_follow_rows (E : env) (w : world) (u : string)
    (rows : list Bs4.node) :
  postbox_url (sess w) = Some u ->
  listing_rows E w u = Ok rows ->
  Forall (fun row => well_formed_row row = true) rows ->
  exists docs w',
    postbox_items E w = (Ok docs, w') /\
    length docs = length rows /\
    forall i row, rows !! i = Some row ->
      exists doc, docs !! i = Some doc /\ row_matches row doc.
Proof.
  intros Hu Hrows Hwf.
  destruct (postbox_rows_well_formed rows Hwf) as (docs & Hdocs & Hall).
  exists docs. eexists. split.
  - unfold postbox_items, bind, self_attr, http_get, lift, ret.
    rewrite Hu. unfold listing_rows in Hrows. cbn -[base_url].
    rewrite Hrows, Hdocs. reflexivity.
  - split; [symmetry; eapply Forall2_length, Hall|].
    intros i row Hi.
    destruct (Forall2_lookup_l _ _ _ _ _ Hall Hi) as (doc & Hdoc & Hm). eauto.
Qed.

(** The listing of the fixtures: three rows, three documents. *)
Lemma postbox_items_follow_rows_witness :
  postbox_url (sess (World Fixtures.logged_in ∅ [])) = Some "/postfach" /\
  listing_rows (Fixtures.portal "secret" 200 false) (World Fixtures.logged_in ∅ [])
    "/postfach" = Ok Fixtures.postbox_rows_fixture /\
  Forall (fun row => well_formed_row row = true) Fixtures.postbox_rows_fixture /\
  exists docs w',
    postbox_items (Fixtures.portal "secret" 200 false) (World Fixtures.logged_in ∅ [])
      = (Ok docs, w') /\
    length docs = 3 /\
    forall i row, Fixtures.postbox_rows_fixture !! i = Some row ->
      exists doc, docs !! i = Some doc /\ row_matches row doc.
Proof.
  assert (Hwf : Forall (fun row => well_formed_row row = true)
                  Fixtures.postbox_rows_fixture)
    by (repeat constructor).
  split; [reflexivity|]. split; [reflexivity|]. split; [exact Hwf|].
  exact (postbox_items_follow_rows (Fixtures.portal "secret" 200 false)
           (World Fixtures.logged_in ∅ []) "/postfach" Fixtures.postbox_rows_fixture
           eq_refl eq_refl Hwf).
Defined.

(** C5 as stated fails for the title: a row with its title link and its
    save link, whose link has no text, yields a document with an empty
    title. *)
Lemma postbox_items_empty_title :
  ~ listing_titles_nonempty (Fixtures.serving Fixtures.untitled_page)
      (World Fixtures.logged_in ∅ []).
Proof.
  intros H.
  specialize (H "/postfach" [Fixtures.untitled_row]
                [mkPostboxDocument "" true "/docs/u1" "u1.pdf"]
                (World Fixtures.logged_in ∅ [EGet "https://www.dkb.de/postfach"])
                eq_refl eq_refl).
  assert (Hdocs : Forall (fun doc => title doc <> "")
                    [mkPostboxDocument "" true "/docs/u1" "u1.pdf"]).
  { apply H; [repeat constructor | vm_compute; reflexivity]. }
  inversion Hdocs as [|? ? Hne _]. apply Hne. reflexivity.
Qed.

(** ** Copying to the destinations *)

Section CopyLoop.

Context (E : env).

(** One turn of the loop, by cases on the destination. *)
Lemma copy_to_destinations_cons tmp dest rest w :
  copy_to_destinations E tmp (dest :: rest) w =
  let tr := trace w ++ (if verbose (sess w) then [EPrint ("Copy to " +:+ dest)] else []) in
  match fs w !! dest with
  | Some _ =>
      copy_to_destinations E tmp rest
        (World (sess w) (fs w)
           (tr ++ [EPrint (dquote +:+ dest +:+ dquote +:+ " already exists")]))
  | None =>
      match fs w !! tmp with
      | Some content =>
          if writable E dest
          then copy_to_destinations E tmp rest
                 (World (sess w) (<[dest := content]> (fs w))
                    (tr ++ [ECopyfile tmp dest]))
          else (Raise OSError, World (sess w) (fs w) tr)
      | None => (Raise OSError, World (sess w) (fs w) tr)
      end
  end.
Proof.
  cbn [copy_to_destinations]. unfold bind at 1. rewrite print_if_verbose_run.
  unfold bind, path_exists, print, emit, copyfile. cbn [fs sess trace].
  destruct (fs w !! dest) as [c|] eqn:Hd.
  - rewrite bool_decide_eq_true_2 by eauto. reflexivity.
  - rewrite bool_decide_eq_false_2 by (intros [? ?]; discriminate).
    cbn [fs sess trace]. destruct (fs w !! tmp); [|reflexivity].
    destruct (writable E dest); reflexivity.
Qed.

(** The loop never changes a file that exists, whatever its outcome. *)
Lemma copy_to_destinations_keeps tmp dests w r w' :
  copy_to_destinations E tmp dests w = (r, w') ->
  sess w' = sess w /\
  forall path content, fs w !! path = Some content -> fs w' !! path = Some content.
Proof.
  revert w. induction dests as [|dest rest IH]; intros w Hrun.
  - injection Hrun as _ <-. auto.
  - rewrite copy_to_destinations_cons in Hrun. cbv zeta in Hrun.
    destruct (fs w !! dest) as [c|] eqn:Hd.
    + apply IH in Hrun as [Hs Hf]. auto.
    + destruct (fs w !! tmp) as [content|] eqn:Ht.
      * destruct (writable E dest).
        -- apply IH in Hrun as [Hs Hf]. split; [exact Hs|].
           intros path c Hp. apply Hf. cbn [fs].
           rewrite lookup_insert_ne; [exact Hp|]. congruence.
        -- injection Hrun as _ <-. auto.
      * injection Hrun as _ <-. auto.
Qed.

(** A path that is not a destination is left as it is. *)
Lemma copy_to_destinations_elsewhere tmp dests w r w' path :
  copy_to_destinations E tmp dests w = (r, w') ->
  path ∉ dests ->
  fs w' !! path = fs w !! path.
Proof.
  revert w. induction dests as [|dest rest IH]; intros w Hrun Hnot.
  - injection Hrun as _ <-. reflexivity.
  - apply not_elem_of_cons in Hnot as [Hne Hnot].
    rewrite copy_to_destinations_cons in Hrun. cbv zeta in Hrun.
    destruct (fs w !! dest) as [c|] eqn:Hd.
    + apply IH in Hrun; auto.
    + destruct (fs w !! tmp) as [content|] eqn:Ht.
      * destruct (writable E dest).
        -- apply IH in Hrun; [|exact Hnot]. rewrite Hrun. cbn [fs].
           apply lookup_insert_ne. congruence.
        -- injection Hrun as _ <-. reflexivity.
      * injection Hrun as _ <-. reflexivity.
Qed.

(** After a loop that completes, a destination that was absent holds the
    bytes of the temporary file. *)
Lemma copy_to_destinations_fills tmp dests w w' content :
  copy_to_destinations E tmp dests w = (Ok tt, w') ->
  fs w !! tmp = Some content ->
  forall dest, dest ∈ dests -> fs w !! dest = None -> fs w' !! dest = Some content.
Proof.
  revert w. induction dests as [|d rest IH]; intros w Hrun Ht dest Hin Habs.
  - by apply elem_of_nil in Hin.
  - rewrite copy_to_destinations_cons in Hrun. cbv zeta in Hrun.
    destruct (fs w !! d) as [c|] eqn:Hd.
    + apply elem_of_cons in Hin as [->|Hin]; [congruence|].
      eapply IH; eauto.
    + rewrite Ht in Hrun. destruct (writable E d); [|discriminate Hrun].
      assert (Hdt : d <> tmp) by congruence.
      destruct (decide (dest = d)) as [->|Hne].
      * apply copy_to_destinations_keeps in Hrun as [_ Hf].
        apply Hf. cbn [fs]. apply lookup_insert_eq.
      * apply elem_of_cons in Hin as [?|Hin]; [congruence|].
        eapply IH; eauto; cbn [fs]; rewrite lookup_insert_ne; auto.
Qed.

(** The loop over a list of two parts. *)
Lemma copy_to_destinations_app tmp l1 l2 w :
  copy_to_destinations E tmp (l1 ++ l2) w =
  match copy_to_destinations E tmp l1 w with
  | (Ok _, w1) => copy_to_destinations E tmp l2 w1
  | (Raise e, w1) => (Raise e, w1)
  end.
Proof.
  revert w. induction l1 as [|d l1 IH]; intros w; [reflexivity|].
  rewrite <- app_comm_cons, !copy_to_destinations_cons. cbv zeta.
  destruct (fs w !! d); [apply IH|].
  destruct (fs w !! tmp); [|reflexivity].
  destruct (writable E d); [apply IH | reflexivity].
Qed.

(** The loop completes when every destination exists or can be written;
    each of them has a file afterwards, and each one that existed was
    reported. *)
Lemma copy_to_destinations_completes tmp dests w :
  is_Some (fs w !! tmp) ->
  Forall (fun dest => is_Some (fs w !! dest) \/ writable E dest = true) dests ->
  exists w',
    copy_to_destinations E tmp dests w = (Ok tt, w') /\
    (forall dest, dest ∈ dests -> is_Some (fs w' !! dest)) /\
    (forall dest, dest ∈ dests -> is_Some (fs w !! dest) ->
       EPrint (dquote +:+ dest +:+ dquote +:+ " already exists") ∈ trace w') /\
    (forall e, e ∈ trace w -> e ∈ trace w').
Proof.
  revert w. induction dests as [|d rest IH]; intros w [content Ht] Hall.
  - exists w. split; [reflexivity|]. split; [|split]; auto.
    + intros dest Hin. by apply elem_of_nil in Hin.
    + intros dest Hin. by apply elem_of_nil in Hin.
  - apply Forall_cons in Hall as [Hd Hall].
    rewrite copy_to_destinations_cons. cbv zeta.
    destruct (fs w !! d) as [c|] eqn:Hfd.
    + edestruct (IH (World (sess w) (fs w)
                       ((trace w ++ (if verbose (sess w)
                                     then [EPrint ("Copy to " +:+ d)] else [])) ++
                        [EPrint (dquote +:+ d +:+ dquote +:+ " already exists")])))
        as (w' & Hrun & Hfiles & Hprints & Htr); [cbn [fs]; eauto | exact Hall |].
      exists w'. split; [exact Hrun|]. cbn [fs trace] in *.
      split; [|split].
      * intros dest Hin. apply elem_of_cons in Hin as [->|Hin]; [|auto].
        apply copy_to_destinations_keeps in Hrun as [_ Hf].
        eexists. apply Hf. exact Hfd.
      * intros dest Hin Hex. apply elem_of_cons in Hin as [->|Hin]; [|auto].
        apply Htr, elem_of_app. right. by apply list_elem_of_singleton.
      * intros e He. apply Htr. rewrite !elem_of_app. auto.
    + destruct Hd as [[? ?]|Hw]; [discriminate|]. rewrite Ht, Hw.
      edestruct (IH (World (sess w) (<[d := content]> (fs w))
                       ((trace w ++ (if verbose (sess w)
                                     then [EPrint ("Copy to " +:+ d)] else [])) ++
                        [ECopyfile tmp d])))
        as (w' & Hrun & Hfiles & Hprints & Htr).
      * cbn [fs]. destruct (decide (d = tmp)) as [->|Hne];
          [rewrite lookup_insert_eq | rewrite lookup_insert_ne by done]; eauto.
      * eapply Forall_impl; [exact Hall|]. cbn [fs]. intros p [[x Hx]|Hp]; [|auto].
        left. destruct (decide (d = p)) as [->|Hne];
          [rewrite lookup_insert_eq | rewrite lookup_insert_ne by done]; eauto.
      * exists w'. split; [exact Hrun|]. cbn [fs trace] in *.
        split; [|split].
        -- intros dest Hin. apply elem_of_cons in Hin as [->|Hin]; [|auto].
           apply copy_to_destinations_keeps in Hrun as [_ Hf].
           eexists. apply Hf. cbn [fs]. apply lookup_insert_eq.
        -- intros dest Hin Hex. apply elem_of_cons in Hin as [->|Hin].
           ++ rewrite Hfd in Hex. by destruct Hex.
           ++ apply Hprints; [exact Hin|].
              destruct Hex as [x Hx].
              destruct (decide (d = dest)) as [->|Hne]; [congruence|].
              rewrite lookup_insert_ne by done. eauto.
        -- intros e He. apply Htr. rewrite !elem_of_app. auto.
Qed.

End CopyLoop.

(** ** Downloading a document *)

Section Download.

Context (E : env).

(** The run of [download_document], step by step. *)
Lemma download_document_run document destinations w :
  download_document E document destinations w =
  let tr := trace_at_download document w ++ [EGet (base_url +:+ url document)] in
  let r := download_response E document w in
  if negb (Z.eqb (status_code r) 200)
  then (Raise (RuntimeError "Download failed."), World (sess w) (fs w) tr)
  else
    let tmp := mktemp E (fs w) in
    match fs w !! tmp with
    | Some _ => (Raise OSError, World (sess w) (fs w) tr)
    | None =>
        match copy_to_destinations E tmp destinations
                (World (sess w) (<[tmp := raw r]> (fs w)) (tr ++ [ETempfile tmp])) with
        | (Ok _, w1) =>
            match fs w1 !! tmp with
            | None => (Raise OSError, w1)
            | Some _ => (Ok true, World (sess w1) (delete tmp (fs w1))
                                    (trace w1 ++ [EUnlink tmp]))
            end
        | (Raise e, w1) => (Raise e, w1)
        end
    end.
Proof.
  unfold download_document. unfold bind at 1. rewrite print_if_verbose_run.
  unfold download_response, trace_at_download.
  unfold bind, http_get, named_temporary_file, unlink, raise, ret.
  cbn -[base_url copy_to_destinations].
  destruct (negb _); [reflexivity|]. cbn -[base_url copy_to_destinations].
  destruct (fs w !! mktemp E (fs w)); [reflexivity|].
  destruct (copy_to_destinations _ _ _ _) as [[[]|e] w1]; [|reflexivity].
  destruct (fs w1 !! mktemp E (fs w)); reflexivity.
Qed.

(** Whatever its outcome, a download leaves every existing file as it is. *)
Lemma download_document_keeps document destinations w r w' :
  download_document E document destinations w = (r, w') ->
  forall path content, fs w !! path = Some content -> fs w' !! path = Some content.
Proof.
  rewrite download_document_run. cbv zeta.
  destruct (negb _); [by intros [= _ <-]|].
  destruct (fs w !! mktemp E (fs w)) eqn:Htmp; [by intros [= _ <-]|].
  destruct (copy_to_destinations _ _ _ _) as [[[]|e] w1] eqn:Hcopy.
  - apply copy_to_destinations_keeps in Hcopy as [_ Hkeep]. cbn [fs] in Hkeep.
    intros Hrun path content Hp.
    assert (Hne : mktemp E (fs w) <> path) by congruence.
    assert (H1 : fs w1 !! path = Some content)
      by (apply Hkeep; rewrite lookup_insert_ne by done; exact Hp).
    destruct (fs w1 !! mktemp E (fs w)); injection Hrun as _ <-; [|exact H1].
    cbn [fs]. rewrite lookup_delete_ne by done. exact H1.
  - apply copy_to_destinations_keeps in Hcopy as [_ Hkeep]. cbn [fs] in Hkeep.
    intros [= _ <-] path content Hp. apply Hkeep.
    rewrite lookup_insert_ne by congruence. exact Hp.
Qed.

(** After a download that returns, a destination that was absent holds
    the bytes of the response. *)
Lemma download_document_fills document destinations w w' dest :
  download_document E document destinations w = (Ok true, w') ->
  dest ∈ destinations ->
  fs w !! dest = None ->
  dest <> mktemp E (fs w) ->
  fs w' !! dest = Some (raw (download_response E document w)).
Proof.
  rewrite download_document_run. cbv zeta.
  destruct (negb _); [discriminate|].
  destruct (fs w !! mktemp E (fs w)) eqn:Htmp; [discriminate|].
  destruct (copy_to_destinations _ _ _ _) as [[[]|e] w1] eqn:Hcopy; [|discriminate].
  intros Hrun Hin Habs Hne.
  eapply copy_to_destinations_fills with (dest := dest) in Hcopy;
    [ | cbn [fs]; apply lookup_insert_eq | exact Hin
      | cbn [fs]; rewrite lookup_insert_ne by done; exact Habs ].
  destruct (fs w1 !! mktemp E (fs w)); [|discriminate].
  injection Hrun as <-. cbn [fs]. rewrite lookup_delete_ne by done. exact Hcopy.
Qed.

End Download.

(** C7.  Two runs of [download_document] with the same destinations, the
    second from any world [w2] (in particular from the world [w1'] the
    first run ends in): whatever the outcomes, neither run changes the
    bytes of a file that exists when it starts, so a file that existed
    before, or was created by, the first run is the same after the
    second; and when both runs return and stream the same bytes, a
    destination absent at the start of each (and other than the temporary
    file) holds the same bytes after each of them. *)
Theorem download_twice_idempotent (E : env) (document : PostboxDocument)
    (destinations : list string) (w1 w1' w2 w2' : world) (r1 r2 : result bool) :
  download_document E document destinations w1 = (r1, w1') ->
  download_document E document destinations w2 = (r2, w2') ->
  (forall path content,
     fs w1 !! path = Some content -> fs w1' !! path = Some content) /\
  (forall path content,
     fs w2 !! path = Some content -> fs w2' !! path = Some content) /\
  (forall dest,
     dest ∈ destinations ->
     r1 = Ok true -> r2 = Ok true ->
     fs w1 !! dest = None -> fs w2 !! dest = None ->
     dest <> mktemp E (fs w1) -> dest <> mktemp E (fs w2) ->
     raw (download_response E document w1) = raw (download_response E document w2) ->
     fs w1' !! dest = Some (raw (download_response E document w1)) /\
     fs w2' !! dest = fs w1' !! dest).
Proof.
  intros Hrun1 Hrun2. split; [|split].
  - eapply download_document_keeps, Hrun1.
  - eapply download_document_keeps, Hrun2.
  - intros dest Hin -> -> Habs1 Habs2 Hne1 Hne2 Hraw.
    rewrite (download_document_fills E _ _ _ _ dest Hrun1 Hin Habs1 Hne1).
    rewrite (download_document_fills E _ _ _ _ dest Hrun2 Hin Habs2 Hne2).
    rewrite Hraw. auto.
Qed.

(** The two runs of the fixtures: [a.pdf] existed and keeps its bytes;
    [c.pdf], absent before each run, gets the bytes of the document. *)
Lemma download_twice_idempotent_witness :
  fs Fixtures.first_run.2 !! "a.pdf" = Some "old bytes" /\
  fs Fixtures.second_run.2 !! "a.pdf" = Some "old bytes" /\
  fs Fixtures.first_run.2 !! "c.pdf" = Some Fixtures.pdf_bytes /\
  fs Fixtures.second_run.2 !! "c.pdf" = fs Fixtures.first_run.2 !! "c.pdf".
Proof.
  destruct (download_twice_idempotent (Fixtures.portal "secret" 200 false)
              Fixtures.statement ["a.pdf"; "c.pdf"]
              Fixtures.disk_with_a Fixtures.first_run.2
              Fixtures.between_runs Fixtures.second_run.2
              Fixtures.first_run.1 Fixtures.second_run.1)
    as (Hkeep1 & Hkeep2 & Hfill).
  - vm_compute. reflexivity.
  - vm_compute. reflexivity.
  - split; [apply Hkeep1; vm_compute; reflexivity|].
    split; [apply Hkeep2; vm_compute; reflexivity|].
    apply (Hfill "c.pdf").
    + apply list_elem_of_further, list_elem_of_here.
    + vm_compute. reflexivity.
    + vm_compute. reflexivity.
    + vm_compute. reflexivity.
    + vm_compute. reflexivity.
    + vm_compute. discriminate.
    + vm_compute. discriminate.
    + vm_compute. reflexivity.
Defined.

(** ** Failing copies *)

(** C3, as the code has it.  The destinations [pre] exist or can be
    written, and the next destination [dest] is absent and cannot be
    written.  The destinations of [pre] are handled, those that exist
    being reported and skipped; the copy to [dest] raises [OSError], which
    ends the download: the paths that are not in [pre] are left as they
    were, so the destinations after [dest] are not handled. *)
Theorem download_stops_at_failed_copy (E : env) (document : PostboxDocument)
    (pre post : list string) (dest : string) (w : world) :
  status_code (download_response E document w) = 200%Z ->
  fs w !! mktemp E (fs w) = None ->
  Forall (fun p => is_Some (fs w !! p) \/ writable E p = true) pre ->
  fs w !! dest = None ->
  dest <> mktemp E (fs w) ->
  writable E dest = false ->
  exists w',
    download_document E document (pre ++ dest :: post) w = (Raise OSError, w') /\
    (forall p, p ∈ pre -> is_Some (fs w' !! p)) /\
    (forall p, p ∈ pre -> is_Some (fs w !! p) ->
       EPrint (dquote +:+ p +:+ dquote +:+ " already exists") ∈ trace w') /\
    (forall p, p ∉ pre -> p <> mktemp E (fs w) -> fs w' !! p = fs w !! p).
Proof.
  intros Hstatus Htmp Hpre Habs Hne Hw.
  assert (Hnotin : dest ∉ pre).
  { intros Hin. rewrite Forall_forall in Hpre.
    destruct (Hpre dest Hin) as [[x Hx]|Hx]; congruence. }
  rewrite download_document_run. cbv zeta. rewrite Hstatus, Htmp.
  cbn [Z.eqb Pos.eqb negb]. rewrite copy_to_destinations_app.
  set (w0 := World (sess w) (<[mktemp E (fs w) := raw (download_response E document w)]> (fs w))
               ((trace_at_download document w ++ [EGet (base_url +:+ url document)])
                ++ [ETempfile (mktemp E (fs w))])).
  destruct (copy_to_destinations_completes E (mktemp E (fs w)) pre w0)
    as (w1 & Hrun & Hfiles & Hprints & Htr).
  { subst w0. cbn [fs]. rewrite lookup_insert_eq. eauto. }
  { eapply Forall_impl; [exact Hpre|]. subst w0. cbn [fs]. intros p [[x Hx]|Hp]; [|auto].
    left. exists x. rewrite lookup_insert_ne by congruence. exact Hx. }
  rewrite Hrun.
  assert (Helse : forall p, p ∉ pre -> p <> mktemp E (fs w) -> fs w1 !! p = fs w !! p).
  { intros p Hp Hpt.
    rewrite (copy_to_destinations_elsewhere E _ _ _ _ _ p Hrun Hp).
    subst w0. cbn [fs]. apply lookup_insert_ne. congruence. }
  assert (Htmp1 : is_Some (fs w1 !! mktemp E (fs w))).
  { apply copy_to_destinations_keeps in Hrun as [_ Hkeep].
    eexists. apply Hkeep. subst w0. cbn [fs]. apply lookup_insert_eq. }
  rewrite copy_to_destinations_cons. cbv zeta.
  rewrite (Helse dest Hnotin Hne), Habs.
  destruct Htmp1 as [content ->]. rewrite Hw.
  eexists. split; [reflexivity|]. cbn [fs trace].
  split; [exact Hfiles|]. split; [|exact Helse].
  intros p Hin Hex. apply elem_of_app. left. apply Hprints; [exact Hin|].
  subst w0. cbn [fs]. destruct Hex as [x Hx]. exists x.
  rewrite lookup_insert_ne by congruence. exact Hx.
Qed.

(** On the fixtures: [a.pdf] exists, [b.pdf] can be written, nothing can
    be created under [/missing/], and [c.pdf] comes last. *)
Lemma download_stops_at_failed_copy_witness :
  exists w',
    download_document (Fixtures.portal "secret" 200 false) Fixtures.statement
      (["a.pdf"; "b.pdf"] ++ "/missing/x.pdf" :: ["c.pdf"]) Fixtures.disk_with_a
      = (Raise OSError, w') /\
    is_Some (fs w' !! "b.pdf") /\
    EPrint (dquote +:+ "a.pdf" +:+ dquote +:+ " already exists") ∈ trace w' /\
    fs w' !! "c.pdf" = None.
Proof.
  destruct (download_stops_at_failed_copy (Fixtures.portal "secret" 200 false)
              Fixtures.statement ["a.pdf"; "b.pdf"] ["c.pdf"] "/missing/x.pdf"
              Fixtures.disk_with_a)
    as (w' & Hrun & Hfiles & Hprints & Helse).
  - vm_compute. reflexivity.
  - vm_compute. reflexivity.
  - constructor; [left; vm_compute; eauto|].
    constructor; [right; vm_compute; reflexivity | constructor].
  - vm_compute. reflexivity.
  - vm_compute. discriminate.
  - vm_compute. reflexivity.
  - exists w'. split; [exact Hrun|]. split; [|split].
    + apply Hfiles, list_elem_of_further, list_elem_of_here.
    + apply Hprints; [apply list_elem_of_here|]. vm_compute. eauto.
    + rewrite Helse.
      * vm_compute. reflexivity.
      * intros Hin. apply list_elem_of_In in Hin. simpl in Hin.
        destruct Hin as [H|[H|[]]]; discriminate H.
      * vm_compute. discriminate.
Defined.

(** C3 as stated fails: the copy to [/missing/x.pdf] fails, the download
    raises, and [c.pdf] is never written. *)
Lemma download_aborted_by_failed_copy :
  ~ copies_are_independent (Fixtures.portal "secret" 200 false) Fixtures.statement
      ["/missing/x.pdf"; "c.pdf"] Fixtures.disk_with_a.
Proof.
  intros (w' & Hrun & _). vm_compute in Hrun. discriminate Hrun.
Qed.

(** ** The temporary file *)

(** When [download_document] returns, the temporary file it created is
    gone. *)
Lemma download_document_deletes_tempfile (E : env) (document : PostboxDocument)
    (destinations : list string) (w w' : world) :
  download_document E document destinations w = (Ok true, w') ->
  fs w' !! mktemp E (fs w) = None.
Proof.
  rewrite download_document_run. cbv zeta.
  destruct (negb _); [discriminate|].
  destruct (fs w !! mktemp E (fs w)); [discriminate|].
  destruct (copy_to_destinations _ _ _ _) as [[[]|e] w1]; [|discriminate].
  destruct (fs w1 !! mktemp E (fs w)); [|discriminate].
  intros [= <-]. cbn [fs]. apply lookup_delete_eq.
Qed.

(** When [download_document] raises after it has created the temporary
    file, the file is still on the disk, with the bytes of the response. *)
Lemma download_document_failure_keeps_tempfile (E : env) (document : PostboxDocument)
    (destinations : list string) (w w' : world) (err : exn) :
  status_code (download_response E document w) = 200%Z ->
  fs w !! mktemp E (fs w) = None ->
  download_document E document destinations w = (Raise err, w') ->
  fs w' !! mktemp E (fs w) = Some (raw (download_response E document w)).
Proof.
  intros Hstatus Htmp. rewrite download_document_run. cbv zeta.
  rewrite Hstatus, Htmp. cbn [Z.eqb Pos.eqb negb].
  destruct (copy_to_destinations _ _ _ _) as [[[]|e] w1] eqn:Hcopy;
    apply copy_to_destinations_keeps in Hcopy as [_ Hkeep];
    specialize (Hkeep (mktemp E (fs w)) (raw (download_response E document w)));
    cbn [fs] in Hkeep; rewrite lookup_insert_eq in Hkeep;
    specialize (Hkeep eq_refl).
  - rewrite Hkeep. discriminate.
  - intros [= _ <-]. exact Hkeep.
Qed.

(** C4 fails on the code when a copy fails: the exception leaves
    [download_document] before line 188, and the temporary file stays on
    the disk with the bytes of the document. *)
Theorem download_leaves_tempfile_on_failed_copy :
  (exists w',
     download_document (Fixtures.portal "secret" 200 false) Fixtures.statement
       ["/missing/x.pdf"] Fixtures.disk_with_a = (Raise OSError, w') /\
     ETempfile "/tmp/tmpa1b2c3" ∈ trace w' /\
     fs w' !! "/tmp/tmpa1b2c3" = Some Fixtures.pdf_bytes) /\
  ~ tempfile_always_deleted (Fixtures.portal "secret" 200 false) Fixtures.statement
      ["/missing/x.pdf"] Fixtures.disk_with_a.
Proof.
  assert (Hrun : download_document (Fixtures.portal "secret" 200 false) Fixtures.statement
                   ["/missing/x.pdf"] Fixtures.disk_with_a
                 = (Raise OSError,
                    World Fixtures.logged_in
                      (<["/tmp/tmpa1b2c3" := Fixtures.pdf_bytes]>
                         (list_to_map [("a.pdf", "old bytes")]))
                      [EPrint "Download document 'Kontoauszug 3'";
                       EGet "https://www.dkb.de/docs/k3?x=1";
                       ETempfile "/tmp/tmpa1b2c3";
                       EPrint "Copy to /missing/x.pdf"]))
    by (vm_compute; reflexivity).
  assert (Hin : ETempfile "/tmp/tmpa1b2c3"
                ∈ [EPrint "Download document 'Kontoauszug 3'";
                   EGet "https://www.dkb.de/docs/k3?x=1";
                   ETempfile "/tmp/tmpa1b2c3";
                   EPrint "Copy to /missing/x.pdf"])
    by (do 2 apply list_elem_of_further; apply list_elem_of_here).
  split.
  - eexists. split; [exact Hrun|]. split; [exact Hin | reflexivity].
  - intros H. specialize (H _ _ Hrun "/tmp/tmpa1b2c3" Hin). discriminate H.
Qed.

(** ** The account directory *)

Lemma dict_setitem_keys_in key value d x :
  x ∈ dict_keys (dict_setitem key value d) -> x = key \/ x ∈ dict_keys d.
Proof.
  induction d as [|[k v] d IH]; simpl.
  - intros Hx. apply list_elem_of_singleton in Hx. auto.
  - destruct (String.eqb k key); simpl; [auto|].
    intros Hx. apply elem_of_cons in Hx as [->|Hx].
    + right. apply list_elem_of_here.
    + destruct (IH Hx) as [->|Hin]; [auto|]. right. by apply list_elem_of_further.
Qed.

(** Assigning to a key keeps the keys of the dictionary distinct. *)
Lemma dict_setitem_NoDup key value d :
  NoDup (dict_keys d) -> NoDup (dict_keys (dict_setitem key value d)).
Proof.
  induction d as [|[k v] d IH]; simpl; intros Hd.
  - repeat constructor. by intros ?%elem_of_nil.
  - apply NoDup_cons in Hd as [Hk Hd].
    destruct (String.eqb k key) eqn:Hkey; simpl.
    + by apply NoDup_cons.
    + apply NoDup_cons. split; [|by apply IH].
      intros Hin. apply dict_setitem_keys_in in Hin as [->|Hin]; [|by apply Hk].
      by rewrite String.eqb_refl in Hkey.
Qed.

Lemma collect_accounts_NoDup options d :
  NoDup (dict_keys d) -> NoDup (dict_keys (collect_accounts options d).1).
Proof.
  revert d. induction options as [|account rest IH]; intros d Hd; [exact Hd|].
  cbn [collect_accounts].
  destruct (Bs4.getitem "value" (Some account)); [|exact Hd].
  by apply IH, dict_setitem_NoDup.
Qed.

(** ** Facts on traces and on the names of the CSV files *)

Lemma written_app tr1 tr2 : written (tr1 ++ tr2) = written tr1 ++ written tr2.
Proof. apply flat_map_app. Qed.

Lemma pauses_app tr1 tr2 : pauses (tr1 ++ tr2) = pauses tr1 + pauses tr2.
Proof. unfold pauses. rewrite List.filter_app. apply length_app. Qed.

Lemma string_length_app s t :
  String.length (s +:+ t) = String.length s + String.length t.
Proof. induction s as [|c s IH]; simpl; [reflexivity | by rewrite IH]. Qed.

Lemma string_app_inj_r t s1 s2 : s1 +:+ t = s2 +:+ t -> s1 = s2.
Proof.
  revert s2. induction s1 as [|c s1 IH]; intros [|d s2] H.
  - reflexivity.
  - apply (f_equal String.length) in H.
    rewrite !string_length_app in H. simpl in H. lia.
  - apply (f_equal String.length) in H.
    rewrite !string_length_app in H. simpl in H. lia.
  - change (String c (s1 +:+ t) = String d (s2 +:+ t)) in H.
    injection H as -> H. f_equal. by apply IH.
Qed.

(** The name of the CSV file tells the account. *)
Lemma csv_path_inj destination s e o1 o2 :
  csv_path destination s e o1 = csv_path destination s e o2 -> o1 = o2.
Proof.
  unfold csv_path. intros H.
  apply String.app_inj in H. apply (String.app_inj "ac") in H.
  by apply string_app_inj_r in H.
Qed.

Lemma NoDup_map_csv_path destination s e keys :
  NoDup keys -> NoDup (map (csv_path destination s e) keys).
Proof.
  induction 1 as [|o keys Hnot _ IH]; simpl; constructor; [|exact IH].
  intros Hin. apply list_elem_of_In in Hin.
  apply in_map_iff in Hin as (o' & Heq & Hin).
  apply csv_path_inj in Heq as ->. by apply Hnot, list_elem_of_In.
Qed.

(** ** The export loop *)

Section ExportLoop.

Context (E : env) (destination s e : string).

(** The export of one account: a successful one writes the file of the
    account and nothing else; a failed one writes nothing.  Neither
    pauses. *)
Lemma export_account_outcome (f : form) (o : string) (w : world) r w' :
  export_account E destination s e f o w = (r, w') ->
  pauses (trace w') = pauses (trace w) /\
  sess w' = sess w /\
  match r with
  | Ok _ =>
      written (trace w') = written (trace w) ++ [csv_path destination s e o] /\
      exists content, fs w' = <[csv_path destination s e o := content]> (fs w)
  | Raise _ => written (trace w') = written (trace w) /\ fs w' = fs w
  end.
Proof.
  unfold export_account, bind, lift, http_post, http_get, write_file, ret.
  cbn -[base_url csv_path pauses written fill_selection_form].
  destruct (fill_selection_form s e f o) as [filled|err];
    [|intros [= <- <-]; auto].
  cbn -[base_url csv_path pauses written].
  destruct (concat_url base_url (action filled)) as [post_url|err];
    [|intros [= <- <-]; auto].
  cbn -[base_url csv_path pauses written].
  destruct (Bs4.getitem _ _) as [csv_url|err]; cbn -[base_url csv_path pauses written].
  - destruct (writable E _); intros [= <- <-]; cbn -[base_url csv_path pauses written];
      rewrite !pauses_app, !written_app; cbn -[base_url csv_path];
      rewrite ?app_nil_r, ?Nat.add_0_r; eauto.
  - intros [= <- <-]. cbn -[base_url csv_path pauses written].
    rewrite !pauses_app, !written_app. cbn. rewrite ?app_nil_r, ?Nat.add_0_r. auto.
Qed.

(** One turn of the loop. *)
Lemma export_loop_cons accs (f : form) (o : string) (rest : list string) (w : world) :
  export_loop E destination s e accs f (o :: rest) w =
  match dict_getitem o accs with
  | Raise err => (Raise err, w)
  | Ok _ =>
      if exported accs o
      then match export_account E destination s e f o w with
           | (Ok f', w1) =>
               export_loop E destination s e accs f' rest
                 (World (sess w1) (fs w1) (trace w1 ++ [ESleep 5]))
           | (Raise err, w1) => (Raise err, w1)
           end
      else export_loop E destination s e accs f rest
             (World (sess w) (fs w) (trace w ++ [ESleep 5]))
  end.
Proof.
  cbn [export_loop]. unfold exported, bind at 1, lift.
  destruct (dict_getitem o accs) as [name|err]; [|reflexivity].
  unfold bind at 1. destruct (negb (excluded name)).
  - destruct (export_account _ _ _ _ _ _ _) as [[f'|err] w1]; reflexivity.
  - reflexivity.
Qed.

(** The loop over a list of two parts. *)
Lemma export_loop_app accs (f : form) (l1 l2 : list string) (w : world) :
  export_loop E destination s e accs f (l1 ++ l2) w =
  match export_loop E destination s e accs f l1 w with
  | (Ok f1, w1) => export_loop E destination s e accs f1 l2 w1
  | (Raise err, w1) => (Raise err, w1)
  end.
Proof.
  revert f w. induction l1 as [|o l1 IH]; intros f w; [reflexivity|].
  rewrite <- app_comm_cons, !export_loop_cons.
  destruct (dict_getitem o accs); [|reflexivity].
  destruct (exported accs o); [|apply IH].
  destruct (export_account _ _ _ _ _ _ _) as [[f'|err] w1]; [apply IH | reflexivity].
Qed.

(** Whatever its outcome, the loop removes no file. *)
Lemma export_loop_keeps accs (f : form) (keys : list string) (w : world) r w' :
  export_loop E destination s e accs f keys w = (r, w') ->
  forall path, is_Some (fs w !! path) -> is_Some (fs w' !! path).
Proof.
  revert f w. induction keys as [|o rest IH]; intros f w Hrun path Hp.
  - injection Hrun as _ <-. exact Hp.
  - rewrite export_loop_cons in Hrun.
    destruct (dict_getitem o accs); [|by injection Hrun as _ <-].
    destruct (exported accs o); [|by eapply IH in Hrun].
    destruct (export_account _ _ _ _ _ _ _) as [[f'|err] w1] eqn:Hacc;
      apply export_account_outcome in Hacc as (_ & _ & Hout).
    + destruct Hout as (_ & content & Hfs). eapply IH in Hrun; [exact Hrun|].
      cbn [fs]. rewrite Hfs. destruct Hp as [x Hx].
      destruct (decide (csv_path destination s e o = path)) as [->|Hne];
        [rewrite lookup_insert_eq | rewrite lookup_insert_ne by done]; eauto.
    + destruct Hout as (_ & Hfs). injection Hrun as _ <-. by rewrite Hfs.
Qed.

(** A loop that completes has written, in order, the files of the
    accounts that line 230 lets through, has paused once for every
    account, and each written file is on the disk. *)
Lemma export_loop_completed accs (f : form) (keys : list string) (w : world) f' w' :
  export_loop E destination s e accs f keys w = (Ok f', w') ->
  written (trace w') =
    written (trace w) ++ map (csv_path destination s e) (List.filter (exported accs) keys) /\
  pauses (trace w') = pauses (trace w) + length keys /\
  (forall o, o ∈ keys -> exported accs o = true ->
             is_Some (fs w' !! csv_path destination s e o)).
Proof.
  revert f w. induction keys as [|o rest IH]; intros f w Hrun.
  - injection Hrun as _ <-. cbn. rewrite app_nil_r, Nat.add_0_r.
    split; [reflexivity|]. split; [reflexivity|].
    intros o Hin. by apply elem_of_nil in Hin.
  - pose proof Hrun as Hrun0. rewrite export_loop_cons in Hrun.
    destruct (dict_getitem o accs); [|discriminate].
    cbn [List.filter]. destruct (exported accs o) eqn:Hex.
    + destruct (export_account _ _ _ _ _ _ _) as [[f1|err] w1] eqn:Hacc; [|discriminate].
      apply export_account_outcome in Hacc as (Hp & _ & Hw & content & Hfs).
      pose proof Hrun as Hrest.
      apply IH in Hrun as (Hwr & Hpa & Hfiles). cbn [trace] in Hwr, Hpa.
      rewrite written_app, pauses_app in *. cbn in Hwr, Hpa.
      rewrite app_nil_r in Hwr. split; [|split].
      * rewrite Hwr, Hw, <- app_assoc. reflexivity.
      * rewrite Hpa, Hp. cbn. lia.
      * intros o' Hin Ho'. apply elem_of_cons in Hin as [->|Hin]; [|auto].
        eapply export_loop_keeps; [exact Hrest|]. cbn [fs]. rewrite Hfs.
        rewrite lookup_insert_eq. eauto.
    + apply IH in Hrun as (Hwr & Hpa & Hfiles). cbn [trace] in Hwr, Hpa.
      rewrite written_app, pauses_app in *. cbn in Hwr, Hpa.
      rewrite app_nil_r in Hwr. split; [|split].
      * exact Hwr.
      * rewrite Hpa. cbn. lia.
      * intros o' Hin Ho'. apply elem_of_cons in Hin as [->|Hin]; [congruence|auto].
Qed.

End ExportLoop.

Section ExportRun.

Context (E : env).



(** The run of the export on two dates, up to the loop. *)
Lemma export_run (start_date end_date : date) (destination : string) (w : world) :
  get_all_banking_account_transactions E (PyDate start_date) (PyDate end_date)
    destination w =
  match umsatz_url (sess w) with
  | None => (Raise AttributeError, w)
  | Some u =>
      match fromstring_forms (selection_page E w u) with
      | Raise err => (Raise err, after_selection_page w u)
      | Ok _ =>
      match find_form "slAllAccounts" (forms (selection_page E w u)) with
      | None => (Raise (RuntimeError "Could not find selection forms."),
                 after_selection_page w u)
      | Some f =>
          match accounts (sess w) with
          | None => (Raise AttributeError, after_selection_page w u)
          | Some accs =>
              match export_loop E destination (strftime_dmY start_date)
                      (strftime_dmY end_date) accs f (dict_keys accs)
                      (after_selection_page w u) with
              | (Ok _, w') => (Ok tt, w')
              | (Raise err, w') => (Raise err, w')
              end
          end
      end
      end
  end.
Proof.
  unfold get_all_banking_account_transactions, selection_page, after_selection_page.
  unfold bind, ret, lift, self_attr, http_get.
  cbn -[base_url find_form export_loop strftime_dmY forms fromstring_forms].
  destruct (umsatz_url (sess w)) as [u|]; [|reflexivity].
  cbn -[base_url find_form export_loop strftime_dmY forms fromstring_forms].
  unfold forms, fromstring_forms.
  destruct (lxml_forms _) as [page_forms|]; [|reflexivity].
  cbn -[base_url find_form export_loop strftime_dmY].
  destruct (find_form _ _) as [f|]; [|reflexivity].
  cbn -[base_url find_form export_loop strftime_dmY].
  destruct (accounts (sess w)) as [accs|]; [|reflexivity].
  destruct (export_loop _ _ _ _ _ _ _ _) as [[f'|err] w']; reflexivity.
Qed.

End ExportRun.

(** ** Excluded accounts and the pause *)

(** C1, as the code has it.  A run of the export that completes has
    written, in the order of the directory, exactly one file for each
    account whose display name does not contain ['PayPal'], and none for
    the others; each of these files is on the disk; and it has paused
    once for every account of the directory, the skipped ones too. *)
Theorem export_skips_excluded (E : env) (start_date end_date : date)
    (destination : string) (w w' : world) (accs : dict) :
  accounts (sess w) = Some accs ->
  NoDup (dict_keys accs) ->
  get_all_banking_account_transactions E (PyDate start_date) (PyDate end_date)
    destination w = (Ok tt, w') ->
  let path := csv_path destination (strftime_dmY start_date) (strftime_dmY end_date) in
  let files := map path (List.filter (exported accs) (dict_keys accs)) in
  written (trace w') = written (trace w) ++ files /\
  NoDup files /\
  (forall o, o ∈ dict_keys accs -> exported accs o = true ->
             path o ∈ files /\ is_Some (fs w' !! path o)) /\
  (forall o, o ∈ dict_keys accs -> exported accs o = false -> path o ∉ files) /\
  pauses (trace w') = pauses (trace w) + length (dict_keys accs).
Proof.
  intros Haccs Hnodup Hrun path files. rewrite export_run, Haccs in Hrun.
  destruct (umsatz_url (sess w)) as [u|]; [|discriminate].
  destruct (fromstring_forms _); [|discriminate].
  destruct (find_form _ _) as [f|]; [|discriminate].
  destruct (export_loop _ _ _ _ _ _ _ _) as [[f'|err] w1] eqn:Hloop; [|discriminate].
  injection Hrun as ->.
  apply export_loop_completed in Hloop as (Hwr & Hpa & Hfiles).
  unfold after_selection_page in Hwr, Hpa. cbn [trace] in Hwr, Hpa.
  rewrite written_app, pauses_app in *. cbn in Hwr, Hpa.
  rewrite app_nil_r in Hwr. rewrite Nat.add_0_r in Hpa.
  split; [exact Hwr|]. split; [|split; [|split; [|exact Hpa]]].
  - apply NoDup_map_csv_path, NoDup_ListNoDup, List.NoDup_filter, NoDup_ListNoDup, Hnodup.
  - intros o Hin Hex. split; [|by apply Hfiles].
    apply list_elem_of_In, in_map, filter_In. split; [by apply list_elem_of_In | exact Hex].
  - intros o Hin Hex Hfile. apply list_elem_of_In in Hfile.
    apply in_map_iff in Hfile as (o' & Heq & Ho').
    apply csv_path_inj in Heq as ->. apply filter_In in Ho' as [_ Ho']. congruence.
Qed.

Lemma NoDup_three_accounts : NoDup (dict_keys Fixtures.three_accounts).
Proof.
  unfold Fixtures.three_accounts, dict_keys. cbn [map fst].
  repeat (constructor; [intros Hin; apply list_elem_of_In in Hin; simpl in Hin;
                        intuition discriminate|]).
  constructor.
Qed.

(** The directory of the fixtures: one excluded account between two
    others.  Two files, three pauses. *)
Lemma export_skips_excluded_witness :
  Fixtures.export_of_january.1 = Ok tt /\
  written (trace Fixtures.export_of_january.2) =
    ["./ac0_01.01.2020_to_31.01.2020.csv"; "./ac2_01.01.2020_to_31.01.2020.csv"] /\
  pauses (trace Fixtures.export_of_january.2) = 3.
Proof.
  split; [vm_compute; reflexivity|].
  destruct (export_skips_excluded (Fixtures.portal "secret" 200 false)
              (Date 2020 1 1) (Date 2020 1 31) "./"
              (World Fixtures.with_accounts ∅ []) Fixtures.export_of_january.2
              Fixtures.three_accounts eq_refl NoDup_three_accounts)
    as (Hwr & _ & _ & _ & Hpa).
  - vm_compute. reflexivity.
  - split; [exact Hwr | exact Hpa].
Defined.

(** C1 as stated fails for the pause: with one excluded account out of
    three, the run pauses three times and exports two accounts. *)
Lemma export_pauses_after_excluded :
  ~ pause_only_after_exports (Fixtures.portal "secret" 200 false)
      (Date 2020 1 1) (Date 2020 1 31) "./" (World Fixtures.with_accounts ∅ []).
Proof.
  intros H.
  specialize (H Fixtures.three_accounts Fixtures.export_of_january.2 eq_refl).
  assert (Hpa : pauses (trace Fixtures.export_of_january.2) = 0 + 2).
  { apply H. vm_compute. reflexivity. }
  vm_compute in Hpa. discriminate Hpa.
Qed.

(** ** The dates of the export *)




(** ** Failure in the middle of an export *)

(** C10.  The directory lists the accounts [pre], then [k], then [post].
    When the exports of [pre] go through and the export of [k] fails, the
    whole run fails with the error of [k], in the world where that export
    stopped: the disk is the one the exports of [pre] left, with the file
    of every exported account of [pre] on it and nothing removed. *)
Theorem export_keeps_earlier_files (E : env) (start_date end_date : date)
    (destination : string) (w : world) (u : string) (accs : dict) (f f1 : form)
    (pre post : list string) (k : string) (w1 w2 : world) (err : exn) :
  let s := strftime_dmY start_date in
  let e := strftime_dmY end_date in
  umsatz_url (sess w) = Some u ->
  accounts (sess w) = Some accs ->
  find_form "slAllAccounts" (forms (selection_page E w u)) = Some f ->
  dict_keys accs = pre ++ k :: post ->
  export_loop E destination s e accs f pre (after_selection_page w u) = (Ok f1, w1) ->
  exported accs k = true ->
  export_account E destination s e f1 k w1 = (Raise err, w2) ->
  get_all_banking_account_transactions E (PyDate start_date) (PyDate end_date)
    destination w = (Raise err, w2) /\
  fs w2 = fs w1 /\
  written (trace w2) =
    written (trace w) ++ map (csv_path destination s e) (List.filter (exported accs) pre) /\
  (forall o, o ∈ pre -> exported accs o = true ->
             is_Some (fs w2 !! csv_path destination s e o)) /\
  (forall path, is_Some (fs w !! path) -> is_Some (fs w2 !! path)).
Proof.
  intros s e Hu Haccs Hf Hkeys Hpre Hk Hfail.
  pose proof (export_account_outcome _ _ _ _ _ _ _ _ _ Hfail) as (_ & _ & Hwr2 & Hfs2).
  pose proof (export_loop_completed _ _ _ _ _ _ _ _ _ _ Hpre) as (Hwr1 & _ & Hfiles).
  unfold after_selection_page in Hwr1. cbn [trace] in Hwr1.
  rewrite written_app in Hwr1. cbn in Hwr1. rewrite app_nil_r in Hwr1.
  split; [|split; [exact Hfs2 | split; [by rewrite Hwr2 | split]]].
  - rewrite export_run, Hu, (found_form_parsed _ _ _ Hf), Hf, Haccs, Hkeys. fold s e.
    rewrite export_loop_app, Hpre, export_loop_cons.
    unfold exported in Hk. destruct (dict_getitem k accs) as [name|] eqn:Hname;
      [|discriminate].
    unfold exported. rewrite Hname, Hk, Hfail. reflexivity.
  - intros o Hin Hex. rewrite Hfs2. by apply Hfiles.
  - intros path Hp. rewrite Hfs2.
    eapply export_loop_keeps; [exact Hpre|]. exact Hp.
Qed.

(** The broken portal: the result page of the account ["2"] has no
    export link.  The run fails there with [TypeError]; the file of the
    account ["0"] stays, and the account ["3"] is never reached. *)
Lemma export_keeps_earlier_files_witness :
  get_all_banking_account_transactions (Fixtures.portal "secret" 200 true)
    (PyDate (Date 2020 1 1)) (PyDate (Date 2020 1 31)) "./"
    (World Fixtures.with_four_accounts ∅ [])
    = (Raise TypeError, Fixtures.broken_step.2) /\
  written (trace Fixtures.broken_step.2) = ["./ac0_01.01.2020_to_31.01.2020.csv"] /\
  fs Fixtures.broken_step.2 !! "./ac0_01.01.2020_to_31.01.2020.csv"
    = Some "csv of account 0".
Proof.
  destruct (export_keeps_earlier_files (Fixtures.portal "secret" 200 true)
              (Date 2020 1 1) (Date 2020 1 31) "./"
              (World Fixtures.with_four_accounts ∅ []) "/umsaetze"
              Fixtures.four_accounts Fixtures.selection_form
              Fixtures.form_after_first_export ["0"; "1"] ["3"] "2"
              Fixtures.broken_prefix.2 Fixtures.broken_step.2 TypeError)
    as (Hrun & _ & Hwr & _ & _).
  - reflexivity.
  - reflexivity.
  - vm_compute. reflexivity.
  - reflexivity.
  - vm_compute. reflexivity.
  - vm_compute. reflexivity.
  - vm_compute. reflexivity.
  - split; [exact Hrun|]. split; [exact Hwr|]. vm_compute. reflexivity.
Defined.

(** * Further properties of the session *)

(** ** What a login does to the session *)

(** X1.  When the login page has a form with [j_username] that takes
    the user name and the password (it has an input [j_password], and
    neither input refuses the value) and has an action, and the answer to
    the credentials has the marker and the three links, [login] returns
    [True]; the three urls of the session are the [href]s of these links;
    the disk, the client and the directory are as before; and the run has
    sent two requests, the GET of the login page and the POST to the
    action of the form. *)
Theorem login_stores_links (E : env) (username : string) (w : world)
    (f : form) (a lo po um : string) :
  find_form "j_username" (forms (login_page_of E w)) = Some f ->
  check_field "j_username" username f = Ok tt ->
  check_field "j_password"
    (getpass E (trace_at_login w ++ [EGet (base_url +:+ login_url)])) f = Ok tt ->
  action f = Some a ->
  has_login_marker (login_response_of E username w f a) = true ->
  logout_link (soup (login_response_of E username w f a)) = Ok lo ->
  tid_link "Postfach" (soup (login_response_of E username w f a)) = Ok po ->
  tid_link "Umsaetze" (soup (login_response_of E username w f a)) = Ok um ->
  exists w',
    login E username w = (Ok true, w') /\
    logout_url (sess w') = Some lo /\
    postbox_url (sess w') = Some po /\
    umsatz_url (sess w') = Some um /\
    fs w' = fs w /\
    closed (sess w') = closed (sess w) /\
    accounts (sess w') = accounts (sess w) /\
    requested (trace w') =
      requested (trace w) ++ [base_url +:+ login_url; base_url +:+ a].
Proof.
  intros Hf Hcu Hcp Ha Hm Hlo Hpo Hum. rewrite login_run. cbv zeta.
  rewrite (found_form_parsed _ _ _ Hf), Hf, Hcu, Hcp, Ha.
  rewrite Hm, Hlo, Hpo, Hum. eexists. split; [reflexivity|].
  cbn [sess fs trace logout_url postbox_url umsatz_url closed accounts
         set_umsatz_url set_postbox_url set_logout_url].
  repeat (split; [reflexivity|]).
  unfold trace_after_login_post, trace_at_login, requested.
  rewrite !flat_map_app.
  destruct (verbose (sess w)); cbn [flat_map app]; rewrite ?app_nil_r; reflexivity.
Qed.

Lemma login_stores_links_witness :
  exists w',
    login (Fixtures.portal "secret" 200 false) "alice" Fixtures.start_world
      = (Ok true, w') /\
    logout_url (sess w') = Some "/logout" /\
    postbox_url (sess w') = Some "/postfach" /\
    umsatz_url (sess w') = Some "/umsaetze" /\
    requested (trace w') =
      [] ++ [base_url +:+ login_url; base_url +:+ "/banking/login"].
Proof.
  destruct (login_stores_links (Fixtures.portal "secret" 200 false) "alice"
              Fixtures.start_world Cases.login_form "/banking/login"
              "/logout" "/postfach" "/umsaetze")
    as (w' & Hrun & Hlo & Hpo & Hum & _ & _ & _ & Hreq);
    try (vm_compute; reflexivity).
  exists w'. auto.
Defined.

(** X2.  [login] never returns [False]: when it returns, the form, the
    marker and the three links were found, and the three urls of the
    session are set. *)
Theorem login_returns_only_logged_in (E : env) (username : string) (w w' : world)
    (b : bool) :
  login E username w = (Ok b, w') ->
  b = true /\
  (exists f a,
     find_form "j_username" (forms (login_page_of E w)) = Some f /\
     action f = Some a /\
     has_login_marker (login_response_of E username w f a) = true /\
     Ok <$> logout_url (sess w') = Some (logout_link (soup (login_response_of E username w f a))) /\
     Ok <$> postbox_url (sess w')
       = Some (tid_link "Postfach" (soup (login_response_of E username w f a))) /\
     Ok <$> umsatz_url (sess w')
       = Some (tid_link "Umsaetze" (soup (login_response_of E username w f a)))).
Proof.
  rewrite login_run. cbv zeta.
  destruct (fromstring_forms _) as [page_forms|]; [|discriminate].
  destruct (find_form _ _) as [f|] eqn:Hf; [|discriminate].
  destruct (check_field "j_username" username f) as [[]|]; [|discriminate].
  destruct (check_field "j_password" _ f) as [[]|]; [|discriminate].
  destruct (action f) as [a|] eqn:Ha; [|discriminate].
  destruct (has_login_marker _) eqn:Hm; [|discriminate].
  destruct (logout_link _) as [lo|] eqn:Hlo; [|discriminate].
  destruct (tid_link "Postfach" _) as [po|] eqn:Hpo; [|discriminate].
  destruct (tid_link "Umsaetze" _) as [um|] eqn:Hum; [|discriminate].
  intros [= <- <-]. split; [reflexivity|]. exists f, a.
  rewrite Hlo, Hpo, Hum. auto 10.
Qed.

Lemma login_returns_only_logged_in_witness :
  (login (Fixtures.portal "secret" 200 false) "alice" Fixtures.start_world).1 = Ok true /\
  is_Some (umsatz_url
             (sess (login (Fixtures.portal "secret" 200 false) "alice"
                      Fixtures.start_world).2)).
Proof.
  destruct (login_returns_only_logged_in (Fixtures.portal "secret" 200 false) "alice"
              Fixtures.start_world
              (login (Fixtures.portal "secret" 200 false) "alice" Fixtures.start_world).2
              true)
    as (_ & f & a & _ & _ & _ & _ & _ & Hum).
  - vm_compute. reflexivity.
  - split; [vm_compute; reflexivity|].
    destruct (umsatz_url _); [eauto | discriminate Hum].
Defined.

(** X3.  The credentials go out with the rest of the form: whenever the
    login form is found, takes the user name and the password (it has an
    input [j_password], and neither input refuses the value) and has an
    action, [login] posts to that action the fields of the form with
    [j_username] set to the user name and [j_password] set to what the
    prompt returned, every other field as the page gave it. *)
Theorem login_posts_form_fields (E : env) (username : string) (w : world)
    (f : form) (a : string) :
  find_form "j_username" (forms (login_page_of E w)) = Some f ->
  check_field "j_username" username f = Ok tt ->
  check_field "j_password"
    (getpass E (trace_at_login w ++ [EGet (base_url +:+ login_url)])) f = Ok tt ->
  action f = Some a ->
  let data := login_data E username w f in
  EPost (base_url +:+ a) data ∈ trace (login E username w).2 /\
  data !! "j_username" = Some username /\
  data !! "j_password"
    = Some (getpass E (trace_at_login w ++ [EGet (base_url +:+ login_url)])) /\
  (forall key, key <> "j_username" -> key <> "j_password" ->
               data !! key = fields f !! key).
Proof.
  intros Hf Hcu Hcp Ha data. split; [|split; [|split]].
  - assert (Hin : forall more,
               EPost (base_url +:+ a) data
               ∈ trace_after_login_post E username w f a ++ more).
    { intros more. unfold trace_after_login_post. rewrite !elem_of_app. left. right.
      do 2 apply list_elem_of_further. apply list_elem_of_here. }
    assert (Hin0 := Hin []). rewrite app_nil_r in Hin0.
    rewrite login_run. cbv zeta.
    rewrite (found_form_parsed _ _ _ Hf), Hf, Hcu, Hcp, Ha.
    destruct (has_login_marker _); [|exact Hin0].
    destruct (logout_link _); [|exact Hin0].
    destruct (tid_link "Postfach" _); [|exact Hin0].
    destruct (tid_link "Umsaetze" _); [|exact Hin0].
    apply Hin.
  - unfold data, login_data. rewrite lookup_insert_ne by discriminate.
    apply lookup_insert_eq.
  - unfold data, login_data. apply lookup_insert_eq.
  - intros key H1 H2. unfold data, login_data.
    rewrite !lookup_insert_ne by congruence. reflexivity.
Qed.

Lemma login_posts_form_fields_witness :
  EPost (base_url +:+ "/banking/login")
    (login_data (Fixtures.portal "wrong" 200 false) "alice" Fixtures.start_world
       Cases.login_form)
  ∈ trace (login (Fixtures.portal "wrong" 200 false) "alice" Fixtures.start_world).2 /\
  login_data (Fixtures.portal "wrong" 200 false) "alice" Fixtures.start_world
    Cases.login_form !! "token" = Some "t0".
Proof.
  destruct (login_posts_form_fields (Fixtures.portal "wrong" 200 false) "alice"
              Fixtures.start_world Cases.login_form "/banking/login")
    as (Hin & _ & _ & Hother); try (vm_compute; reflexivity).
  split; [exact Hin|]. rewrite Hother by discriminate. vm_compute. reflexivity.
Defined.

(** X4.  Whatever its outcome, [login] leaves the disk, the client and
    the account directory as they were; and when it fails with a
    [RuntimeError] (no login form, or no marker) it leaves the whole
    session as it was. *)
Theorem login_frame (E : env) (username : string) (w : world) :
  fs (login E username w).2 = fs w /\
  closed (sess (login E username w).2) = closed (sess w) /\
  accounts (sess (login E username w).2) = accounts (sess w) /\
  (forall msg, (login E username w).1 = Raise (RuntimeError msg) ->
               sess (login E username w).2 = sess w).
Proof.
  rewrite login_run. cbv zeta.
  destruct (fromstring_forms _) as [page_forms|err] eqn:Hparse.
  2:{ repeat (split; [reflexivity|]). intros msg [= ->].
      unfold fromstring_forms in Hparse. destruct (lxml_forms _); discriminate. }
  destruct (find_form _ _) as [f|]; [|by auto].
  destruct (check_field "j_username" username f) as [[]|err] eqn:Hcu.
  2:{ repeat (split; [reflexivity|]). intros msg [= ->].
      destruct (check_field_raises _ _ _ _ Hcu); discriminate. }
  destruct (check_field "j_password" _ f) as [[]|err] eqn:Hcp.
  2:{ repeat (split; [reflexivity|]). intros msg [= ->].
      destruct (check_field_raises _ _ _ _ Hcp); discriminate. }
  destruct (action f) as [a|]; [|by repeat split].
  destruct (has_login_marker _); [|by auto].
  destruct (logout_link _) as [lo|err] eqn:Hlo.
  2:{ repeat (split; [reflexivity|]). intros msg [= ->].
      exfalso; exact (getitem_not_runtime _ _ _ msg Hlo eq_refl). }
  destruct (tid_link "Postfach" _) as [po|err] eqn:Hpo.
  - destruct (tid_link "Umsaetze" _) as [um|err] eqn:Hum; [by repeat split|].
    repeat (split; [reflexivity|]). intros msg [= ->].
    exfalso; exact (tid_link_not_runtime _ _ _ msg Hum eq_refl).
  - repeat (split; [reflexivity|]). intros msg [= ->].
    exfalso; exact (tid_link_not_runtime _ _ _ msg Hpo eq_refl).
Qed.

Lemma login_frame_witness :
  (login Fixtures.portal_down "alice" (World Cases.with_old_accounts ∅ [])).1
    = Raise (RuntimeError "Login Form not found.") /\
  sess (login Fixtures.portal_down "alice" (World Cases.with_old_accounts ∅ [])).2
    = Cases.with_old_accounts.
Proof.
  split; [vm_compute; reflexivity|].
  apply (proj2 (proj2 (proj2 (login_frame Fixtures.portal_down "alice"
                                (World Cases.with_old_accounts ∅ []))))
           "Login Form not found.").
  vm_compute. reflexivity.
Defined.

(** X5.  The three urls are stored one after the other: when the
    credentials are posted (the form takes them and has an action), the
    answer has the marker and the logout link, and the postbox link is not
    found, [login] raises, and the session already holds the new logout
    url beside the old postbox and transactions urls. *)
Theorem login_partial_links (E : env) (username : string) (w : world)
    (f : form) (a lo : string) (err : exn) :
  find_form "j_username" (forms (login_page_of E w)) = Some f ->
  check_field "j_username" username f = Ok tt ->
  check_field "j_password"
    (getpass E (trace_at_login w ++ [EGet (base_url +:+ login_url)])) f = Ok tt ->
  action f = Some a ->
  has_login_marker (login_response_of E username w f a) = true ->
  logout_link (soup (login_response_of E username w f a)) = Ok lo ->
  tid_link "Postfach" (soup (login_response_of E username w f a)) = Raise err ->
  exists w',
    login E username w = (Raise err, w') /\
    logout_url (sess w') = Some lo /\
    postbox_url (sess w') = postbox_url (sess w) /\
    umsatz_url (sess w') = umsatz_url (sess w).
Proof.
  intros Hf Hcu Hcp Ha Hm Hlo Hpo. rewrite login_run. cbv zeta.
  rewrite (found_form_parsed _ _ _ Hf), Hf, Hcu, Hcp, Ha.
  rewrite Hm, Hlo, Hpo. eexists. split; [reflexivity|]. auto.
Qed.

Lemma login_partial_links_witness :
  exists w',
    login (Fixtures.serving Cases.half_start_page) "alice"
      (World Cases.with_old_accounts ∅ []) = (Raise AttributeError, w') /\
    logout_url (sess w') = Some "/logout" /\
    postbox_url (sess w') = Some "/postfach".
Proof.
  destruct (login_partial_links (Fixtures.serving Cases.half_start_page) "alice"
              (World Cases.with_old_accounts ∅ []) Cases.login_form
              "/banking/login" "/logout" AttributeError)
    as (w' & Hrun & Hlo & Hpo & _); try (vm_compute; reflexivity).
  exists w'. auto.
Defined.

(** X6.  The scan for a form takes the first form that has the field:
    forms before it that lack the field are passed over, and the forms
    after it are not looked at. *)
Theorem find_form_first_match (key : string) (pre post : list form) (f : form) :
  Forall (fun g => fields g !! key = None) pre ->
  is_Some (fields f !! key) ->
  find_form key (pre ++ f :: post) = Some f.
Proof.
  intros Hpre Hf. unfold find_form. induction Hpre as [|g pre Hg _ IH].
  - cbn. rewrite bool_decide_eq_true_2 by exact Hf. reflexivity.
  - cbn. rewrite bool_decide_eq_false_2; [exact IH|].
    rewrite Hg. by intros [? ?].
Qed.

Lemma find_form_first_match_witness :
  find_form "slAllAccounts"
    ([Form (Some "/search") (list_to_map [("q", "")]) ∅]
     ++ Fixtures.selection_form :: [Cases.login_form])
  = Some Fixtures.selection_form.
Proof.
  apply (find_form_first_match "slAllAccounts").
  - constructor; [vm_compute; reflexivity | constructor].
  - vm_compute. eauto.
Defined.

(** X29.  What stops a login before it posts anything.  A login page
    whose body [lxml] cannot parse raises [ParserError] right after the
    GET.  A login form without an input [j_password] raises [KeyError] at
    line 80: the password has been prompted for, and no request follows.
    In both cases the session and the disk are as they were. *)
Theorem login_stopped_before_post (E : env) (username : string) (w : world) :
  (lxml_forms (login_page_of E w) = None ->
   login E username w =
   (Raise ParserError,
    World (sess w) (fs w) (trace_at_login w ++ [EGet (base_url +:+ login_url)]))) /\
  (forall f,
     find_form "j_username" (forms (login_page_of E w)) = Some f ->
     check_field "j_username" username f = Ok tt ->
     fields f !! "j_password" = None ->
     login E username w =
     (Raise KeyError,
      World (sess w) (fs w)
        (trace_at_login w ++ [EGet (base_url +:+ login_url); EGetpass]))).
Proof.
  split.
  - intros Hparse. rewrite login_run. cbv zeta.
    unfold fromstring_forms. rewrite Hparse. reflexivity.
  - intros f Hf Hcu Hnone. rewrite login_run. cbv zeta.
    rewrite (found_form_parsed _ _ _ Hf), Hf, Hcu.
    unfold check_field. rewrite Hnone, <- app_assoc. reflexivity.
Qed.

Lemma login_stopped_before_post_witness :
  login (Fixtures.serving Fixtures.no_page) "alice" Fixtures.start_world
  = (Raise ParserError,
     World Fixtures.fresh_session ∅
       (trace_at_login Fixtures.start_world ++ [EGet (base_url +:+ login_url)])) /\
  login (Fixtures.serving Cases.page_without_password) "alice" Fixtures.start_world
  = (Raise KeyError,
     World Fixtures.fresh_session ∅
       (trace_at_login Fixtures.start_world
        ++ [EGet (base_url +:+ login_url); EGetpass])).
Proof.
  split.
  - apply (proj1 (login_stopped_before_post (Fixtures.serving Fixtures.no_page) "alice"
                    Fixtures.start_world)).
    reflexivity.
  - apply (proj2 (login_stopped_before_post (Fixtures.serving Cases.page_without_password)
                    "alice" Fixtures.start_world) Cases.form_without_password);
      vm_compute; reflexivity.
Defined.

(** ** Logout and the session before a login *)

Lemma logout_run (E : env) (w : world) :
  logout E w =
  match logout_url (sess w) with
  | None => (Raise AttributeError, World (sess w) (fs w) (trace_at_logout w))
  | Some u =>
      (Ok (Z.eqb (status_code (server_get E (trace_at_logout w) (base_url +:+ u))) 200),
       World (set_closed (sess w)) (fs w)
         (trace_at_logout w ++ [EGet (base_url +:+ u); EClose]))
  end.
Proof.
  unfold logout. unfold bind at 1. rewrite print_if_verbose_run.
  fold (trace_at_logout w).
  unfold bind, self_attr, http_get, close_client, ret. cbn [sess fs trace].
  destruct (logout_url (sess w)); [|reflexivity].
  cbn [sess fs trace]. rewrite <- app_assoc. reflexivity.
Qed.

Lemma requested_app tr1 tr2 : requested (tr1 ++ tr2) = requested tr1 ++ requested tr2.
Proof. apply flat_map_app. Qed.

Lemma requested_trace_at_logout (w : world) :
  requested (trace_at_logout w) = requested (trace w).
Proof.
  unfold trace_at_logout. rewrite requested_app.
  destruct (verbose (sess w)); cbn; by rewrite app_nil_r.
Qed.

(** X7.  A logout on a session that holds no logout url raises
    [AttributeError] at line 111, before the request and before the
    close: no request is sent, and the session, its client included, is
    as it was. *)
Theorem logout_without_url (E : env) (w : world) :
  logout_url (sess w) = None ->
  (logout E w).1 = Raise AttributeError /\
  requested (trace (logout E w).2) = requested (trace w) /\
  sess (logout E w).2 = sess w /\
  fs (logout E w).2 = fs w.
Proof.
  intros Hu. rewrite logout_run, Hu. cbn [fst snd trace sess fs].
  rewrite requested_trace_at_logout. auto.
Qed.

Lemma logout_without_url_witness :
  (logout (Fixtures.portal "secret" 200 false)
     (World (DKBSession_init true) ∅ [])).1 = Raise AttributeError /\
  closed (sess (logout (Fixtures.portal "secret" 200 false)
                  (World (DKBSession_init true) ∅ [])).2) = false.
Proof.
  destruct (logout_without_url (Fixtures.portal "secret" 200 false)
              (World (DKBSession_init true) ∅ []) eq_refl)
    as (Hr & _ & Hs & _).
  split; [exact Hr|]. rewrite Hs. reflexivity.
Defined.

(** X8.  After a login that returns, a logout finds its url: it sends
    one request, to the [href] of the logout link of the start page,
    closes the client and returns. *)
Theorem login_then_logout (E : env) (username : string) (w w1 : world) (b : bool) :
  login E username w = (Ok b, w1) ->
  exists lo b' w2,
    logout_url (sess w1) = Some lo /\
    logout E w1 = (Ok b', w2) /\
    closed (sess w2) = true /\
    requested (trace w2) = requested (trace w1) ++ [base_url +:+ lo].
Proof.
  rewrite login_run. cbv zeta.
  destruct (fromstring_forms _) as [page_forms|]; [|discriminate].
  destruct (find_form _ _) as [f|]; [|discriminate].
  destruct (check_field "j_username" username f) as [[]|]; [|discriminate].
  destruct (check_field "j_password" _ f) as [[]|]; [|discriminate].
  destruct (action f) as [a|]; [|discriminate].
  destruct (has_login_marker _); [|discriminate].
  destruct (logout_link _) as [lo|]; [|discriminate].
  destruct (tid_link "Postfach" _) as [po|]; [|discriminate].
  destruct (tid_link "Umsaetze" _) as [um|]; [|discriminate].
  intros [= <- <-]. exists lo. rewrite logout_run. cbn [sess logout_url set_umsatz_url
    set_postbox_url set_logout_url fs].
  eexists _, _. split; [reflexivity|]. split; [reflexivity|].
  split; [reflexivity|]. cbn [trace].
  rewrite requested_app, requested_trace_at_logout. reflexivity.
Qed.

Lemma login_then_logout_witness :
  exists lo b' w2,
    logout_url (sess (login (Fixtures.portal "secret" 500 false) "alice"
                        Fixtures.start_world).2) = Some lo /\
    logout (Fixtures.portal "secret" 500 false)
      (login (Fixtures.portal "secret" 500 false) "alice" Fixtures.start_world).2
      = (Ok b', w2) /\
    closed (sess w2) = true.
Proof.
  destruct (login_then_logout (Fixtures.portal "secret" 500 false) "alice"
              Fixtures.start_world
              (login (Fixtures.portal "secret" 500 false) "alice" Fixtures.start_world).2
              true)
    as (lo & b' & w2 & Hlo & Hrun & Hclosed & _).
  - vm_compute. reflexivity.
  - exists lo, b', w2. auto.
Defined.

(** X9.  On a session that was only constructed, every method that
    needs a stored url raises [AttributeError] at once: the listing, the
    account discovery and the export leave the world as it is, and none
    of them, nor [logout], sends a request. *)
Theorem methods_before_login (E : env) (verbose : bool) (disk : gmap string string)
    (tr : list event) (start_date end_date : date) (destination : string) :
  let w := World (DKBSession_init verbose) disk tr in
  postbox_items E w = (Raise AttributeError, w) /\
  get_banking_accounts E w = (Raise AttributeError, w) /\
  get_all_banking_account_transactions E (PyDate start_date) (PyDate end_date)
    destination w = (Raise AttributeError, w) /\
  (logout E w).1 = Raise AttributeError /\
  requested (trace (logout E w).2) = requested tr.
Proof.
  intros w. split; [reflexivity|]. split; [reflexivity|]. split; [reflexivity|].
  rewrite logout_run. cbn [sess logout_url DKBSession_init w fst snd trace].
  split; [reflexivity|]. apply (requested_trace_at_logout w).
Qed.

(** ** The listing, row by row *)

Lemma postbox_items_run (E : env) (w : world) :
  postbox_items E w =
  match postbox_url (sess w) with
  | None => (Raise AttributeError, w)
  | Some u =>
      let w1 := World (sess w) (fs w) (trace w ++ [EGet (base_url +:+ u)]) in
      match listing_rows E w u with
      | Raise err => (Raise err, w1)
      | Ok rows =>
          match postbox_rows rows with
          | (docs, None) => (Ok docs, w1)
          | (_, Some err) => (Raise err, w1)
          end
      end
  end.
Proof.
  unfold postbox_items, listing_rows, bind, self_attr, http_get, lift, ret, raise.
  destruct (postbox_url (sess w)) as [u|]; [|reflexivity].
  cbn -[base_url postbox_table_rows postbox_rows].
  destruct (postbox_table_rows _) as [rows|]; [|reflexivity].
  destruct (postbox_rows rows) as [docs [err|]]; reflexivity.
Qed.

(** A row that is not well formed makes line 135, 138, 141 or 144 raise
    [AttributeError]. *)
Lemma postbox_row_malformed (row : Bs4.node) :
  well_formed_row row = false -> postbox_row row = Raise AttributeError.
Proof.
  unfold well_formed_row, row_title_link, row_save_href, row_title_cell, postbox_row.
  destruct (Bs4.find (Bs4.with_attr "id" "title") row) as [cell|]; simpl; [|reflexivity].
  destruct (Bs4.find (Bs4.named "a") cell) as [a|]; simpl; [|reflexivity].
  destruct (Bs4.find_then_parent _ row) as [parent|]; simpl; [|reflexivity].
  destruct (Bs4.get "href" parent) as [href|]; simpl; [discriminate | reflexivity].
Qed.

Lemma postbox_rows_app (rows1 rows2 : list Bs4.node) (docs1 : list PostboxDocument) :
  postbox_rows rows1 = (docs1, None) ->
  postbox_rows (rows1 ++ rows2) =
  (docs1 ++ (postbox_rows rows2).1, (postbox_rows rows2).2).
Proof.
  revert docs1. induction rows1 as [|row rows1 IH]; intros docs1 H.
  - injection H as <-. cbn. by destruct (postbox_rows rows2).
  - cbn in *. destruct (postbox_row row) as [doc|]; [|discriminate].
    destruct (postbox_rows rows1) as [docs e] eqn:Hrows. injection H as <- ->.
    rewrite (IH docs eq_refl). reflexivity.
Qed.

(** X10.  A listing never changes the session or the disk, and sends
    exactly one request, the GET of the stored postbox url, whether it
    returns the documents or raises. *)
Theorem postbox_items_read_only (E : env) (w : world) (u : string) :
  postbox_url (sess w) = Some u ->
  (postbox_items E w).2 = World (sess w) (fs w) (trace w ++ [EGet (base_url +:+ u)]).
Proof.
  intros Hu. rewrite postbox_items_run, Hu. cbv zeta.
  destruct (listing_rows E w u) as [rows|]; [|reflexivity].
  destruct (postbox_rows rows) as [docs [err|]]; reflexivity.
Qed.

Lemma postbox_items_read_only_witness :
  (postbox_items (Fixtures.serving Cases.broken_listing_page)
     (World Fixtures.logged_in ∅ [])).2
  = World Fixtures.logged_in ∅ [EGet (base_url +:+ "/postfach")].
Proof.
  exact (postbox_items_read_only (Fixtures.serving Cases.broken_listing_page)
           (World Fixtures.logged_in ∅ []) "/postfach" eq_refl).
Defined.

(** X11.  The first row that lacks its title link or its save link ends
    the listing with [AttributeError]: the generator has yielded the
    documents of the well-formed rows before it, in order, and yields
    nothing of the rows after it; collected into a list, the listing
    raises. *)
Theorem postbox_items_stop_at_malformed_row (E : env) (w : world) (u : string)
    (good rest : list Bs4.node) (bad : Bs4.node) :
  postbox_url (sess w) = Some u ->
  listing_rows E w u = Ok (good ++ bad :: rest) ->
  Forall (fun row => well_formed_row row = true) good ->
  well_formed_row bad = false ->
  (exists docs,
     postbox_rows (good ++ bad :: rest) = (docs, Some AttributeError) /\
     Forall2 row_matches good docs) /\
  (postbox_items E w).1 = Raise AttributeError.
Proof.
  intros Hu Hrows Hgood Hbad.
  destruct (postbox_rows_well_formed good Hgood) as (docs & Hdocs & Hall).
  assert (Hall_rows : postbox_rows (good ++ bad :: rest) = (docs, Some AttributeError)).
  { rewrite (postbox_rows_app _ _ _ Hdocs). cbn [postbox_rows].
    rewrite (postbox_row_malformed bad Hbad). cbn. by rewrite app_nil_r. }
  split; [eauto|].
  rewrite postbox_items_run, Hu. cbv zeta. rewrite Hrows, Hall_rows. reflexivity.
Qed.

Lemma postbox_items_stop_at_malformed_row_witness :
  (exists docs,
     postbox_rows Cases.broken_listing_rows = (docs, Some AttributeError) /\
     Forall2 row_matches [Fixtures.postbox_row_of true "Kontoauszug 3" "/docs/k3?x=1"] docs) /\
  (postbox_items (Fixtures.serving Cases.broken_listing_page)
     (World Fixtures.logged_in ∅ [])).1 = Raise AttributeError.
Proof.
  apply (postbox_items_stop_at_malformed_row (Fixtures.serving Cases.broken_listing_page)
           (World Fixtures.logged_in ∅ []) "/postfach"
           [Fixtures.postbox_row_of true "Kontoauszug 3" "/docs/k3?x=1"]
           [Fixtures.postbox_row_of false "Mitteilung" "/docs/m1"]).
  - reflexivity.
  - vm_compute. reflexivity.
  - constructor; [vm_compute; reflexivity | constructor].
  - vm_compute. reflexivity.
Defined.

(** X12.  A page without the element [documentsTableOverview_outer], or
    without a [table] or a [tbody] in it, makes the listing raise
    [AttributeError] after its request; the lookup of the rows raises
    nothing else. *)
Theorem postbox_items_without_table (E : env) (w : world) (u : string) (err : exn) :
  postbox_url (sess w) = Some u ->
  listing_rows E w u = Raise err ->
  err = AttributeError /\
  postbox_items E w =
    (Raise AttributeError, World (sess w) (fs w) (trace w ++ [EGet (base_url +:+ u)])) /\
  (Bs4.find (Bs4.with_attr "id" "documentsTableOverview_outer")
     (soup (server_get E (trace w) (base_url +:+ u))) = None \/
   exists outer,
     Bs4.find (Bs4.with_attr "id" "documentsTableOverview_outer")
       (soup (server_get E (trace w) (base_url +:+ u))) = Some outer /\
     (Bs4.find (Bs4.named "table") outer ≫= Bs4.find (Bs4.named "tbody")) = None).
Proof.
  intros Hu Hrows.
  assert (Herr : err = AttributeError /\
                 (Bs4.find (Bs4.with_attr "id" "documentsTableOverview_outer")
                    (soup (server_get E (trace w) (base_url +:+ u))) = None \/
                  exists outer,
                    Bs4.find (Bs4.with_attr "id" "documentsTableOverview_outer")
                      (soup (server_get E (trace w) (base_url +:+ u))) = Some outer /\
                    (Bs4.find (Bs4.named "table") outer ≫= Bs4.find (Bs4.named "tbody"))
                    = None)).
  { unfold listing_rows, postbox_table_rows, Bs4.child in Hrows.
    destruct (Bs4.find (Bs4.with_attr "id" _) _) as [outer|];
      [|injection Hrows as <-; auto].
    destruct (Bs4.find (Bs4.named "table") outer) as [inner|] eqn:Hinner;
      [|injection Hrows as <-; split; [reflexivity|]; right; exists outer;
        by rewrite Hinner].
    destruct (Bs4.find (Bs4.named "tbody") inner) as [tbody|] eqn:Htbody;
      [discriminate|].
    injection Hrows as <-. split; [reflexivity|]. right. exists outer.
    rewrite Hinner. cbn. by rewrite Htbody. }
  destruct Herr as [-> Hwhy]. split; [reflexivity|]. split; [|exact Hwhy].
  rewrite postbox_items_run, Hu. cbv zeta. rewrite Hrows. reflexivity.
Qed.

Lemma postbox_items_without_table_witness :
  postbox_items Fixtures.portal_down (World Fixtures.logged_in ∅ [])
  = (Raise AttributeError,
     World Fixtures.logged_in ∅ [EGet (base_url +:+ "/postfach")]).
Proof.
  apply (postbox_items_without_table Fixtures.portal_down
           (World Fixtures.logged_in ∅ []) "/postfach" AttributeError).
  - reflexivity.
  - vm_compute. reflexivity.
Defined.

(** ** File names *)

Lemma last_split_without_sep c s piece :
  PyStr.item_last (PyStr.split c s) = Some piece -> PyStr.has_char c piece = false.
Proof.
  revert piece. induction s as [|d s IH]; intros piece.
  - cbn. intros [= <-]. reflexivity.
  - rewrite PyStrFacts.last_split_cons.
    destruct (PyStr.has_char c s) eqn:Hs; [apply IH|].
    intros [= <-]. destruct (Ascii.eqb d c) eqn:Hd; [exact Hs|].
    cbn. by rewrite Hd, Hs.
Qed.

Lemma first_split_without c x s piece :
  PyStr.item_first (PyStr.split c s) = Some piece ->
  PyStr.has_char c piece = false /\
  (PyStr.has_char x s = false -> PyStr.has_char x piece = false).
Proof.
  revert piece. induction s as [|d s IH]; intros piece.
  - cbn. intros [= <-]. auto.
  - rewrite PyStrFacts.first_split_cons. intros [= <-].
    destruct (Ascii.eqb d c) eqn:Hd; [auto|].
    destruct (PyStr.item_first (PyStr.split c s)) as [p|] eqn:Hp.
    + destruct (IH p eq_refl) as [H1 H2]. cbn. rewrite Hd, H1. split; [reflexivity|].
      intros [Hx Hs]%orb_false_iff. by rewrite Hx, H2.
    + cbn. rewrite Hd. split; [reflexivity|]. intros [Hx _]%orb_false_iff.
      by rewrite Hx.
Qed.

Lemma has_char_app c s t :
  PyStr.has_char c (s +:+ t) = PyStr.has_char c s || PyStr.has_char c t.
Proof.
  induction s as [|d s IH]; [reflexivity|].
  change (String d s +:+ t) with (String d (s +:+ t)). cbn. by rewrite IH, orb_assoc.
Qed.

(** X13.  The file name derived from a url is a bare name: it contains
    no ['/'] and no ['?'], whatever the url, and it ends in ['.pdf']. *)
Theorem filename_of_url_is_bare (url : string) :
  PyStr.has_char "/" (filename_of_url url) = false /\
  PyStr.has_char "?" (filename_of_url url) = false /\
  PyStr.endswith (filename_of_url url) ".pdf" = true.
Proof.
  unfold filename_of_url. cbv zeta.
  destruct (PyStr.item_last (PyStr.split "/" url)) as [segment|] eqn:Hseg.
  2:{ unfold PyStr.item_last in Hseg. apply last_None in Hseg.
      by apply PyStrFacts.split_not_nil in Hseg. }
  apply last_split_without_sep in Hseg. cbn [default from_option id].
  destruct (PyStr.item_first (PyStr.split "?" segment)) as [name|] eqn:Hname.
  2:{ unfold PyStr.item_first in Hname. apply head_None in Hname.
      by apply PyStrFacts.split_not_nil in Hname. }
  destruct (first_split_without "?" "/" segment name Hname) as [Hq Hs].
  cbn [default from_option id]. rewrite !has_char_app, Hq, (Hs Hseg).
  split; [reflexivity|]. split; [reflexivity|]. apply endswith_app.
Qed.

(** ** Downloads *)

(** X14.  A response whose status is not 200 ends the download with
    [RuntimeError('Download failed.')] right after the request: no
    temporary file is created, and the disk and the session are as they
    were. *)
Theorem download_refuses_bad_status (E : env) (document : PostboxDocument)
    (destinations : list string) (w : world) :
  status_code (download_response E document w) <> 200%Z ->
  download_document E document destinations w =
  (Raise (RuntimeError "Download failed."),
   World (sess w) (fs w)
     (trace_at_download document w ++ [EGet (base_url +:+ url document)])).
Proof.
  intros Hstatus. rewrite download_document_run. cbv zeta.
  apply Z.eqb_neq in Hstatus. rewrite Hstatus. reflexivity.
Qed.

Lemma download_refuses_bad_status_witness :
  download_document (Fixtures.portal "secret" 200 false)
    (mkPostboxDocument "Fremd" true "/elsewhere" "elsewhere.pdf") ["a.pdf"]
    Fixtures.disk_with_a
  = (Raise (RuntimeError "Download failed."),
     World Fixtures.logged_in (list_to_map [("a.pdf", "old bytes")])
       ([] ++ [EPrint "Download document 'Fremd'"]
        ++ [EGet (base_url +:+ "/elsewhere")])).
Proof.
  apply (download_refuses_bad_status (Fixtures.portal "secret" 200 false)
           (mkPostboxDocument "Fremd" true "/elsewhere" "elsewhere.pdf") ["a.pdf"]
           Fixtures.disk_with_a).
  vm_compute. discriminate.
Defined.

(** X15.  Whatever its outcome, a download changes nothing outside its
    destinations: a path that is neither a destination nor the temporary
    file is as it was, and so is the session. *)
Theorem download_touches_only_destinations (E : env) (document : PostboxDocument)
    (destinations : list string) (w : world) (path : string) :
  path ∉ destinations ->
  path <> mktemp E (fs w) ->
  fs (download_document E document destinations w).2 !! path = fs w !! path /\
  sess (download_document E document destinations w).2 = sess w.
Proof.
  intros Hnot Hne. rewrite download_document_run. cbv zeta.
  destruct (negb _); [by auto|].
  destruct (fs w !! mktemp E (fs w)); [by auto|].
  destruct (copy_to_destinations _ _ _ _) as [[[]|e] w1] eqn:Hcopy.
  - pose proof (copy_to_destinations_elsewhere E _ _ _ _ _ path Hcopy Hnot) as Hp.
    apply copy_to_destinations_keeps in Hcopy as [Hs _].
    cbn [fs sess] in Hp, Hs. rewrite lookup_insert_ne in Hp by congruence.
    destruct (fs w1 !! mktemp E (fs w)); cbn [snd fs sess]; [|by auto].
    rewrite lookup_delete_ne by congruence. auto.
  - pose proof (copy_to_destinations_elsewhere E _ _ _ _ _ path Hcopy Hnot) as Hp.
    apply copy_to_destinations_keeps in Hcopy as [Hs _].
    cbn [fs sess] in Hp, Hs. rewrite lookup_insert_ne in Hp by congruence. auto.
Qed.

Lemma download_touches_only_destinations_witness :
  fs Fixtures.first_run.2 !! "b.pdf" = None /\
  sess Fixtures.first_run.2 = Fixtures.logged_in.
Proof.
  destruct (download_touches_only_destinations (Fixtures.portal "secret" 200 false)
              Fixtures.statement ["a.pdf"; "c.pdf"] Fixtures.disk_with_a "b.pdf")
    as [Hfs Hsess].
  - intros Hin. apply list_elem_of_In in Hin. simpl in Hin.
    destruct Hin as [H|[H|[]]]; discriminate H.
  - vm_compute. discriminate.
  - split; [|exact Hsess]. unfold Fixtures.first_run. rewrite Hfs. reflexivity.
Defined.

(** X16.  A download that returns has returned [True] on a response of
    status 200; the temporary file is gone; and every destination holds a
    file: its old bytes when it existed, the bytes of the response when
    it did not. *)
Theorem download_result (E : env) (document : PostboxDocument)
    (destinations : list string) (w w' : world) (b : bool) :
  download_document E document destinations w = (Ok b, w') ->
  b = true /\
  status_code (download_response E document w) = 200%Z /\
  fs w' !! mktemp E (fs w) = None /\
  forall dest, dest ∈ destinations -> dest <> mktemp E (fs w) ->
    fs w' !! dest =
    Some (default (raw (download_response E document w)) (fs w !! dest)).
Proof.
  intros Hrun.
  assert (Hb : b = true /\ status_code (download_response E document w) = 200%Z).
  { rewrite download_document_run in Hrun. cbv zeta in Hrun.
    destruct (Z.eqb _ 200) eqn:Hs; [|discriminate]. apply Z.eqb_eq in Hs.
    cbn [negb] in Hrun.
    destruct (fs w !! mktemp E (fs w)); [discriminate|].
    destruct (copy_to_destinations _ _ _ _) as [[[]|e] w1]; [|discriminate].
    destruct (fs w1 !! mktemp E (fs w)); [|discriminate].
    injection Hrun as <- _. auto. }
  destruct Hb as [-> Hstatus]. split; [reflexivity|]. split; [exact Hstatus|].
  split; [by eapply download_document_deletes_tempfile|].
  intros dest Hin Hne. destruct (fs w !! dest) as [old|] eqn:Hold; cbn.
  - eapply download_document_keeps; eauto.
  - eapply download_document_fills; eauto.
Qed.

Lemma download_result_witness :
  fs Fixtures.first_run.2 !! "a.pdf" = Some "old bytes" /\
  fs Fixtures.first_run.2 !! "c.pdf" = Some Fixtures.pdf_bytes /\
  fs Fixtures.first_run.2 !! "/tmp/tmpa1b2c3" = None.
Proof.
  destruct (download_result (Fixtures.portal "secret" 200 false)
              Fixtures.statement ["a.pdf"; "c.pdf"] Fixtures.disk_with_a
              Fixtures.first_run.2 true)
    as (_ & _ & Htmp & Hdest).
  - vm_compute. reflexivity.
  - split; [|split; [|exact Htmp]].
    + rewrite Hdest; [reflexivity | apply list_elem_of_here | vm_compute; discriminate].
    + rewrite Hdest; [reflexivity | apply list_elem_of_further, list_elem_of_here
                      | vm_compute; discriminate].
Defined.

(** X17.  Without a destination, a download of a document that the
    server delivers still fetches it into a temporary file and deletes
    that file: it returns [True] and leaves the disk exactly as it was. *)
Theorem download_without_destination (E : env) (document : PostboxDocument)
    (w : world) :
  status_code (download_response E document w) = 200%Z ->
  fs w !! mktemp E (fs w) = None ->
  exists w',
    download_document E document [] w = (Ok true, w') /\
    fs w' = fs w /\
    trace w' =
      trace_at_download document w ++
      [EGet (base_url +:+ url document); ETempfile (mktemp E (fs w));
       EUnlink (mktemp E (fs w))].
Proof.
  intros Hstatus Htmp. rewrite download_document_run. cbv zeta.
  rewrite Hstatus, Htmp. cbn [Z.eqb Pos.eqb negb copy_to_destinations ret fs].
  rewrite lookup_insert_eq. eexists. split; [reflexivity|]. cbn [fs trace].
  split.
  - rewrite delete_insert_eq. by apply delete_id.
  - rewrite <- !app_assoc. reflexivity.
Qed.

Lemma download_without_destination_witness :
  exists w',
    download_document (Fixtures.portal "secret" 200 false) Fixtures.statement []
      Fixtures.disk_with_a = (Ok true, w') /\
    fs w' = fs Fixtures.disk_with_a.
Proof.
  destruct (download_without_destination (Fixtures.portal "secret" 200 false)
              Fixtures.statement Fixtures.disk_with_a)
    as (w' & Hrun & Hfs & _); try (vm_compute; reflexivity).
  exists w'. auto.
Defined.

(** The lines that the copy loop prints in a quiet session. *)
Lemma copy_to_destinations_quiet (E : env) (tmp : string) (dests : list string)
    (w : world) r w' :
  verbose (sess w) = false ->
  copy_to_destinations E tmp dests w = (r, w') ->
  forall line, EPrint line ∈ trace w' ->
    EPrint line ∈ trace w \/
    exists dest, dest ∈ dests /\ line = dquote +:+ dest +:+ dquote +:+ " already exists".
Proof.
  revert w. induction dests as [|d rest IH]; intros w Hq Hrun line Hin.
  - injection Hrun as _ <-. auto.
  - rewrite copy_to_destinations_cons in Hrun. cbv zeta in Hrun.
    rewrite Hq, app_nil_r in Hrun.
    destruct (fs w !! d) as [c|].
    + eapply IH in Hrun; [|exact Hq|exact Hin]. cbn [trace] in Hrun.
      destruct Hrun as [Hold|(dest & Hd & ->)].
      * apply elem_of_app in Hold as [Hold|Hnew]; [auto|].
        apply list_elem_of_singleton in Hnew. injection Hnew as ->.
        right. exists d. split; [apply list_elem_of_here | reflexivity].
      * right. exists dest. split; [by apply list_elem_of_further | reflexivity].
    + destruct (fs w !! tmp); [|injection Hrun as _ <-; auto].
      destruct (writable E d); [|injection Hrun as _ <-; auto].
      eapply IH in Hrun; [|exact Hq|exact Hin]. cbn [trace] in Hrun.
      destruct Hrun as [Hold|(dest & Hd & ->)].
      * apply elem_of_app in Hold as [Hold|Hnew]; [auto|].
        apply list_elem_of_singleton in Hnew. discriminate Hnew.
      * right. exists dest. split; [by apply list_elem_of_further | reflexivity].
Qed.

(** X18.  In a session that is not verbose a download still prints: the
    report of line 182 is not guarded.  Every line it prints is the
    report that one of its destinations already exists. *)
Theorem download_quiet_reports (E : env) (document : PostboxDocument)
    (destinations : list string) (w : world) (line : string) :
  verbose (sess w) = false ->
  EPrint line ∈ trace (download_document E document destinations w).2 ->
  EPrint line ∈ trace w \/
  exists dest,
    dest ∈ destinations /\ line = dquote +:+ dest +:+ dquote +:+ " already exists".
Proof.
  intros Hq. rewrite download_document_run. cbv zeta.
  unfold trace_at_download. rewrite Hq, app_nil_r.
  assert (Hget : EPrint line ∈ trace w ++ [EGet (base_url +:+ url document)] ->
                 EPrint line ∈ trace w).
  { intros [H|H]%elem_of_app; [exact H|].
    apply list_elem_of_singleton in H. discriminate H. }
  destruct (negb _); [by left; apply Hget|].
  destruct (fs w !! mktemp E (fs w)); [by left; apply Hget|].
  destruct (copy_to_destinations _ _ _ _) as [[[]|e] w1] eqn:Hcopy;
    pose proof (copy_to_destinations_quiet E _ _ (World _ _ _) _ _ Hq Hcopy line) as Hloop;
    cbn [trace] in Hloop.
  - assert (Hfrom1 : EPrint line ∈ trace w1 ->
                     EPrint line ∈ trace w \/
                     exists dest, dest ∈ destinations /\
                       line = dquote +:+ dest +:+ dquote +:+ " already exists").
    { intros H1. destruct (Hloop H1) as [Hold|Hnew]; [|auto].
      apply elem_of_app in Hold as [Hold|Hold]; [left; by apply Hget|].
      apply list_elem_of_singleton in Hold. discriminate Hold. }
    destruct (fs w1 !! mktemp E (fs w)); cbn [snd trace]; [|exact Hfrom1].
    intros [H1|H1]%elem_of_app; [by apply Hfrom1|].
    apply list_elem_of_singleton in H1. discriminate H1.
  - cbn [snd]. intros H1. destruct (Hloop H1) as [Hold|Hnew]; [|auto].
    apply elem_of_app in Hold as [Hold|Hold]; [left; by apply Hget|].
    apply list_elem_of_singleton in Hold. discriminate Hold.
Qed.

Lemma download_quiet_reports_witness :
  EPrint (dquote +:+ "a.pdf" +:+ dquote +:+ " already exists")
  ∈ trace (download_document (Fixtures.portal "secret" 200 false) Fixtures.statement
             ["a.pdf"] (World Cases.quiet (list_to_map [("a.pdf", "old bytes")]) [])).2 /\
  (EPrint (dquote +:+ "a.pdf" +:+ dquote +:+ " already exists") ∈ [] \/
   exists dest,
     dest ∈ ["a.pdf"] /\
     dquote +:+ "a.pdf" +:+ dquote +:+ " already exists"
     = dquote +:+ dest +:+ dquote +:+ " already exists").
Proof.
  assert (Hin : EPrint (dquote +:+ "a.pdf" +:+ dquote +:+ " already exists")
                ∈ trace (download_document (Fixtures.portal "secret" 200 false)
                           Fixtures.statement ["a.pdf"]
                           (World Cases.quiet (list_to_map [("a.pdf", "old bytes")]) [])).2).
  { vm_compute. do 2 apply list_elem_of_further. apply list_elem_of_here. }
  split; [exact Hin|].
  exact (download_quiet_reports (Fixtures.portal "secret" 200 false) Fixtures.statement
           ["a.pdf"] (World Cases.quiet (list_to_map [("a.pdf", "old bytes")]) [])
           _ eq_refl Hin).
Defined.

(** ** The account directory, option by option *)

Lemma get_banking_accounts_run (E : env) (w : world) :
  get_banking_accounts E w =
  match umsatz_url (sess w) with
  | None => (Raise AttributeError, w)
  | Some u =>
      let tr := trace w ++ [EGet (base_url +:+ u)] in
      match account_selector E w u with
      | None => (Raise AttributeError, World (set_accounts [] (sess w)) (fs w) tr)
      | Some sel =>
          let run := collect_accounts (Bs4.find_all (Bs4.named "option") sel) [] in
          (match run.2 with None => Ok tt | Some err => Raise err end,
           World (set_accounts run.1 (sess w)) (fs w) tr)
      end
  end.
Proof.
  unfold get_banking_accounts, account_selector, selection_page.
  unfold bind, self_attr, http_get, update_session, raise, ret.
  destruct (umsatz_url (sess w)) as [u|]; [|reflexivity].
  cbn -[base_url collect_accounts].
  destruct (Bs4.find _ _) as [sel|]; [|reflexivity].
  destruct (collect_accounts _ _) as [d [err|]]; reflexivity.
Qed.

Lemma dict_setitem_fresh key value d :
  key ∉ dict_keys d -> dict_setitem key value d = d ++ [(key, value)].
Proof.
  induction d as [|[k v] d IH]; intros Hnot; [reflexivity|].
  cbn in *. apply not_elem_of_cons in Hnot as [Hne Hnot].
  destruct (String.eqb k key) eqn:Hk.
  - apply String.eqb_eq in Hk. congruence.
  - by rewrite IH.
Qed.

(** Options that all have a value, the values distinct and new to the
    dictionary, are appended in order. *)
Lemma collect_accounts_distinct options values d :
  option_values options = Some values ->
  NoDup (dict_keys d ++ values) ->
  collect_accounts options d = (d ++ zip values (map Bs4.text options), None).
Proof.
  revert values d. induction options as [|account rest IH]; intros values d Hv Hd.
  - injection Hv as <-. cbn. by rewrite app_nil_r.
  - unfold option_values in Hv. cbn [mapM] in Hv.
    destruct (Bs4.get "value" account) as [value|] eqn:Hvalue; [|discriminate].
    cbn in Hv. fold (option_values rest) in Hv.
    destruct (option_values rest) as [values'|] eqn:Hrest; [|discriminate].
    cbn in Hv. injection Hv as <-.
    cbn [collect_accounts Bs4.getitem]. rewrite Hvalue.
    apply NoDup_app in Hd as (Hd1 & Hd2 & Hd3).
    rewrite dict_setitem_fresh.
    2:{ intros Hin. eapply Hd2; [exact Hin | apply list_elem_of_here]. }
    rewrite (IH values' _ eq_refl).
    + cbn. rewrite <- app_assoc. reflexivity.
    + unfold dict_keys. rewrite map_app. cbn. fold (dict_keys d).
      rewrite <- app_assoc. cbn. apply NoDup_app. split; [exact Hd1|].
      split; [exact Hd2 | exact Hd3].
Qed.

(** X20.  When every option of the selector has a value and the values
    are distinct, the discovery stores the options as the directory, in
    the order of the page: the value of each option as key, its text as
    display name.  It sends one request and leaves the rest of the
    session and the disk as they were. *)
Theorem get_banking_accounts_lists_options (E : env) (w : world) (u : string)
    (sel : Bs4.node) (values : list string) :
  umsatz_url (sess w) = Some u ->
  account_selector E w u = Some sel ->
  option_values (Bs4.find_all (Bs4.named "option") sel) = Some values ->
  NoDup values ->
  get_banking_accounts E w =
  (Ok tt,
   World (set_accounts
            (zip values (map Bs4.text (Bs4.find_all (Bs4.named "option") sel)))
            (sess w))
     (fs w) (trace w ++ [EGet (base_url +:+ u)])).
Proof.
  intros Hu Hsel Hvalues Hnodup. rewrite get_banking_accounts_run, Hu, Hsel. cbv zeta.
  rewrite (collect_accounts_distinct _ values [] Hvalues); [reflexivity|].
  exact Hnodup.
Qed.

Lemma get_banking_accounts_lists_options_witness :
  get_banking_accounts (Fixtures.portal "secret" 200 false)
    (World Fixtures.logged_in ∅ [])
  = (Ok tt,
     World (set_accounts Fixtures.three_accounts Fixtures.logged_in) ∅
       ([] ++ [EGet (base_url +:+ "/umsaetze")])).
Proof.
  refine (get_banking_accounts_lists_options (Fixtures.portal "secret" 200 false)
            (World Fixtures.logged_in ∅ []) "/umsaetze"
            (Fixtures.el "select" [("tid", "slAllAccounts")]
               [ Fixtures.el "option" [("value", "0")] [Fixtures.txt "DE01 Girokonto"];
                 Fixtures.el "option" [("value", "1")] [Fixtures.txt "PayPal Konto"];
                 Fixtures.el "option" [("value", "2")] [Fixtures.txt "DE02 Tagesgeld"] ])
            ["0"; "1"; "2"] eq_refl _ _ _).
  - vm_compute. reflexivity.
  - vm_compute. reflexivity.
  - exact NoDup_three_accounts.
Defined.

(** X21.  The directory is emptied before the selector is used: on a
    page without the element [slAllAccounts] the discovery raises
    [AttributeError], and the session holds an empty directory, whatever
    directory it held before. *)
Theorem get_banking_accounts_without_selector (E : env) (w : world) (u : string) :
  umsatz_url (sess w) = Some u ->
  account_selector E w u = None ->
  exists w',
    get_banking_accounts E w = (Raise AttributeError, w') /\
    accounts (sess w') = Some [] /\
    trace w' = trace w ++ [EGet (base_url +:+ u)] /\
    fs w' = fs w.
Proof.
  intros Hu Hsel. rewrite get_banking_accounts_run, Hu, Hsel. cbv zeta.
  eexists. split; [reflexivity|]. auto.
Qed.

Lemma get_banking_accounts_without_selector_witness :
  accounts (sess (World Cases.with_old_accounts ∅ [])) = Some [("9", "Altes Konto")] /\
  exists w',
    get_banking_accounts Fixtures.portal_down (World Cases.with_old_accounts ∅ [])
      = (Raise AttributeError, w') /\
    accounts (sess w') = Some [].
Proof.
  split; [reflexivity|].
  destruct (get_banking_accounts_without_selector Fixtures.portal_down
              (World Cases.with_old_accounts ∅ []) "/umsaetze")
    as (w' & Hrun & Hacc & _); try (vm_compute; reflexivity).
  exists w'. auto.
Defined.

Lemma collect_accounts_app options1 options2 d :
  collect_accounts (options1 ++ options2) d =
  match collect_accounts options1 d with
  | (d1, None) => collect_accounts options2 d1
  | (d1, Some err) => (d1, Some err)
  end.
Proof.
  revert d. induction options1 as [|account rest IH]; intros d; [reflexivity|].
  cbn [app collect_accounts].
  destruct (Bs4.getitem "value" (Some account)); [apply IH | reflexivity].
Qed.

(** X22.  An option without a value ends the discovery with [KeyError]:
    the directory then holds the options before it, and the options
    after it are not read. *)
Theorem get_banking_accounts_stops_at_option_without_value (E : env) (w : world)
    (u : string) (sel bad : Bs4.node) (before after : list Bs4.node)
    (values : list string) :
  umsatz_url (sess w) = Some u ->
  account_selector E w u = Some sel ->
  Bs4.find_all (Bs4.named "option") sel = before ++ bad :: after ->
  option_values before = Some values ->
  NoDup values ->
  Bs4.get "value" bad = None ->
  exists w',
    get_banking_accounts E w = (Raise KeyError, w') /\
    accounts (sess w') = Some (zip values (map Bs4.text before)).
Proof.
  intros Hu Hsel Hopts Hvalues Hnodup Hbad.
  rewrite get_banking_accounts_run, Hu, Hsel, Hopts. cbv zeta.
  rewrite collect_accounts_app.
  rewrite (collect_accounts_distinct _ values [] Hvalues) by exact Hnodup.
  cbn [collect_accounts Bs4.getitem app]. rewrite Hbad.
  eexists. split; reflexivity.
Qed.

Lemma get_banking_accounts_stops_at_option_without_value_witness :
  exists w',
    get_banking_accounts (Fixtures.serving Cases.options_page)
      (World Fixtures.logged_in ∅ []) = (Raise KeyError, w') /\
    accounts (sess w') = Some [("0", "DE01 Girokonto")].
Proof.
  refine (get_banking_accounts_stops_at_option_without_value
            (Fixtures.serving Cases.options_page) (World Fixtures.logged_in ∅ [])
            "/umsaetze"
            (Fixtures.el "select" [("tid", "slAllAccounts")]
               [ Fixtures.el "option" [("value", "0")] [Fixtures.txt "DE01 Girokonto"];
                 Fixtures.el "option" [] [Fixtures.txt "ohne Wert"];
                 Fixtures.el "option" [("value", "2")] [Fixtures.txt "DE02 Tagesgeld"] ])
            (Fixtures.el "option" [] [Fixtures.txt "ohne Wert"])
            [Fixtures.el "option" [("value", "0")] [Fixtures.txt "DE01 Girokonto"]]
            [Fixtures.el "option" [("value", "2")] [Fixtures.txt "DE02 Tagesgeld"]]
            ["0"] eq_refl _ _ _ _ _); try (vm_compute; reflexivity).
  repeat constructor. by intros ?%elem_of_nil.
Defined.

(** ** Lookups in the directory *)

Lemma dict_getitem_setitem key value d :
  dict_getitem key (dict_setitem key value d) = Ok value.
Proof.
  unfold dict_getitem. induction d as [|[k v] d IH]; cbn.
  - by rewrite String.eqb_refl.
  - destruct (String.eqb k key) eqn:Hk; cbn; rewrite Hk; [reflexivity | exact IH].
Qed.

Lemma dict_getitem_setitem_ne key value key' d :
  key <> key' ->
  dict_getitem key' (dict_setitem key value d) = dict_getitem key' d.
Proof.
  intros Hne. unfold dict_getitem. induction d as [|[k v] d IH]; cbn.
  - destruct (String.eqb key key') eqn:Hk; [|reflexivity].
    apply String.eqb_eq in Hk. congruence.
  - destruct (String.eqb k key) eqn:Hk; cbn.
    + apply String.eqb_eq in Hk as ->.
      destruct (String.eqb key key') eqn:Hk'; [|reflexivity].
      apply String.eqb_eq in Hk'. congruence.
    + destruct (String.eqb k key'); [reflexivity | exact IH].
Qed.

Lemma dict_setitem_keys key value d x :
  x ∈ dict_keys (dict_setitem key value d) <-> x = key \/ x ∈ dict_keys d.
Proof.
  split; [apply dict_setitem_keys_in|].
  induction d as [|[k v] d IH]; cbn.
  - intros [->|Hin]; [apply list_elem_of_here | by apply elem_of_nil in Hin].
  - destruct (String.eqb k key) eqn:Hk; cbn.
    + apply String.eqb_eq in Hk as ->. intros [->|Hin]; [apply list_elem_of_here | exact Hin].
    + intros [->|Hin].
      * apply list_elem_of_further, IH. by left.
      * apply elem_of_cons in Hin as [->|Hin]; [apply list_elem_of_here|].
        apply list_elem_of_further, IH. by right.
Qed.

(** Options whose value is another one leave the entry of a key alone. *)
Lemma collect_accounts_other_values options d d' key :
  collect_accounts options d = (d', None) ->
  Forall (fun opt => Bs4.get "value" opt <> Some key) options ->
  dict_getitem key d' = dict_getitem key d.
Proof.
  revert d. induction options as [|account rest IH]; intros d Hrun Hall.
  - by injection Hrun as <-.
  - apply Forall_cons in Hall as [Hne Hall]. cbn [collect_accounts Bs4.getitem] in Hrun.
    destruct (Bs4.get "value" account) as [value|]; [|discriminate].
    rewrite (IH _ Hrun Hall). apply dict_getitem_setitem_ne. congruence.
Qed.

(** The keys of the directory are those it had and the values of the
    options. *)
Lemma collect_accounts_keys options d d' key :
  collect_accounts options d = (d', None) ->
  key ∈ dict_keys d' <->
  key ∈ dict_keys d \/ exists opt, opt ∈ options /\ Bs4.get "value" opt = Some key.
Proof.
  revert d. induction options as [|account rest IH]; intros d Hrun.
  - injection Hrun as <-. split; [auto|].
    intros [H|(opt & Hin & _)]; [exact H | by apply elem_of_nil in Hin].
  - cbn [collect_accounts Bs4.getitem] in Hrun.
    destruct (Bs4.get "value" account) as [value|] eqn:Hvalue; [|discriminate].
    rewrite (IH _ Hrun), dict_setitem_keys. split.
    + intros [[->|H]|(opt & Hin & Hopt)]; [right|by left|right].
      * exists account. split; [apply list_elem_of_here | exact Hvalue].
      * exists opt. split; [by apply list_elem_of_further | exact Hopt].
    + intros [H|(opt & Hin & Hopt)]; [by left; right|].
      apply elem_of_cons in Hin as [->|Hin].
      * left. left. congruence.
      * right. eauto.
Qed.

(** X19.  The directory that [get_banking_accounts] stores when it
    returns: its keys are distinct and are exactly the values of the
    options of the selector; and when several options have the same
    value, the display name of that key is the text of the last of them
    (line 204 assigns again to the same key). *)
Theorem get_banking_accounts_directory (E : env) (w w' : world) (u : string)
    (sel : Bs4.node) :
  umsatz_url (sess w) = Some u ->
  account_selector E w u = Some sel ->
  get_banking_accounts E w = (Ok tt, w') ->
  exists d,
    accounts (sess w') = Some d /\
    NoDup (dict_keys d) /\
    (forall key,
       key ∈ dict_keys d <->
       exists opt, opt ∈ Bs4.find_all (Bs4.named "option") sel /\
                   Bs4.get "value" opt = Some key) /\
    (forall before opt after key,
       Bs4.find_all (Bs4.named "option") sel = before ++ opt :: after ->
       Bs4.get "value" opt = Some key ->
       Forall (fun later => Bs4.get "value" later <> Some key) after ->
       dict_getitem key d = Ok (Bs4.text opt)).
Proof.
  intros Hu Hsel. rewrite get_banking_accounts_run, Hu, Hsel. cbv zeta.
  destruct (collect_accounts _ _) as [d [err|]] eqn:Hrun; cbn [fst snd]; [discriminate|].
  intros [= <-]. exists d. cbn [sess accounts set_accounts].
  split; [reflexivity|]. split; [|split].
  - pose proof (collect_accounts_NoDup (Bs4.find_all (Bs4.named "option") sel) [])
      as Hnodup. rewrite Hrun in Hnodup. apply Hnodup. constructor.
  - intros key. rewrite (collect_accounts_keys _ _ _ key Hrun). split; [|auto].
    intros [Hin|H]; [by apply elem_of_nil in Hin | exact H].
  - intros before opt after key Hopts Hvalue Hlater.
    rewrite Hopts, collect_accounts_app in Hrun.
    destruct (collect_accounts before []) as [d1 [err|]]; [discriminate|].
    cbn [collect_accounts Bs4.getitem] in Hrun. rewrite Hvalue in Hrun.
    rewrite (collect_accounts_other_values _ _ _ key Hrun Hlater).
    apply dict_getitem_setitem.
Qed.

Lemma get_banking_accounts_directory_witness :
  exists d,
    accounts (sess (get_banking_accounts (Fixtures.serving Cases.repeated_options_page)
                      (World Fixtures.logged_in ∅ [])).2) = Some d /\
    NoDup (dict_keys d) /\
    dict_getitem "0" d = Ok "DE01 Giro neu".
Proof.
  destruct (get_banking_accounts_directory (Fixtures.serving Cases.repeated_options_page)
              (World Fixtures.logged_in ∅ [])
              (get_banking_accounts (Fixtures.serving Cases.repeated_options_page)
                 (World Fixtures.logged_in ∅ [])).2
              "/umsaetze" Cases.repeated_selector)
    as (d & Hd & Hnodup & _ & Hlast); try (vm_compute; reflexivity).
  exists d. split; [exact Hd|]. split; [exact Hnodup|].
  apply (Hlast [Fixtures.el "option" [("value", "0")] [Fixtures.txt "DE01 Girokonto"];
                Fixtures.el "option" [("value", "2")] [Fixtures.txt "DE02 Tagesgeld"]]
           (Fixtures.el "option" [("value", "0")] [Fixtures.txt "DE01 Giro neu"]) []).
  - vm_compute. reflexivity.
  - reflexivity.
  - constructor.
Defined.

(** ** The export, request by request *)

(** The four assignments of lines 231-234: each is checked against the
    form as the page gave it, in order; when all pass, the form holds the
    query of the account. *)
Lemma fill_selection_form_checked (s e : string) (f : form) (o : string) :
  fill_selection_form s e f o =
  match check_field "slAllAccounts" o f with
  | Raise err => Raise err
  | Ok _ =>
  match check_field "searchPeriodRadio" "1" f with
  | Raise err => Raise err
  | Ok _ =>
  match check_field "transactionDate" s f with
  | Raise err => Raise err
  | Ok _ =>
  match check_field "toTransactionDate" e f with
  | Raise err => Raise err
  | Ok _ => Ok (Form (action f) (export_data s e f o) (choices f))
  end end end end.
Proof.
  unfold fill_selection_form. rewrite set_field_checked.
  destruct (check_field "slAllAccounts" o f) as [[]|]; [|reflexivity].
  rewrite set_field_checked, check_field_with_field by discriminate.
  destruct (check_field "searchPeriodRadio" "1" f) as [[]|]; [|reflexivity].
  rewrite set_field_checked, !check_field_with_field by discriminate.
  destruct (check_field "transactionDate" s f) as [[]|]; [|reflexivity].
  rewrite set_field_checked, !check_field_with_field by discriminate.
  destruct (check_field "toTransactionDate" e f) as [[]|]; reflexivity.
Qed.

Lemma fill_selection_form_filled (s e : string) (f f' : form) (o : string) :
  fill_selection_form s e f o = Ok f' ->
  f' = Form (action f) (export_data s e f o) (choices f).
Proof.
  rewrite fill_selection_form_checked.
  repeat (destruct (check_field _ _ f) as [[]|]; [|discriminate]). by intros [= <-].
Qed.

(** X23.  The directory is looked up after the transactions page has
    been fetched and the selection form found: on a session that never
    ran the discovery, the export raises [AttributeError] with its first
    request already sent, and writes nothing. *)
Theorem export_without_directory (E : env) (start_date end_date : date)
    (destination : string) (w : world) (u : string) (f : form) :
  umsatz_url (sess w) = Some u ->
  find_form "slAllAccounts" (forms (selection_page E w u)) = Some f ->
  accounts (sess w) = None ->
  get_all_banking_account_transactions E (PyDate start_date) (PyDate end_date)
    destination w = (Raise AttributeError, after_selection_page w u).
Proof.
  intros Hu Hf Haccs.
  rewrite export_run, Hu, (found_form_parsed _ _ _ Hf), Hf, Haccs. reflexivity.
Qed.

Lemma export_without_directory_witness :
  get_all_banking_account_transactions (Fixtures.portal "secret" 200 false)
    (PyDate (Date 2020 1 1)) (PyDate (Date 2020 1 31)) "./"
    (World Fixtures.logged_in ∅ [])
  = (Raise AttributeError,
     World Fixtures.logged_in ∅ ([] ++ [EGet (base_url +:+ "/umsaetze")])).
Proof.
  apply (export_without_directory (Fixtures.portal "secret" 200 false)
           (Date 2020 1 1) (Date 2020 1 31) "./" (World Fixtures.logged_in ∅ [])
           "/umsaetze" Fixtures.selection_form); vm_compute; reflexivity.
Defined.

(** X24.  What stops an export at the transactions page.  When the
    body of the page does not parse, line 219 raises [ParserError]; when
    it parses and none of its forms has the field [slAllAccounts], the
    export raises [RuntimeError('Could not find selection forms.')].
    Either way the one request has been sent, the session has or has not
    a directory, and nothing is written. *)
Theorem export_without_form (E : env) (start_date end_date : date)
    (destination : string) (w : world) (u : string) :
  umsatz_url (sess w) = Some u ->
  (lxml_forms (selection_page E w u) = None ->
   get_all_banking_account_transactions E (PyDate start_date) (PyDate end_date)
     destination w
   = (Raise ParserError, after_selection_page w u)) /\
  (forall page_forms,
     lxml_forms (selection_page E w u) = Some page_forms ->
     Forall (fun f => fields f !! "slAllAccounts" = None) page_forms ->
     get_all_banking_account_transactions E (PyDate start_date) (PyDate end_date)
       destination w
     = (Raise (RuntimeError "Could not find selection forms."),
        after_selection_page w u)).
Proof.
  intros Hu. split.
  - intros Hparse. rewrite export_run, Hu. unfold fromstring_forms.
    rewrite Hparse. reflexivity.
  - intros page_forms Hparse Hnone.
    destruct (parsed_forms _ _ Hparse) as [Hfrom Hforms].
    rewrite export_run, Hu, Hfrom, Hforms, (find_form_none _ _ Hnone). reflexivity.
Qed.

Lemma export_without_form_witness :
  get_all_banking_account_transactions (Fixtures.serving Fixtures.no_page)
    (PyDate (Date 2020 1 1)) (PyDate (Date 2020 1 31)) "./"
    (World Fixtures.with_accounts ∅ [])
  = (Raise ParserError,
     World Fixtures.with_accounts ∅ ([] ++ [EGet (base_url +:+ "/umsaetze")])) /\
  get_all_banking_account_transactions Fixtures.portal_down
    (PyDate (Date 2020 1 1)) (PyDate (Date 2020 1 31)) "./"
    (World Fixtures.with_accounts ∅ [])
  = (Raise (RuntimeError "Could not find selection forms."),
     World Fixtures.with_accounts ∅ ([] ++ [EGet (base_url +:+ "/umsaetze")])).
Proof.
  split.
  - apply (proj1 (export_without_form (Fixtures.serving Fixtures.no_page)
                    (Date 2020 1 1) (Date 2020 1 31) "./"
                    (World Fixtures.with_accounts ∅ []) "/umsaetze" eq_refl)).
    reflexivity.
  - apply (proj2 (export_without_form Fixtures.portal_down
                    (Date 2020 1 1) (Date 2020 1 31) "./"
                    (World Fixtures.with_accounts ∅ []) "/umsaetze" eq_refl)
             [Form (Some "/search") (list_to_map [("q", "")]) ∅]).
    + reflexivity.
    + constructor; [vm_compute; reflexivity | constructor].
Defined.

Section ExportFacts.

Context (E : env) (destination s e : string).

(** The loop over accounts that line 230 all keeps out: a pause for each. *)
Lemma export_loop_all_excluded accs (f : form) (keys : list string) (w : world) :
  Forall (fun o => exists name, dict_getitem o accs = Ok name /\ excluded name = true)
    keys ->
  export_loop E destination s e accs f keys w =
  (Ok f, World (sess w) (fs w) (trace w ++ replicate (length keys) (ESleep 5))).
Proof.
  revert w. induction keys as [|o rest IH]; intros w Hall.
  - cbn. rewrite app_nil_r. by destruct w.
  - apply Forall_cons in Hall as [(name & Hname & Hex) Hall].
    rewrite export_loop_cons. unfold exported. rewrite Hname, Hex. cbn [negb].
    rewrite (IH _ Hall). cbn [sess fs trace length replicate].
    rewrite <- app_assoc. reflexivity.
Qed.

(** The requests of one export: the POST of the form, then, when the
    result page has the export link, the GET of the export. *)
Lemma export_account_requests (f : form) (o : string) (w : world) r w' :
  export_account E destination s e f o w = (r, w') ->
  match r with
  | Ok f' =>
      exists a csv_url,
        action f = Some a /\
        requested (trace w') =
          requested (trace w) ++ [base_url +:+ a; base_url +:+ csv_url] /\
        action f' = action f /\
        fields f' = export_data s e f o
  | Raise _ => True
  end.
Proof.
  unfold export_account, bind, lift, http_post, http_get, write_file, ret.
  cbn -[base_url csv_path requested fill_selection_form].
  destruct (fill_selection_form s e f o) as [filled|err] eqn:Hfill;
    [|intros [= <- <-]; exact I].
  apply fill_selection_form_filled in Hfill as ->.
  cbn -[base_url csv_path requested export_data].
  destruct (action f) as [a|] eqn:Ha; cbn -[base_url csv_path requested export_data];
    [|intros [= <- <-]; exact I].
  destruct (Bs4.getitem _ _) as [csv_url|err];
    cbn -[base_url csv_path requested export_data];
    [|intros [= <- <-]; exact I].
  destruct (writable E _); intros [= <- <-]; [|exact I].
  exists a, csv_url. cbn -[base_url csv_path requested export_data].
  rewrite !requested_app. cbn -[base_url export_data]. rewrite app_nil_r, <- app_assoc.
  auto.
Qed.

(** A loop that completes has sent two requests for each account that
    line 230 lets through. *)
Lemma export_loop_requests accs (f : form) (keys : list string) (w : world) f' w' :
  export_loop E destination s e accs f keys w = (Ok f', w') ->
  length (requested (trace w')) =
  length (requested (trace w)) + 2 * length (List.filter (exported accs) keys).
Proof.
  revert f w. induction keys as [|o rest IH]; intros f w Hrun.
  - injection Hrun as _ <-. cbn. lia.
  - rewrite export_loop_cons in Hrun.
    destruct (dict_getitem o accs); [|discriminate].
    cbn [List.filter]. destruct (exported accs o).
    + destruct (export_account _ _ _ _ _ _ _) as [[f1|err] w1] eqn:Hacc; [|discriminate].
      apply export_account_requests in Hacc as (act & csv_url & _ & Hreq & _).
      apply IH in Hrun. cbn [trace] in Hrun.
      rewrite requested_app in Hrun. cbn [requested flat_map] in Hrun.
      rewrite app_nil_r, Hreq, length_app in Hrun. cbn [length] in *. lia.
    + apply IH in Hrun. cbn [trace] in Hrun.
      rewrite requested_app in Hrun. cbn [requested flat_map] in Hrun.
      rewrite app_nil_r in Hrun. exact Hrun.
Qed.

End ExportFacts.

Lemma dict_getitem_of_key (d : dict) (o : string) :
  o ∈ dict_keys d -> exists name, dict_getitem o d = Ok name /\ (o, name) ∈ d.
Proof.
  unfold dict_getitem. induction d as [|[k v] d IH]; cbn.
  - by intros ?%elem_of_nil.
  - intros Hin. destruct (String.eqb k o) eqn:Hk.
    + apply String.eqb_eq in Hk as ->. exists v. split; [reflexivity|].
      apply list_elem_of_here.
    + apply elem_of_cons in Hin as [->|Hin]; [by rewrite String.eqb_refl in Hk|].
      destruct (IH Hin) as (name & Hname & Hmem). exists name.
      split; [exact Hname | by apply list_elem_of_further].
Qed.

(** X25.  When every account of the directory is excluded (its display
    name contains ['PayPal']), and so too when the directory is empty,
    the export returns after one request, the GET of the transactions
    page: it posts no query, writes no file, and pauses five seconds for
    each account of the directory. *)
Theorem export_of_excluded_accounts (E : env) (start_date end_date : date)
    (destination : string) (w : world) (u : string) (f : form) (accs : dict) :
  umsatz_url (sess w) = Some u ->
  find_form "slAllAccounts" (forms (selection_page E w u)) = Some f ->
  accounts (sess w) = Some accs ->
  Forall (fun kv => excluded kv.2 = true) accs ->
  get_all_banking_account_transactions E (PyDate start_date) (PyDate end_date)
    destination w
  = (Ok tt,
     World (sess w) (fs w)
       (trace w ++ EGet (base_url +:+ u) :: replicate (length accs) (ESleep 5))).
Proof.
  intros Hu Hf Haccs Hall.
  rewrite export_run, Hu, (found_form_parsed _ _ _ Hf), Hf, Haccs.
  rewrite export_loop_all_excluded.
  - unfold after_selection_page, dict_keys. cbn [sess fs trace].
    rewrite length_map, <- app_assoc. reflexivity.
  - apply Forall_forall. intros o Ho.
    destruct (dict_getitem_of_key accs o Ho) as (name & Hname & Hmem).
    exists name. split; [exact Hname|].
    rewrite Forall_forall in Hall. exact (Hall _ Hmem).
Qed.

Lemma export_of_excluded_accounts_witness :
  get_all_banking_account_transactions (Fixtures.portal "secret" 200 false)
    (PyDate (Date 2020 1 1)) (PyDate (Date 2020 1 31)) "./"
    (World Cases.with_paypal_only ∅ [])
  = (Ok tt,
     World Cases.with_paypal_only ∅
       ([] ++ EGet (base_url +:+ "/umsaetze") :: replicate 2 (ESleep 5))).
Proof.
  apply (export_of_excluded_accounts (Fixtures.portal "secret" 200 false)
           (Date 2020 1 1) (Date 2020 1 31) "./" (World Cases.with_paypal_only ∅ [])
           "/umsaetze" Fixtures.selection_form Cases.paypal_only);
    try (vm_compute; reflexivity).
  repeat constructor.
Defined.

(** X26.  The transactions page is fetched once for the whole run, not
    once per account: an export that completes has sent one request for
    the page and two for each exported account, the POST of the query and
    the GET of the CSV. *)
Theorem export_request_count (E : env) (start_date end_date : date)
    (destination : string) (w w' : world) (accs : dict) :
  accounts (sess w) = Some accs ->
  get_all_banking_account_transactions E (PyDate start_date) (PyDate end_date)
    destination w = (Ok tt, w') ->
  length (requested (trace w')) =
  length (requested (trace w)) + 1
  + 2 * length (List.filter (exported accs) (dict_keys accs)).
Proof.
  intros Haccs Hrun. rewrite export_run, Haccs in Hrun.
  destruct (umsatz_url (sess w)) as [u|]; [|discriminate].
  destruct (fromstring_forms _); [|discriminate].
  destruct (find_form _ _) as [f|]; [|discriminate].
  destruct (export_loop _ _ _ _ _ _ _ _) as [[f'|err] w1] eqn:Hloop; [|discriminate].
  injection Hrun as ->. apply export_loop_requests in Hloop.
  unfold after_selection_page in Hloop. cbn [trace] in Hloop.
  rewrite requested_app, length_app in Hloop. cbn [requested flat_map app length] in Hloop.
  lia.
Qed.

Lemma export_request_count_witness :
  Fixtures.export_of_january.1 = Ok tt /\
  length (requested (trace Fixtures.export_of_january.2)) = 5.
Proof.
  split; [vm_compute; reflexivity|].
  rewrite (export_request_count (Fixtures.portal "secret" 200 false)
             (Date 2020 1 1) (Date 2020 1 31) "./"
             (World Fixtures.with_accounts ∅ []) Fixtures.export_of_january.2
             Fixtures.three_accounts eq_refl).
  - reflexivity.
  - vm_compute. reflexivity.
Defined.

(** X27.  The query of an account.  When the selection form takes the
    four assignments of lines 231-234 (it has the four inputs, its
    selector offers the account and its search mode offers ['1']) and has
    an action, the export posts to that action the fields of the form
    with the account, the search mode ['1'] and the two dates set, and
    every other field as the page gave it.  The form object is shared by
    all the accounts, and the four assignments of an earlier account do
    not show in the query of a later one. *)
Theorem export_posts_query (E : env) (destination s e : string) (f : form)
    (o a : string) (w : world) :
  check_field "slAllAccounts" o f = Ok tt ->
  check_field "searchPeriodRadio" "1" f = Ok tt ->
  check_field "transactionDate" s f = Ok tt ->
  check_field "toTransactionDate" e f = Ok tt ->
  action f = Some a ->
  let data := export_data s e f o in
  (exists more,
     trace (export_account E destination s e f o w).2
     = trace w ++ EPost (base_url +:+ a) data :: more) /\
  data !! "slAllAccounts" = Some o /\
  data !! "searchPeriodRadio" = Some "1" /\
  data !! "transactionDate" = Some s /\
  data !! "toTransactionDate" = Some e /\
  (forall key,
     key <> "slAllAccounts" -> key <> "searchPeriodRadio" ->
     key <> "transactionDate" -> key <> "toTransactionDate" ->
     data !! key = fields f !! key) /\
  (forall o', export_data s e (Form (action f) data (choices f)) o'
              = export_data s e f o').
Proof.
  intros H1 H2 H3 H4 Ha data. split; [|split; [|split; [|split; [|split; [|split]]]]].
  - unfold export_account, bind, lift, http_post, http_get, write_file, ret.
    rewrite fill_selection_form_checked, H1, H2, H3, H4. fold data.
    cbn -[base_url csv_path data]. rewrite Ha. cbn -[base_url csv_path data].
    destruct (Bs4.getitem _ _) as [csv_url|err]; cbn -[base_url csv_path data].
    + destruct (writable E _); cbn -[base_url csv_path data];
        rewrite <- !app_assoc; eauto.
    + eauto.
  - unfold data, export_data.
    rewrite !lookup_insert_ne by discriminate. apply lookup_insert_eq.
  - unfold data, export_data.
    rewrite !lookup_insert_ne by discriminate. apply lookup_insert_eq.
  - unfold data, export_data.
    rewrite !lookup_insert_ne by discriminate. apply lookup_insert_eq.
  - unfold data, export_data. apply lookup_insert_eq.
  - intros key K1 K2 K3 K4. unfold data, export_data.
    rewrite !lookup_insert_ne by congruence. reflexivity.
  - intros o'. unfold data, export_data. cbn [fields].
    apply map_eq. intros key. rewrite !lookup_insert.
    repeat case_decide; subst; try reflexivity; try discriminate; congruence.
Qed.

Lemma export_posts_query_witness :
  (exists more,
     trace (export_account (Fixtures.portal "secret" 200 false) "./" "01.01.2020"
              "31.01.2020" Fixtures.selection_form "2"
              (World Fixtures.with_accounts ∅ [])).2
     = [] ++ EPost (base_url +:+ "/banking/umsaetze")
               (export_data "01.01.2020" "31.01.2020" Fixtures.selection_form "2")
             :: more) /\
  export_data "01.01.2020" "31.01.2020" Fixtures.form_after_first_export "2"
  = export_data "01.01.2020" "31.01.2020" Fixtures.selection_form "2".
Proof.
  destruct (export_posts_query (Fixtures.portal "secret" 200 false) "./" "01.01.2020"
              "31.01.2020" Fixtures.selection_form "0" "/banking/umsaetze"
              (World Fixtures.with_accounts ∅ []) eq_refl eq_refl eq_refl eq_refl eq_refl)
    as (_ & _ & _ & _ & _ & _ & Hreuse).
  destruct (export_posts_query (Fixtures.portal "secret" 200 false) "./" "01.01.2020"
              "31.01.2020" Fixtures.selection_form "2" "/banking/umsaetze"
              (World Fixtures.with_accounts ∅ []) eq_refl eq_refl eq_refl eq_refl eq_refl)
    as (Hpost & _).
  split; [exact Hpost | exact (Hreuse "2")].
Defined.

(** X28.  An export replaces the file of its account: unlike a download,
    it does not look whether the file exists.  When the export of an
    account goes through, the file named after the account and the dates
    holds what was written last, and every other file is as it was. *)
Theorem export_account_overwrites (E : env) (destination s e : string) (f f' : form)
    (o : string) (w w' : world) :
  export_account E destination s e f o w = (Ok f', w') ->
  exists content before,
    trace w' = before ++ [EWrite (csv_path destination s e o) content] /\
    fs w' !! csv_path destination s e o = Some content /\
    (forall path, path <> csv_path destination s e o -> fs w' !! path = fs w !! path).
Proof.
  unfold export_account, bind, lift, http_post, http_get, write_file, ret.
  cbn -[base_url csv_path fill_selection_form].
  destruct (fill_selection_form s e f o) as [filled|err]; [|discriminate].
  cbn -[base_url csv_path].
  destruct (concat_url base_url (action filled)) as [post_url|err]; [|discriminate].
  cbn -[base_url csv_path].
  destruct (Bs4.getitem _ _) as [csv_url|err]; cbn -[base_url csv_path]; [|discriminate].
  destruct (writable E _); [|discriminate].
  intros [= _ <-]. cbn -[base_url csv_path]. eexists _, _.
  split; [reflexivity|]. split; [apply lookup_insert_eq|].
  intros path Hne. by apply lookup_insert_ne.
Qed.

Lemma export_account_overwrites_witness :
  exists f' w' content before,
    export_account (Fixtures.portal "secret" 200 false) "./" "01.01.2020" "31.01.2020"
      Fixtures.selection_form "0"
      (World Fixtures.with_accounts
         (list_to_map [("./ac0_01.01.2020_to_31.01.2020.csv", "stale")]) [])
      = (Ok f', w') /\
    trace w' = before ++ [EWrite "./ac0_01.01.2020_to_31.01.2020.csv" content] /\
    fs w' !! "./ac0_01.01.2020_to_31.01.2020.csv" = Some content /\
    content = "csv of account 0".
Proof.
  pose (run := export_account (Fixtures.portal "secret" 200 false) "./" "01.01.2020"
                 "31.01.2020" Fixtures.selection_form "0"
                 (World Fixtures.with_accounts
                    (list_to_map [("./ac0_01.01.2020_to_31.01.2020.csv", "stale")]) [])).
  assert (Hrun : run = (Ok Fixtures.form_after_first_export, run.2))
    by (vm_compute; reflexivity).
  destruct (export_account_overwrites _ _ _ _ _ _ _ _ _ Hrun)
    as (content & before & Htrace & Hfs & _).
  exists Fixtures.form_after_first_export, run.2, content, before.
  split; [exact Hrun|]. split; [exact Htrace|]. split; [exact Hfs|].
  assert (Hc : fs run.2 !! "./ac0_01.01.2020_to_31.01.2020.csv" = Some "csv of account 0")
    by (vm_compute; reflexivity).
  change (csv_path "./" "01.01.2020" "31.01.2020" "0")
    with "./ac0_01.01.2020_to_31.01.2020.csv" in Hfs.
  congruence.
Defined.

(** X30.  What stops the export of an account before its query is
    posted.  When the selector of the form does not offer the key of the
    account, the assignment of line 231 raises [ValueError]; when the
    form takes the account and the search mode but has no input
    [transactionDate], the assignment of line 233 raises [KeyError].  In
    both cases nothing has been sent or written for the account. *)
Theorem export_account_stopped_before_post (E : env) (destination s e : string)
    (f : form) (o : string) (w : world) :
  (forall offered,
     is_Some (fields f !! "slAllAccounts") ->
     choices f !! "slAllAccounts" = Some offered ->
     o ∉ offered ->
     export_account E destination s e f o w = (Raise ValueError, w)) /\
  (check_field "slAllAccounts" o f = Ok tt ->
   check_field "searchPeriodRadio" "1" f = Ok tt ->
   fields f !! "transactionDate" = None ->
   export_account E destination s e f o w = (Raise KeyError, w)).
Proof.
  split.
  - intros offered [v Hv] Hoffered Hnot.
    unfold export_account, bind, lift. rewrite fill_selection_form_checked.
    unfold check_field at 1. rewrite Hv, Hoffered.
    destruct (existsb (String.eqb o) offered) eqn:Hex; [|reflexivity].
    apply existsb_exists in Hex as (x & Hin & Hx). apply String.eqb_eq in Hx as <-.
    exfalso. by apply Hnot, list_elem_of_In.
  - intros H1 H2 Hnone.
    unfold export_account, bind, lift. rewrite fill_selection_form_checked, H1, H2.
    unfold check_field at 1. rewrite Hnone. reflexivity.
Qed.

Lemma export_account_stopped_before_post_witness :
  export_account (Fixtures.portal "secret" 200 false) "./" "01.01.2020" "31.01.2020"
    Cases.form_without_dates "7" (World Fixtures.with_accounts ∅ [])
  = (Raise ValueError, World Fixtures.with_accounts ∅ []) /\
  export_account (Fixtures.portal "secret" 200 false) "./" "01.01.2020" "31.01.2020"
    Cases.form_without_dates "2" (World Fixtures.with_accounts ∅ [])
  = (Raise KeyError, World Fixtures.with_accounts ∅ []).
Proof.
  split.
  - apply (proj1 (export_account_stopped_before_post (Fixtures.portal "secret" 200 false)
                    "./" "01.01.2020" "31.01.2020" Cases.form_without_dates "7"
                    (World Fixtures.with_accounts ∅ [])) ["0"; "2"]).
    + vm_compute. eauto.
    + vm_compute. reflexivity.
    + intros Hin. apply list_elem_of_In in Hin. simpl in Hin.
      destruct Hin as [H|[H|[]]]; discriminate H.
  - apply (proj2 (export_account_stopped_before_post (Fixtures.portal "secret" 200 false)
                    "./" "01.01.2020" "31.01.2020" Cases.form_without_dates "2"
                    (World Fixtures.with_accounts ∅ [])));
      vm_compute; reflexivity.
Defined.
